(** * Track-Your-Meds front end: the HTTP client layer and its callers

    A shallow embedding of [src/services/api.ts] (the [ApiService] class:
    time-out, retry, request execution, error normalisation, the typed
    endpoint methods and the health check) and of the optimistic toggle of
    the home screen ([handleToggleActive]).

    Conventions of the embedding.
    - JavaScript values that travel as JSON are terms of [Js.value]; numbers
      are the integers ([Z]), printed in decimal as JavaScript prints an
      integer of magnitude below 1e21.
    - Strings are [string]; [Js.includes s sub] is [s.includes(sub)].  The
      patterns the client searches for are ASCII, for which matching on
      bytes and matching on UTF-16 code units agree.
    - An [async] function is a state transformer over the [World]: the
      network the client talks to and the chronological trace of what the
      client did to it (fetch calls, waits).  It returns how its promise
      settles: [Fulfilled v] or [Rejected e].
    - [console.log] and [console.error] only write diagnostics and are left
      out. *)

From Stdlib Require Import String Ascii List ZArith Bool Lia DecimalString.
Import ListNotations.
Open Scope string_scope.
Open Scope Z_scope.

(* ================================================================== *)
(** ** JavaScript strings and JSON values *)
(* ================================================================== *)

Module Js.

(** [`${n}`] for an integer [n]. *)
Definition string_of_Z (n : Z) : string := NilZero.string_of_int (Z.to_int n).

(** [s.includes(sub)]: [sub] occurs in [s] as a contiguous substring. *)
Fixpoint includes (s sub : string) : bool :=
  String.prefix sub s ||
  match s with
  | EmptyString => false
  | String _ s' => includes s' sub
  end.

(** A string is falsy exactly when it is empty. *)
Definition is_empty (s : string) : bool :=
  match s with
  | EmptyString => true
  | String _ _ => false
  end.

(** [a || b] on strings. *)
Definition or_else (a b : string) : string := if is_empty a then b else a.

(** The values [JSON.stringify] and [response.json()] exchange.  An object
    is the list of its own enumerable properties in insertion order. *)
#[local] Set Warnings "-register-all".
Inductive value : Type :=
| JNull
| JBool (b : bool)
| JNum (n : Z)
| JStr (s : string)
| JArr (elems : list value)
| JObj (props : list (string * value)).

(** The empty object literal [{}]. *)
Definition empty_object : value := JObj [].

(** Truthiness of an optional argument ([None] is [undefined]). *)
Definition truthy (v : option value) : bool :=
  match v with
  | None => false
  | Some JNull => false
  | Some (JBool b) => b
  | Some (JNum n) => negb (n =? 0)
  | Some (JStr s) => negb (is_empty s)
  | Some (JArr _) => true
  | Some (JObj _) => true
  end.

Definition dquote : ascii := ascii_of_nat 34.
Definition backslash : ascii := ascii_of_nat 92.

Definition hex_digit (n : nat) : ascii :=
  if (n <? 10)%nat then ascii_of_nat (48 + n) else ascii_of_nat (87 + n).

(** The escape [JSON.stringify] emits for one character of a string. *)
Definition escape_char (c : ascii) : string :=
  let n := nat_of_ascii c in
  if (n =? 34)%nat then String backslash (String dquote EmptyString)
  else if (n =? 92)%nat then String backslash (String backslash EmptyString)
  else if (n =? 8)%nat then String backslash "b"
  else if (n =? 12)%nat then String backslash "f"
  else if (n =? 10)%nat then String backslash "n"
  else if (n =? 13)%nat then String backslash "r"
  else if (n =? 9)%nat then String backslash "t"
  else if (n <? 32)%nat then
    String backslash
      ("u00" ++ String (hex_digit (n / 16)) (String (hex_digit (n mod 16)) EmptyString))
  else String c EmptyString.

Fixpoint escape (s : string) : string :=
  match s with
  | EmptyString => EmptyString
  | String c s' => escape_char c ++ escape s'
  end.

(** A JSON string literal. *)
Definition quote (s : string) : string :=
  String dquote (escape s ++ String dquote EmptyString).

(** [JSON.stringify(v)] with no indentation: members separated by a comma,
    a key and its value by a colon, properties in insertion order. *)
Fixpoint JSON_stringify (v : value) : string :=
  match v with
  | JNull => "null"
  | JBool true => "true"
  | JBool false => "false"
  | JNum n => string_of_Z n
  | JStr s => quote s
  | JArr elems =>
      "[" ++
      (fix items (l : list value) : string :=
         match l with
         | [] => EmptyString
         | [x] => JSON_stringify x
         | x :: rest => JSON_stringify x ++ "," ++ items rest
         end) elems
      ++ "]"
  | JObj props =>
      "{" ++
      (fix members (l : list (string * value)) : string :=
         match l with
         | [] => EmptyString
         | [(k, x)] => quote k ++ ":" ++ JSON_stringify x
         | (k, x) :: rest => quote k ++ ":" ++ JSON_stringify x ++ "," ++ members rest
         end) props
      ++ "}"
  end.

(** [{...a, ...b}] on string-keyed records: the keys of [a] keep their
    place and take the value [b] gives them, the keys only [b] has follow. *)
Fixpoint assign {A : Type} (a : list (string * A)) (k : string) (x : A) : list (string * A) :=
  match a with
  | [] => [(k, x)]
  | (k', x') :: rest =>
      if String.eqb k' k then (k', x) :: rest else (k', x') :: assign rest k x
  end.

Definition spread {A : Type} (a b : list (string * A)) : list (string * A) :=
  fold_left (fun acc kv => assign acc (fst kv) (snd kv)) b a.

(** Reads a text written with apostrophes as the same text with double
    quotes; used to write expected JSON texts legibly. *)
Fixpoint dq (s : string) : string :=
  match s with
  | EmptyString => EmptyString
  | String c s' => String (if (nat_of_ascii c =? 39)%nat then dquote else c) (dq s')
  end.

End Js.

(* ================================================================== *)
(** ** The platform: errors, promises, fetch *)
(* ================================================================== *)

(** What [instanceof] can tell about a thrown value.  [NotAnError] stands
    for a thrown value that is no [Error] object at all. *)
Inductive ErrorClass : Type :=
| PlainError
| TypeError
| SyntaxError
| NotAnError.

Record JsError : Type := mkError {
  error_class : ErrorClass;
  message : string
}.

(** [new Error(msg)]. *)
Definition new_Error (msg : string) : JsError := mkError PlainError msg.

(** [new TypeError(msg)]. *)
Definition new_TypeError (msg : string) : JsError := mkError TypeError msg.

(** [error instanceof TypeError]. *)
Definition instanceof_TypeError (error : JsError) : bool :=
  match error_class error with
  | TypeError => true
  | _ => false
  end.

(** [error instanceof Error]: every error class derives from [Error]. *)
Definition instanceof_Error (error : JsError) : bool :=
  match error_class error with
  | NotAnError => false
  | _ => true
  end.

(** How a promise settles. *)
Inductive Settled (A : Type) : Type :=
| Fulfilled (a : A)
| Rejected (e : JsError).

Arguments Fulfilled {A} a.
Arguments Rejected {A} e.

(** A promise in flight, by what will become of it: it settles some
    milliseconds after it was created, or it never does. *)
Inductive Promise (A : Type) : Type :=
| SettlesAfter (ms : Z) (how : Settled A)
| NeverSettles.

Arguments SettlesAfter {A} ms how.
Arguments NeverSettles {A}.

Inductive Method : Type := GET | POST | PUT | DELETE | PATCH.

Definition Method_eqb (a b : Method) : bool :=
  match a, b with
  | GET, GET | POST, POST | PUT, PUT | DELETE, DELETE | PATCH, PATCH => true
  | _, _ => false
  end.

(** The [RequestInit] handed to [fetch]. *)
Record RequestInit : Type := mkRequestInit {
  method : Method;
  headers : list (string * string);
  body : option string
}.

(** The [Response] a fetch is fulfilled with, by what the client reads of
    it.  [text] and [json] are how [response.text()] and [response.json()]
    settle. *)
Record Response : Type := mkResponse {
  status : Z;
  ok : bool;
  statusText : string;
  headers_get : string -> option string;
  text : Settled string;
  json : Settled Js.value
}.

(** What the client does to the outside, in the order it does it. *)
Inductive Event : Type :=
| EvFetch (url : string) (config : RequestInit)
| EvDelay (ms : Z).

Definition is_fetch (ev : Event) : bool :=
  match ev with
  | EvFetch _ _ => true
  | EvDelay _ => false
  end.

(** Number of fetch calls in a trace. *)
Definition fetch_count (tr : list Event) : nat := length (filter is_fetch tr).

(** The network decides what becomes of the [i]-th fetch call (counted from
    0) from its position and its arguments. *)
Definition Network : Type := nat -> string -> RequestInit -> Promise Response.

Record World : Type := mkWorld {
  network : Network;
  trace : list Event
}.

Definition record_event (ev : Event) (w : World) : World :=
  mkWorld (network w) (trace w ++ [ev]).

(** [fetch(url, config)]: the call is issued, the promise is in flight. *)
Definition fetch (url : string) (config : RequestInit) (w : World)
  : Promise Response * World :=
  (network w (fetch_count (trace w)) url config, record_event (EvFetch url config) w).

(* ================================================================== *)
(** ** Async functions *)
(* ================================================================== *)

(** An async computation, awaited: from the world it starts in to how it
    settles and the world it leaves. *)
Definition Async (A : Type) : Type := World -> Settled A * World.

Definition ret {A : Type} (a : A) : Async A := fun w => (Fulfilled a, w).

(** [throw e]. *)
Definition throw {A : Type} (e : JsError) : Async A := fun w => (Rejected e, w).

(** [const x = await c; k x]. *)
Definition bind {A B : Type} (c : Async A) (k : A -> Async B) : Async B :=
  fun w =>
    match c w with
    | (Fulfilled a, w') => k a w'
    | (Rejected e, w') => (Rejected e, w')
    end.

(** [try { c } catch (error) { handler error }]. *)
Definition try_catch {A : Type} (c : Async A) (handler : JsError -> Async A) : Async A :=
  fun w =>
    match c w with
    | (Fulfilled a, w') => (Fulfilled a, w')
    | (Rejected e, w') => handler e w'
    end.

(** [await p] for a promise that is already settled, such as the body
    readers of a [Response]. *)
Definition await {A : Type} (p : Settled A) : Async A := fun w => (p, w).

(** [await new Promise(resolve => setTimeout(resolve, ms))]. *)
Definition delay (ms : Z) : Async unit :=
  fun w => (Fulfilled tt, record_event (EvDelay ms) w).

Declare Scope async_scope.
Delimit Scope async_scope with async.
Notation "x <- c ;; k" := (bind c (fun x => k))
  (at level 61, c at next level, right associativity) : async_scope.
Notation "c ;; k" := (bind c (fun _ => k))
  (at level 61, right associativity) : async_scope.
Open Scope async_scope.

(* ================================================================== *)
(** ** [API_CONFIG] *)
(* ================================================================== *)

(** [Platform.OS]. *)
Inductive PlatformOS : Type := ios | android | windows | macos | web.

(** [Platform.select({ios, android, default})]. *)
Definition Platform_select {A : Type} (os : PlatformOS) (on_ios on_android default : A) : A :=
  match os with
  | ios => on_ios
  | android => on_android
  | _ => default
  end.

Module API_CONFIG.

(** [dev] is the build flag [__DEV__]. *)
Definition BASE_URL (dev : bool) (os : PlatformOS) : string :=
  if dev
  then Platform_select os
         "http://localhost:5050/api"
         "http://10.0.2.2:5050/api"
         "http://192.168.11.58:5050/api"
  else "https://your-production-domain.com/api".

Definition TIMEOUT : Z := 5000.
Definition RETRY_ATTEMPTS : Z := 2.
Definition RETRY_DELAY : Z := 500.

End API_CONFIG.

(* ================================================================== *)
(** ** [class ApiService] *)
(* ================================================================== *)

Record RequestOptions : Type := mkOptions {
  opt_method : option Method;
  opt_headers : option (list (string * string));
  opt_body : option Js.value;
  opt_timeout : option Z
}.

(** A destructuring default: [x = d]. *)
Definition or_default {A : Type} (x : option A) (d : A) : A :=
  match x with
  | Some a => a
  | None => d
  end.

Record ApiService : Type := mkApiService {
  baseURL : string;
  defaultHeaders : list (string * string)
}.

(** The constructor. *)
Definition new_ApiService (dev : bool) (os : PlatformOS) : ApiService :=
  mkApiService
    (API_CONFIG.BASE_URL dev os)
    [("Content-Type", "application/json"); ("Accept", "application/json")].

(** The singleton [apiService] of a build. *)
Definition apiService (dev : bool) (os : PlatformOS) : ApiService := new_ApiService dev os.

(** [withTimeout(promise, timeoutMs)]: the race of [promise] against a timer
    that rejects with ['Request timeout'].  The race always settles; this
    is how.  [Promise.race] lists [promise] first, so it wins a tie. *)
Definition withTimeout {T : Type} (promise : Promise T) (timeoutMs : Z) : Settled T :=
  match promise with
  | SettlesAfter ms how =>
      if ms <=? timeoutMs then how else Rejected (new_Error "Request timeout")
  | NeverSettles => Rejected (new_Error "Request timeout")
  end.

(** The recursion of [withRetry] on the number of re-invocations it may
    still make, [attempts - 1] when [attempts > 1] and none otherwise. *)
Fixpoint withRetry_loop {T : Type} (operation : Async T) (retries : nat) : Async T :=
  try_catch operation
    (fun error =>
       match retries with
       | S retries' => delay API_CONFIG.RETRY_DELAY ;; withRetry_loop operation retries'
       | O => throw error
       end).

(** [withRetry(operation, attempts)]; [withRetry_unfold] below is the body
    of the source method. *)
Definition withRetry {T : Type} (operation : Async T) (attempts : Z) : Async T :=
  withRetry_loop operation (Z.to_nat (attempts - 1)).

(** The operation [request] hands to [withRetry]:
    [() => this.withTimeout(fetch(url, config), timeout)]. *)
Definition timed_fetch (url : string) (config : RequestInit) (timeout : Z) : Async Response :=
  fun w =>
    let (promise, w') := fetch url config w in
    (withTimeout promise timeout, w').

(** The [catch] block of [request]. *)
Definition normalize_error {T : Type} (error : JsError) : Async T :=
  if instanceof_TypeError error && Js.includes (message error) "Network request failed"
  then throw (new_Error "Unable to connect to server. Please check your connection.")
  else if instanceof_Error error && Js.includes (message error) "timeout"
  then throw (new_Error "Request timed out. Please try again.")
  else throw error.

(** The [RequestInit] that [request] builds. *)
Definition request_config (this : ApiService) (options : RequestOptions) : RequestInit :=
  let method := or_default (opt_method options) GET in
  let headers := or_default (opt_headers options) [] in
  let body := opt_body options in
  mkRequestInit
    method
    (Js.spread (defaultHeaders this) headers)
    (if Js.truthy body && negb (Method_eqb method GET)
     then option_map Js.JSON_stringify body
     else None).

(** [request<T>(endpoint, options)]. *)
Definition request (this : ApiService) (endpoint : string) (options : RequestOptions)
  : Async Js.value :=
  let timeout := or_default (opt_timeout options) API_CONFIG.TIMEOUT in
  let url := baseURL this ++ endpoint in
  let config := request_config this options in
  try_catch
    (response <- withRetry (timed_fetch url config timeout) API_CONFIG.RETRY_ATTEMPTS ;;
     if negb (ok response) then
       errorText <- await (text response) ;;
       throw (new_Error ("HTTP " ++ Js.string_of_Z (status response) ++ ": "
                           ++ Js.or_else errorText (statusText response)))
     else
       let contentType := headers_get response "content-type" in
       if match contentType with
          | None => true
          | Some ct => Js.is_empty ct || negb (Js.includes ct "application/json")
          end
       then ret Js.empty_object
       else
         data <- await (json response) ;;
         ret data)
    normalize_error.

(** The option literals of the HTTP methods: [{ method: 'GET' }],
    [{ method: 'POST', body: data }] and so on. *)
Definition get_options : RequestOptions := mkOptions (Some GET) None None None.

Definition post_options (data : option Js.value) : RequestOptions :=
  mkOptions (Some POST) None data None.

Definition put_options (data : option Js.value) : RequestOptions :=
  mkOptions (Some PUT) None data None.

Definition patch_options (data : option Js.value) : RequestOptions :=
  mkOptions (Some PATCH) None data None.

Definition delete_options : RequestOptions := mkOptions (Some DELETE) None None None.

Definition get (this : ApiService) (endpoint : string) : Async Js.value :=
  request this endpoint get_options.

Definition post (this : ApiService) (endpoint : string) (data : option Js.value)
  : Async Js.value :=
  request this endpoint (post_options data).

Definition put (this : ApiService) (endpoint : string) (data : option Js.value)
  : Async Js.value :=
  request this endpoint (put_options data).

Definition patch (this : ApiService) (endpoint : string) (data : option Js.value)
  : Async Js.value :=
  request this endpoint (patch_options data).

Definition delete (this : ApiService) (endpoint : string) : Async Js.value :=
  request this endpoint delete_options.

(** *** Symptom endpoints *)

Definition getSymptoms (this : ApiService) : Async Js.value :=
  get this "/symptoms".

Definition getSymptom (this : ApiService) (id : Z) : Async Js.value :=
  get this ("/symptoms/" ++ Js.string_of_Z id).

Definition createSymptom (this : ApiService) (symptom : Js.value) : Async Js.value :=
  post this "/symptoms" (Some symptom).

Definition updateSymptom (this : ApiService) (id : Z) (symptom : Js.value) : Async Js.value :=
  put this ("/symptoms/" ++ Js.string_of_Z id) (Some symptom).

Definition deleteSymptom (this : ApiService) (id : Z) : Async Js.value :=
  delete this ("/symptoms/" ++ Js.string_of_Z id).

(** *** Medication endpoints *)

Definition getMedicationsByStage (this : ApiService) (stageId : Z) : Async Js.value :=
  get this ("/Medication/stage/" ++ Js.string_of_Z stageId).

Definition getMedication (this : ApiService) (id : Z) : Async Js.value :=
  get this ("/Medication/" ++ Js.string_of_Z id).

Definition createMedication (this : ApiService) (medication : Js.value) : Async Js.value :=
  post this "/Medication" (Some medication).

Definition updateMedication (this : ApiService) (id : Z) (medication : Js.value)
  : Async Js.value :=
  put this ("/Medication/" ++ Js.string_of_Z id) (Some medication).

Definition deleteMedication (this : ApiService) (id : Z) : Async Js.value :=
  delete this ("/Medication/" ++ Js.string_of_Z id).

(** *** Stage management *)

Definition createStage (this : ApiService) (stage : Js.value) : Async Js.value :=
  post this "/stages" (Some stage).

Definition updateStage (this : ApiService) (id : Z) (stage : Js.value) : Async Js.value :=
  put this ("/stages/" ++ Js.string_of_Z id) (Some stage).

Definition deleteStage (this : ApiService) (id : Z) : Async Js.value :=
  delete this ("/stages/" ++ Js.string_of_Z id).

(** *** Intake management *)

Definition createIntake (this : ApiService) (intake : Js.value) : Async Js.value :=
  post this "/intakes" (Some intake).

Definition updateIntake (this : ApiService) (id : Z) (intake : Js.value) : Async Js.value :=
  put this ("/intakes/" ++ Js.string_of_Z id) (Some intake).

Definition deleteIntake (this : ApiService) (id : Z) : Async Js.value :=
  delete this ("/intakes/" ++ Js.string_of_Z id).

(** [healthCheck()]. *)
Definition healthCheck (this : ApiService) : Async bool :=
  try_catch
    (get this "/symptoms" ;; ret true)
    (fun error => ret false).

(* ================================================================== *)
(** ** The home screen: the optimistic toggle *)
(* ================================================================== *)

(** The entities of [api.ts], field for field. *)
Record Intake : Type := mkIntake {
  intake_id : Z;
  medicationId : Z;
  scheduledTime : string;
  actualTime : string;
  intake_medication : string
}.

Record Medication : Type := mkMedication {
  medication_id : Z;
  medication_name : string;
  intervalHours : Z;
  totalDays : Z;
  quantityMg : Z;
  treatmentId : option Z;
  stageId : Z;
  medication_stage : option string;
  intakes : option (list Intake)
}.

Record Stage : Type := mkStage {
  stage_id : Z;
  stage_name : string;
  symptomId : Z;
  stage_symptom : string;
  medication : list Medication
}.

Record Symptom : Type := mkSymptom {
  id : Z;
  name : string;
  isActive : bool;
  stages : list Stage
}.

(** The JavaScript object behind a typed entity, its keys in the order of
    the interface. *)
Definition nullable {A : Type} (f : A -> Js.value) (x : option A) : Js.value :=
  match x with
  | Some a => f a
  | None => Js.JNull
  end.

Definition Intake_object (i : Intake) : Js.value :=
  Js.JObj [("id", Js.JNum (intake_id i));
           ("medicationId", Js.JNum (medicationId i));
           ("scheduledTime", Js.JStr (scheduledTime i));
           ("actualTime", Js.JStr (actualTime i));
           ("medication", Js.JStr (intake_medication i))].

Definition Medication_object (m : Medication) : Js.value :=
  Js.JObj [("id", Js.JNum (medication_id m));
           ("name", Js.JStr (medication_name m));
           ("intervalHours", Js.JNum (intervalHours m));
           ("totalDays", Js.JNum (totalDays m));
           ("quantityMg", Js.JNum (quantityMg m));
           ("treatmentId", nullable Js.JNum (treatmentId m));
           ("stageId", Js.JNum (stageId m));
           ("stage", nullable Js.JStr (medication_stage m));
           ("intakes", nullable (fun l => Js.JArr (map Intake_object l)) (intakes m))].

Definition Stage_object (s : Stage) : Js.value :=
  Js.JObj [("id", Js.JNum (stage_id s));
           ("name", Js.JStr (stage_name s));
           ("symptomId", Js.JNum (symptomId s));
           ("symptom", Js.JStr (stage_symptom s));
           ("medication", Js.JArr (map Medication_object (medication s)))].

Definition Symptom_object (s : Symptom) : Js.value :=
  Js.JObj [("id", Js.JNum (id s));
           ("name", Js.JStr (name s));
           ("isActive", Js.JBool (isActive s));
           ("stages", Js.JArr (map Stage_object (stages s)))].

(** [{ ...symptom, isActive: value }]. *)
Definition with_isActive (symptom : Symptom) (value : bool) : Symptom :=
  mkSymptom (id symptom) (name symptom) value (stages symptom).

(** The state of [HomeScreen] the toggle touches, and the alerts shown. *)
Record HomeScreen : Type := mkHomeScreen {
  symptoms : list Symptom;
  alerts : list (string * string)
}.

Definition setSymptoms (l : list Symptom) (screen : HomeScreen) : HomeScreen :=
  mkHomeScreen l (alerts screen).

Definition Alert_alert (title msg : string) (screen : HomeScreen) : HomeScreen :=
  mkHomeScreen (symptoms screen) (alerts screen ++ [(title, msg)]).

(** [handleToggleActive(symptomId, value)], for the handler of the render
    whose state is [symptoms_]: the closure reads that list throughout. *)
Definition handleToggleActive (api : ApiService) (symptoms_ : list Symptom)
    (symptomId : Z) (value : bool) (st : HomeScreen * World) : HomeScreen * World :=
  let (screen, w) := st in
  match find (fun s => id s =? symptomId) symptoms_ with
  | None => (screen, w)
  | Some symptomToUpdate =>
      let updatedSymptoms :=
        map (fun symptom =>
               if id symptom =? symptomId then with_isActive symptom value else symptom)
            symptoms_ in
      let screen := setSymptoms updatedSymptoms screen in
      match updateSymptom api symptomId
              (Symptom_object (with_isActive symptomToUpdate value)) w with
      | (Fulfilled _, w') => (screen, w')
      | (Rejected err, w') =>
          let revertedSymptoms :=
            map (fun symptom =>
                   if id symptom =? symptomId
                   then with_isActive symptom (negb value)
                   else symptom)
                symptoms_ in
          let screen := setSymptoms revertedSymptoms screen in
          (Alert_alert "Error" "Failed to update symptom. Please try again." screen, w')
      end
  end.

(* ================================================================== *)
(** ** Vocabulary of the statements *)
(* ================================================================== *)

(** How the [i]-th fetch call of a world settles under the time-out when it
    is made for [url] and [config]. *)
Definition attempt (w : World) (i : nat) (url : string) (config : RequestInit)
    (timeout : Z) : Settled Response :=
  withTimeout (network w i url config) timeout.

(** The events of [n] consecutive executions of the timed call for one
    request: a fetch each, the retry delay between two of them. *)
Fixpoint attempts_trace (url : string) (config : RequestInit) (n : nat) : list Event :=
  match n with
  | O => []
  | S O => [EvFetch url config]
  | S n' => EvFetch url config :: EvDelay API_CONFIG.RETRY_DELAY :: attempts_trace url config n'
  end.

(** The world after the client has added [evs] to its trace. *)
Definition after (w : World) (evs : list Event) : World :=
  mkWorld (network w) (trace w ++ evs).

(** The message of the error [request] throws for a non-success response
    whose body reads [body_text]. *)
Definition http_error_message (response : Response) (body_text : string) : string :=
  "HTTP " ++ Js.string_of_Z (status response) ++ ": "
    ++ Js.or_else body_text (statusText response).

(** The content type is absent, empty, or does not mention JSON. *)
Definition declares_no_json (response : Response) : bool :=
  match headers_get response "content-type" with
  | None => true
  | Some ct => Js.is_empty ct || negb (Js.includes ct "application/json")
  end.

(** The two user-facing errors of the [catch] block. *)
Definition unable_to_connect : JsError :=
  new_Error "Unable to connect to server. Please check your connection.".

Definition request_timed_out : JsError :=
  new_Error "Request timed out. Please try again.".

(** The [url], [config] and [timeout] that [request] computes. *)
Definition request_url (this : ApiService) (endpoint : string) : string :=
  baseURL this ++ endpoint.

Definition request_timeout (options : RequestOptions) : Z :=
  or_default (opt_timeout options) API_CONFIG.TIMEOUT.

(** The number of fetch calls the client has made so far. *)
Definition issued (w : World) : nat := fetch_count (trace w).

(** How many executions [withRetry] grants an operation: [attempts] of
    them, and one when [attempts] is below one. *)
Definition allowance (attempts : Z) : nat := Z.to_nat (Z.max 1 attempts).

(** The request for [url] and [config] is answered by [response] at its
    [k]-th execution (counted from 0): the executions before it fail, and
    the [k]-th is within the allowance of the default configuration. *)
Definition answered (w : World) (url : string) (config : RequestInit) (timeout : Z)
    (k : nat) (response : Response) : Prop :=
  (k < allowance API_CONFIG.RETRY_ATTEMPTS)%nat /\
  (forall i, (i < k)%nat ->
     exists e, attempt w (issued w + i) url config timeout = Rejected e) /\
  attempt w (issued w + k) url config timeout = Fulfilled response.

(** The promise is still pending when a timer of [timeoutMs] fires. *)
Definition exceeds {T : Type} (promise : Promise T) (timeoutMs : Z) : Prop :=
  match promise with
  | SettlesAfter ms _ => timeoutMs < ms
  | NeverSettles => True
  end.

(** No execution of the request within the default allowance succeeds. *)
Definition unanswered (w : World) (url : string) (config : RequestInit) (timeout : Z) : Prop :=
  forall i, (i < allowance API_CONFIG.RETRY_ATTEMPTS)%nat ->
    exists e, attempt w (issued w + i) url config timeout = Rejected e.

(** Every fetch call that [call] makes, and it makes at least one, is for
    [url] with method [m], headers [hdrs] and a body that is exactly the
    JSON text of [input]; besides them the call only waits between tries. *)
Definition sends_json_of (call : Async Js.value) (m : Method) (url : string)
    (hdrs : list (string * string)) (input : Js.value) : Prop :=
  forall w, exists n, (1 <= n)%nat /\
    snd (call w) =
      after w (attempts_trace url (mkRequestInit m hdrs (Some (Js.JSON_stringify input))) n).

(* ================================================================== *)
(** ** Concrete servers and payloads *)
(* ================================================================== *)

(** The world before the client has done anything. *)
Definition start (net : Network) : World := mkWorld net [].

(** A network that answers the successive fetch calls from a script; once
    the script is used up a call never settles. *)
Definition scripted (script : list (Promise Response)) : Network :=
  fun i _ _ => nth i script NeverSettles.

(** A network on which no call ever settles. *)
Definition silent : Network := scripted [].

(** [Headers.get] of a response whose only header may be the content type. *)
Definition only_content_type (ct : option string) : string -> option string :=
  fun header => if String.eqb header "content-type" then ct else None.

Definition not_json : JsError := mkError SyntaxError "JSON Parse error: Unexpected token".

(** A [2xx] answer carrying [data] as JSON. *)
Definition json_response (code : Z) (line : string) (data : Js.value) : Response :=
  mkResponse code true line
    (only_content_type (Some "application/json; charset=utf-8"))
    (Fulfilled (Js.JSON_stringify data)) (Fulfilled data).

(** [204 No Content]: no body, no content type. *)
Definition no_content : Response :=
  mkResponse 204 true "No Content" (only_content_type None)
    (Fulfilled EmptyString) (Rejected not_json).

(** A non-success answer with a plain-text body. *)
Definition error_response (code : Z) (line body_text : string) : Response :=
  mkResponse code false line (only_content_type (Some "text/plain; charset=utf-8"))
    (Fulfilled body_text) (Rejected not_json).

(** The payload of the [createSymptom] scenario. *)
Definition migraine : Js.value :=
  Js.JObj [("name", Js.JStr "Migraine");
           ("isActive", Js.JBool true);
           ("stages", Js.JArr [
              Js.JObj [("name", Js.JStr "Severe");
                       ("medication", Js.JArr [
                          Js.JObj [("name", Js.JStr "Ibuprofen");
                                   ("quantityMg", Js.JNum 400);
                                   ("intervalHours", Js.JNum 8);
                                   ("totalDays", Js.JNum 5)]])]])].

Definition migraine_text : string :=
  Js.dq "{'name':'Migraine','isActive':true,'stages':[{'name':'Severe','medication':[{'name':'Ibuprofen','quantityMg':400,'intervalHours':8,'totalDays':5}]}]}".

(** What the server stores for it: the same symptom with identifiers. *)
Definition migraine_created : Js.value :=
  Js.JObj [("id", Js.JNum 7);
           ("name", Js.JStr "Migraine");
           ("isActive", Js.JBool true);
           ("stages", Js.JArr [
              Js.JObj [("id", Js.JNum 21);
                       ("name", Js.JStr "Severe");
                       ("symptomId", Js.JNum 7);
                       ("symptom", Js.JStr "Migraine");
                       ("medication", Js.JArr [
                          Js.JObj [("id", Js.JNum 63);
                                   ("name", Js.JStr "Ibuprofen");
                                   ("intervalHours", Js.JNum 8);
                                   ("totalDays", Js.JNum 5);
                                   ("quantityMg", Js.JNum 400);
                                   ("treatmentId", Js.JNull);
                                   ("stageId", Js.JNum 21);
                                   ("stage", Js.JStr "Severe");
                                   ("intakes", Js.JNull)]])]])].

(** One symptom on the home screen, currently active. *)
Definition headache : Symptom := mkSymptom 1 "Headache" true [].

(** The client of a development build on Android. *)
Definition dev_android : ApiService := apiService true android.

(** A server that fails a write after part of it took effect, and would
    accept the same write if it were sent again. *)
Definition half_done_server : Network :=
  scripted [SettlesAfter 40 (Fulfilled (error_response 500 "Internal Server Error"
                                          "stages saved, medication failed"));
            SettlesAfter 40 (Fulfilled (json_response 201 "Created" migraine_created))].

(** A gateway that answers for a backend that did not respond in time. *)
Definition gateway_504 : Network :=
  scripted [SettlesAfter 30 (Fulfilled (error_response 504 "Gateway Timeout"
                                          "Gateway timeout"))].

(** A server that does not know the symptom asked for. *)
Definition symptom_404 : Network :=
  scripted [SettlesAfter 30 (Fulfilled (error_response 404 "Not Found"
                                          "Symptom not found"))].

(** A transport whose connection error mentions the cause. *)
Definition connection_lost : JsError :=
  new_TypeError "Network request failed: connection timeout".

Definition unreachable : Network :=
  scripted [SettlesAfter 20 (Rejected connection_lost);
            SettlesAfter 20 (Rejected connection_lost)].

(** A server that is slow once and then answers. *)
Definition slow_then (response : Response) : Network :=
  scripted [SettlesAfter 9000 (Fulfilled response); SettlesAfter 35 (Fulfilled response)].

(** A server that lists no symptoms. *)
Definition empty_list_server : Network :=
  scripted [SettlesAfter 25 (Fulfilled (json_response 200 "OK" (Js.JArr [])))].

(* ================================================================== *)
(** ** Further vocabulary *)
(* ================================================================== *)

(** Every fetch call that [call] makes, one or two of them, is for [url]
    with method [m] and headers [hdrs], and carries no body. *)
Definition sends_without_body {A : Type} (call : Async A) (m : Method) (url : string)
    (hdrs : list (string * string)) : Prop :=
  forall w, exists n, (1 <= n <= 2)%nat /\
    snd (call w) = after w (attempts_trace url (mkRequestInit m hdrs None) n).

(** A server whose JSON body is cut short: the content type announces
    JSON, reading it fails. *)
Definition truncated_json : Response :=
  mkResponse 200 true "OK" (only_content_type (Some "application/json"))
    (Fulfilled "{") (Rejected not_json).

(** A transport that cannot reach the host, as React Native reports it. *)
Definition network_request_failed : JsError := new_TypeError "Network request failed".

Definition offline : Network :=
  scripted [SettlesAfter 15 (Rejected network_request_failed);
            SettlesAfter 15 (Rejected network_request_failed)].

(** A transport that fails with an error of its own. *)
Definition aborted : JsError := mkError PlainError "Aborted".

Definition aborting : Network :=
  scripted [SettlesAfter 15 (Rejected aborted); SettlesAfter 15 (Rejected aborted)].

(** A server that answers the first call, is silent for the next two,
    and would answer again after that. *)
Definition answers_once_more_later : Network :=
  scripted [SettlesAfter 25 (Fulfilled (json_response 200 "OK" (Js.JArr [])));
            NeverSettles;
            NeverSettles;
            SettlesAfter 25 (Fulfilled (json_response 200 "OK" (Js.JArr [])))].

(** A successful answer in a media type that is not JSON although its
    name starts like it: a JSON text sequence, which [response.json()]
    cannot parse. *)
Definition json_sequence : Response :=
  mkResponse 200 true "OK" (only_content_type (Some "application/json-seq"))
    (Fulfilled (String (ascii_of_nat 30) "{}")) (Rejected not_json).

(** A successful plain-text answer whose content type carries a parameter
    that mentions JSON, and whose text reads as the JSON value [null]. *)
Definition annotated_text : Response :=
  mkResponse 200 true "OK"
    (only_content_type (Some "text/plain; note=application/json"))
    (Fulfilled "null") (Fulfilled Js.JNull).

(* ================================================================== *)
(** ** The home screen: loading and searching *)
(* ================================================================== *)

(** The state [fetchSymptoms] writes.  The list is whatever value the
    call resolved to: [setSymptoms(symptomsData)] stores it unchecked. *)
Record HomeLoad : Type := mkHomeLoad {
  loaded : Js.value;
  loading : bool;
  error : option string;
  load_alerts : list (string * string)
}.

(** [fetchSymptoms()]. *)
Definition fetchSymptoms (api : ApiService) (st : HomeLoad * World) : HomeLoad * World :=
  let (screen, w) := st in
  (* setLoading(true); setError(null); *)
  let screen := mkHomeLoad (loaded screen) true None (load_alerts screen) in
  match getSymptoms api w with
  | (Fulfilled symptomsData, w') =>
      (* setSymptoms(symptomsData); finally setLoading(false) *)
      (mkHomeLoad symptomsData false (error screen) (load_alerts screen), w')
  | (Rejected err, w') =>
      (* setError(...); Alert.alert(...); finally setLoading(false) *)
      (mkHomeLoad (loaded screen) false
         (Some "Failed to load symptoms. Please try again.")
         (load_alerts screen
            ++ [("Error",
                 "Failed to load symptoms. Please check your connection and try again.")]),
       w')
  end.

Section PlatformStrings.

(** [String.prototype.trim] and [String.prototype.toLowerCase], as the
    platform provides them. *)
Variable trim : string -> string.
Variable toLowerCase : string -> string.

(** [filterSymptoms()]: the value it gives [setFilteredSymptoms], from the
    search text and the symptoms of the render. *)
Definition filterSymptoms (searchQuery : string) (symptoms_ : list Symptom) : list Symptom :=
  if Js.is_empty (trim searchQuery)
  then symptoms_
  else filter (fun symptom =>
                 Js.includes (toLowerCase (name symptom)) (toLowerCase searchQuery))
         symptoms_.

End PlatformStrings.

(** Instances of the string methods for ASCII text. *)
Definition is_space (c : ascii) : bool :=
  let n := nat_of_ascii c in
  (n =? 32)%nat || ((9 <=? n)%nat && (n <=? 13)%nat).

Fixpoint trim_start (s : string) : string :=
  match s with
  | EmptyString => EmptyString
  | String c s' => if is_space c then trim_start s' else s
  end.

Fixpoint trim_end (s : string) : string :=
  match s with
  | EmptyString => EmptyString
  | String c s' =>
      let t := trim_end s' in
      if is_space c && Js.is_empty t then EmptyString else String c t
  end.

Definition ascii_trim (s : string) : string := trim_end (trim_start s).

Definition lower_char (c : ascii) : ascii :=
  let n := nat_of_ascii c in
  if (65 <=? n)%nat && (n <=? 90)%nat then ascii_of_nat (n + 32) else c.

Fixpoint ascii_lower (s : string) : string :=
  match s with
  | EmptyString => EmptyString
  | String c s' => String (lower_char c) (ascii_lower s')
  end.

(** Two symptoms to search among. *)
Definition back_pain : Symptom := mkSymptom 2 "Back pain" false [].

(** A server that answers a read with an empty 200 and no content type. *)
Definition bare_ok : Response :=
  mkResponse 200 true "OK" (only_content_type None)
    (Fulfilled EmptyString) (Rejected not_json).

(** A server that accepts an update and returns the stored symptom. *)
Definition accepting (stored : Js.value) : Network :=
  scripted [SettlesAfter 30 (Fulfilled (json_response 200 "OK" stored))].

(* ================================================================== *)
(** ** The forms: adding a symptom and its medications *)
(* ================================================================== *)

(** [PartialMedication] of [api.ts]; an optional field is [None] when the
    key is absent, and a nullable one may hold [null] inside. *)
Record PartialMedication : Type := mkPartialMedication {
  pm_id : option Z;
  pm_name : string;
  pm_intervalHours : Z;
  pm_totalDays : Z;
  pm_quantityMg : Z;
  pm_treatmentId : option (option Z);
  pm_stageId : option Z;
  pm_stage : option (option string);
  pm_intakes : option (option (list Intake))
}.

(** [StageData] of the form components. *)
Record StageData : Type := mkStageData {
  stage_data_name : string;
  medications : list PartialMedication
}.

(** [x || d] on numbers. *)
Definition number_or (x d : Z) : Z := if x =? 0 then d else x.

(** [`${error}`]: [Error.prototype.toString] for an error object; for a
    thrown value that is no error, [message] stands for its string form. *)
Definition Error_toString (e : JsError) : string :=
  let named (n : string) :=
    if Js.is_empty (message e) then n else n ++ ": " ++ message e in
  match error_class e with
  | PlainError => named "Error"
  | TypeError => named "TypeError"
  | SyntaxError => named "SyntaxError"
  | NotAnError => message e
  end.

(** [array[i]] for an integer [i]: [None] is [undefined]. *)
Definition at_index {A : Type} (l : list A) (i : Z) : option A :=
  if i <? 0 then None else nth_error l (Z.to_nat i).

(** The array with the element at position [i] replaced, for a position
    that holds one. *)
Fixpoint replace_at {A : Type} (l : list A) (i : nat) (x : A) : list A :=
  match l, i with
  | [], _ => []
  | _ :: rest, O => x :: rest
  | y :: rest, S i' => y :: replace_at rest i' x
  end.

(** [array.splice(start, 1)], by what is left of the array: a negative
    [start] counts from the end, one beyond the end removes nothing. *)
Definition splice_one {A : Type} (l : list A) (start : Z) : list A :=
  let len := Z.of_nat (length l) in
  let from := if start <? 0 then Z.max (len + start) 0 else Z.min start len in
  (firstn (Z.to_nat from) l ++ skipn (S (Z.to_nat from)) l)%list.

(** *** [AddSymptomScreen]

    An alert is recorded by its title and its message. *)

Record AddSymptomScreen : Type := mkAddSymptomScreen {
  symptomName : string;
  isLoading : bool;
  showSymptomForm : bool;
  add_alerts : list (string * string)
}.

(** The medication object of the payload: four keys, with the defaults
    that replace a zero. *)
Definition api_medication (med : PartialMedication) : Js.value :=
  Js.JObj [("name", Js.JStr (pm_name med));
           ("quantityMg", Js.JNum (number_or (pm_quantityMg med) 0));
           ("intervalHours", Js.JNum (number_or (pm_intervalHours med) 8));
           ("totalDays", Js.JNum (number_or (pm_totalDays med) 5))].

Definition api_stage (stage : StageData) : Js.value :=
  Js.JObj [("name", Js.JStr (stage_data_name stage));
           ("medication", Js.JArr (map api_medication (medications stage)))].

(** [apiStages]: the stages that have medications, formatted. *)
Definition apiStages (stages_ : list StageData) : list Js.value :=
  map api_stage (filter (fun stage => (0 <? length (medications stage))%nat) stages_).

Section Forms.

Variable trim : string -> string.

(** [parseInt(text)]; [None] is [NaN]. *)
Variable parseInt : string -> option Z.

(** [symptomData], the payload of [handleSave]. *)
Definition symptomData (screen : AddSymptomScreen) (stages_ : list StageData) : Js.value :=
  Js.JObj [("name", Js.JStr (trim (symptomName screen)));
           ("isActive", Js.JBool true);
           ("stages", Js.JArr (apiStages stages_))].

(** [handleSave(stages)] of [AddSymptomScreen]. *)
Definition AddSymptom_handleSave (api : ApiService) (stages_ : list StageData)
    (st : AddSymptomScreen * World) : AddSymptomScreen * World :=
  let (screen, w) := st in
  (* setIsLoading(true) *)
  let screen := mkAddSymptomScreen (symptomName screen) true (showSymptomForm screen)
                  (add_alerts screen) in
  if (length (apiStages stages_) =? 0)%nat then
    (* Alert; setIsLoading(false); return, and the finally block *)
    (mkAddSymptomScreen (symptomName screen) false (showSymptomForm screen)
       (add_alerts screen
          ++ [("Error", "Please add at least one medication to any stage")]), w)
  else
    match createSymptom api (symptomData screen stages_) w with
    | (Fulfilled newSymptom, w') =>
        (mkAddSymptomScreen (symptomName screen) false (showSymptomForm screen)
           (add_alerts screen ++ [("Success", "Symptom added successfully!")]), w')
    | (Rejected error, w') =>
        (mkAddSymptomScreen (symptomName screen) false (showSymptomForm screen)
           (add_alerts screen
              ++ [("Error", "Failed to create symptom: " ++ Error_toString error)]), w')
    end.

(** *** [SymptomForm], the component with field validation *)

Record SymptomForm : Type := mkSymptomForm {
  stages_state : list StageData;
  expandedStage : option Z;
  validationErrors : list (string * string);
  form_alerts : list (string * string)
}.

(** The medication a stage starts with. *)
Definition newMedication : PartialMedication :=
  mkPartialMedication None EmptyString 8 5 400 None (Some 0) None None.

(** [addMedicationToStage(stageIndex)], by the state it writes: [push]
    changes the stage object in place and [setStages] stores the copied
    array that holds it.  [None] when [updatedStages[stageIndex]] is
    [undefined] and the handler throws before it writes anything. *)
Definition addMedicationToStage (stageIndex : Z) (form : SymptomForm) : option SymptomForm :=
  match at_index (stages_state form) stageIndex with
  | None => None
  | Some stage =>
      let stage' := mkStageData (stage_data_name stage)
                      (medications stage ++ [newMedication]) in
      Some (mkSymptomForm
              (replace_at (stages_state form) (Z.to_nat stageIndex) stage')
              (expandedStage form) [] (form_alerts form))
  end.

(** The [Remove] button of the alert of [removeMedication]. *)
Definition removeMedication_onPress (stageIndex medIndex : Z) (form : SymptomForm)
  : option SymptomForm :=
  match at_index (stages_state form) stageIndex with
  | None => None
  | Some stage =>
      let stage' := mkStageData (stage_data_name stage)
                      (splice_one (medications stage) medIndex) in
      let key_prefix := Js.string_of_Z stageIndex ++ "-" ++ Js.string_of_Z medIndex ++ "-" in
      Some (mkSymptomForm
              (replace_at (stages_state form) (Z.to_nat stageIndex) stage')
              (expandedStage form)
              (filter (fun kv => negb (String.prefix key_prefix (fst kv)))
                 (validationErrors form))
              (form_alerts form))
  end.

Definition error_key (stageIndex medIndex : Z) (field : string) : string :=
  Js.string_of_Z stageIndex ++ "-" ++ Js.string_of_Z medIndex ++ "-" ++ field.

(** [validateMedication(medication, stageIndex, medIndex)]: the flag it
    returns and the [errors] it merges into the state. *)
Definition validateMedication (medication : PartialMedication) (stageIndex medIndex : Z)
  : bool * list (string * string) :=
  let name_bad :=
    Js.is_empty (pm_name medication) || Js.is_empty (trim (pm_name medication)) in
  let quantity_bad := (pm_quantityMg medication =? 0) || (pm_quantityMg medication <=? 0) in
  let interval_bad :=
    (pm_intervalHours medication =? 0) || (pm_intervalHours medication <=? 0) in
  let days_bad := (pm_totalDays medication =? 0) || (pm_totalDays medication <=? 0) in
  (negb (name_bad || quantity_bad || interval_bad || days_bad),
   ((if name_bad then [(error_key stageIndex medIndex "name", "Must have a name")] else [])
    ++ (if quantity_bad
        then [(error_key stageIndex medIndex "quantityMg", "Must be greater than 0")]
        else [])
    ++ (if interval_bad
        then [(error_key stageIndex medIndex "intervalHours", "Must be greater than 0")]
        else [])
    ++ (if days_bad
        then [(error_key stageIndex medIndex "totalDays", "Must be greater than 0")]
        else []))%list).

(** The validation of the medications of one stage, from [medIndex] on:
    whether all are valid, and the errors merged so far. *)
Fixpoint validate_medications (meds : list PartialMedication) (stageIndex medIndex : Z)
    (acc : bool * list (string * string)) : bool * list (string * string) :=
  match meds with
  | [] => acc
  | medication :: rest =>
      let (isValid, errors) := validateMedication medication stageIndex medIndex in
      validate_medications rest stageIndex (medIndex + 1)
        (fst acc && isValid, Js.spread (snd acc) errors)
  end.

(** The two nested loops of [handleSave], from stage [stageIndex] on. *)
Fixpoint validate_stages (stages_ : list StageData) (stageIndex : Z)
    (acc : bool * list (string * string)) : bool * list (string * string) :=
  match stages_ with
  | [] => acc
  | stage :: rest =>
      validate_stages rest (stageIndex + 1)
        (validate_medications (medications stage) stageIndex 0 acc)
  end.

(** [handleSave()] of the validating form: the state it leaves, and the
    stages it hands to [onSave] when it calls it. *)
Definition SymptomForm_handleSave (form : SymptomForm)
  : SymptomForm * option (list StageData) :=
  let stages_ := stages_state form in
  (* setValidationErrors({}), then the merges of validateMedication *)
  let (allValid, errors) := validate_stages stages_ 0 (true, []) in
  let form := mkSymptomForm stages_ (expandedStage form) errors (form_alerts form) in
  let stagesWithMedications :=
    filter (fun stage => (0 <? length (medications stage))%nat) stages_ in
  if (length stagesWithMedications =? 0)%nat then
    (mkSymptomForm stages_ (expandedStage form) (validationErrors form)
       (form_alerts form ++ [("Error", "Please add at least one medication to any stage")]),
     None)
  else if negb allValid then (form, None)
  else (form, Some stages_).

(** *** [SymptomForm], the component that only checks the names *)

(** [handleSave()]: the alerts it leaves, and the stages it hands to
    [onSave] when it calls it. *)
Definition NamesForm_handleSave (stages_ : list StageData) (shown : list (string * string))
  : list (string * string) * option (list StageData) :=
  if existsb (fun stage =>
                existsb (fun medication => Js.is_empty (trim (pm_name medication)))
                  (medications stage))
       stages_
  then ((shown ++ [("Error", "All medications must have a name")])%list, None)
  else (shown, Some stages_).

(** *** [AddMedicationScreen] *)

Record AddMedicationScreen : Type := mkAddMedicationScreen {
  med_name_text : string;
  intervalHours_text : string;
  totalDays_text : string;
  quantityMg_text : string;
  med_isLoading : bool;
  med_alerts : list (string * string)
}.

(** A number that may be [NaN], as [JSON.stringify] writes it. *)
Definition number_value (n : option Z) : Js.value := nullable Js.JNum n.

(** [medicationData], for the route parameters [stageId] and [symptomId]. *)
Definition medicationData (stageId_ symptomId_ : Z) (screen : AddMedicationScreen)
  : Js.value :=
  Js.JObj [("name", Js.JStr (trim (med_name_text screen)));
           ("intervalHours", number_value (parseInt (intervalHours_text screen)));
           ("totalDays", number_value (parseInt (totalDays_text screen)));
           ("quantityMg", number_value (parseInt (quantityMg_text screen)));
           ("treatmentId", Js.JNum symptomId_);
           ("stageId", Js.JNum stageId_);
           ("stage", Js.JNull);
           ("intakes", Js.JNull)].

Definition with_med_alert (screen : AddMedicationScreen) (loading_ : bool)
    (title msg : string) : AddMedicationScreen :=
  mkAddMedicationScreen (med_name_text screen) (intervalHours_text screen)
    (totalDays_text screen) (quantityMg_text screen) loading_
    (med_alerts screen ++ [(title, msg)]).

(** [handleSave()] of [AddMedicationScreen]. *)
Definition AddMedication_handleSave (api : ApiService) (stageId_ symptomId_ : Z)
    (st : AddMedicationScreen * World) : AddMedicationScreen * World :=
  let (screen, w) := st in
  if Js.is_empty (trim (med_name_text screen)) then
    (with_med_alert screen (med_isLoading screen) "Error" "Please enter a medication name", w)
  else if Js.is_empty (intervalHours_text screen)
          || Js.is_empty (totalDays_text screen)
          || Js.is_empty (quantityMg_text screen) then
    (with_med_alert screen (med_isLoading screen) "Error" "Please fill in all fields", w)
  else
    match createMedication api (medicationData stageId_ symptomId_ screen) w with
    | (Fulfilled newMedication_, w') =>
        (with_med_alert screen false "Success" "Medication added successfully!", w')
    | (Rejected error, w') =>
        (with_med_alert screen false "Error"
           ("Failed to create medication: " ++ Error_toString error), w')
    end.

End Forms.

(** A decimal instance of [parseInt] for unsigned ASCII numerals: the
    digits at the start of the text, [NaN] when there is none. *)
Fixpoint leading_digits (s : string) (acc : option Z) : option Z :=
  match s with
  | EmptyString => acc
  | String c s' =>
      let n := nat_of_ascii c in
      if (48 <=? n)%nat && (n <=? 57)%nat
      then leading_digits s' (Some (10 * or_default acc 0 + Z.of_nat (n - 48)))
      else acc
  end.

Definition decimal_parseInt (s : string) : option Z := leading_digits (trim_start s) None.

(** Form contents used below. *)
Definition ibuprofen : PartialMedication :=
  mkPartialMedication None "Ibuprofen" 8 5 400 None (Some 0) None None.

Definition unnamed_medication : PartialMedication :=
  mkPartialMedication None "   " 0 0 0 None (Some 0) None None.

Definition three_stages (severe : list PartialMedication) : list StageData :=
  [mkStageData "Early" []; mkStageData "Mild" []; mkStageData "Severe" severe].

Definition naming_migraine : AddSymptomScreen :=
  mkAddSymptomScreen " Migraine " false true [].

(** A medication passes the checks of [validateMedication]. *)
Definition valid_medication (trim : string -> string) (medication : PartialMedication) : bool :=
  negb (Js.is_empty (pm_name medication))
  && negb (Js.is_empty (trim (pm_name medication)))
  && (0 <? pm_quantityMg medication)
  && (0 <? pm_intervalHours medication)
  && (0 <? pm_totalDays medication).

(** Every medication of every stage passes them. *)
Definition all_valid (trim : string -> string) (stages_ : list StageData) : bool :=
  forallb (fun stage => forallb (valid_medication trim) (medications stage)) stages_.

(** Some stage has a medication. *)
Definition has_medications (stages_ : list StageData) : bool :=
  existsb (fun stage => (0 <? length (medications stage))%nat) stages_.

Definition severe_with_two : SymptomForm :=
  mkSymptomForm (three_stages [ibuprofen; unnamed_medication]) (Some 2)
    [("2-1-name", "Must have a name"); ("2-10-name", "Must have a name")] [].

Definition ready_form : SymptomForm :=
  mkSymptomForm (three_stages [ibuprofen]) (Some 2) [] [].

(** The add-medication screen with a duration that is no number. *)
Definition typed_medication : AddMedicationScreen :=
  mkAddMedicationScreen "Ibuprofen" "8" "abc" "400" false [].

(** [validateMedication] records the error [msg] under [key] for the
    medication at position [medIndex] of the stage at [stageIndex]. *)
Definition field_error (trim : string -> string) (medication : PartialMedication)
    (stageIndex medIndex : Z) (key msg : string) : Prop :=
  (key = error_key stageIndex medIndex "name" /\ msg = "Must have a name"
   /\ Js.is_empty (pm_name medication) || Js.is_empty (trim (pm_name medication)) = true)
  \/ (key = error_key stageIndex medIndex "quantityMg" /\ msg = "Must be greater than 0"
      /\ pm_quantityMg medication <= 0)
  \/ (key = error_key stageIndex medIndex "intervalHours" /\ msg = "Must be greater than 0"
      /\ pm_intervalHours medication <= 0)
  \/ (key = error_key stageIndex medIndex "totalDays" /\ msg = "Must be greater than 0"
      /\ pm_totalDays medication <= 0).

(* ================================================================== *)
(** ** Strings *)
(* ================================================================== *)

Lemma append_assoc (a b c : string) : (a ++ b) ++ c = a ++ b ++ c.
Proof. induction a as [|x a IH]; simpl; congruence. Qed.

Lemma append_empty_r (a : string) : a ++ EmptyString = a.
Proof. induction a as [|x a IH]; simpl; congruence. Qed.

Lemma prefix_app (sub rest : string) : String.prefix sub (sub ++ rest) = true.
Proof.
  induction sub as [|c sub IH]; simpl.
  - destruct rest; reflexivity.
  - destruct (Ascii.ascii_dec c c) as [_|ne]; [exact IH | now destruct ne].
Qed.

Lemma prefix_split (sub s : string) :
  String.prefix sub s = true -> exists rest, s = sub ++ rest.
Proof.
  revert s; induction sub as [|c sub IH]; intros s H.
  - exists s; reflexivity.
  - destruct s as [|d s]; simpl in H; [discriminate|].
    destruct (Ascii.ascii_dec c d) as [->|]; [|discriminate].
    destruct (IH _ H) as [rest ->]. exists rest; reflexivity.
Qed.

Lemma includes_unfold (s sub : string) :
  Js.includes s sub =
  String.prefix sub s ||
  match s with
  | EmptyString => false
  | String _ s' => Js.includes s' sub
  end.
Proof. destruct s; reflexivity. Qed.

(** [includes] finds a pattern wherever it stands. *)
Lemma includes_app (before sub rest : string) :
  Js.includes (before ++ sub ++ rest) sub = true.
Proof.
  induction before as [|c before IH].
  - change (EmptyString ++ sub ++ rest) with (sub ++ rest).
    rewrite includes_unfold, prefix_app. reflexivity.
  - change (String c before ++ sub ++ rest) with (String c (before ++ sub ++ rest)).
    rewrite includes_unfold, IH. apply orb_true_r.
Qed.

(** [includes] is the substring relation. *)
Lemma includes_spec (s sub : string) :
  Js.includes s sub = true <-> exists before rest, s = before ++ sub ++ rest.
Proof.
  split.
  - induction s as [|c s IH]; rewrite includes_unfold; intros H.
    + rewrite orb_false_r in H. destruct (prefix_split _ _ H) as [rest ->].
      exists EmptyString, rest; reflexivity.
    + apply orb_true_iff in H as [H|H].
      * destruct (prefix_split _ _ H) as [rest ->].
        exists EmptyString, rest; reflexivity.
      * destruct (IH H) as (before & rest & ->).
        exists (String c before), rest; reflexivity.
  - intros (before & rest & ->). apply includes_app.
Qed.

Lemma includes_suffix (before sub : string) :
  Js.includes (before ++ sub) sub = true.
Proof.
  apply includes_spec. exists before, EmptyString.
  now rewrite append_empty_r.
Qed.

(** The message of an HTTP failure shows the status code and the text the
    server sent, or the status line when it sent none. *)
Lemma http_error_message_shows (response : Response) (body_text : string) :
  Js.includes (http_error_message response body_text) (Js.string_of_Z (status response)) = true
  /\ Js.includes (http_error_message response body_text)
       (Js.or_else body_text (statusText response)) = true.
Proof.
  unfold http_error_message; split.
  - apply (includes_app "HTTP ").
  - rewrite <- 2 append_assoc. apply includes_suffix.
Qed.

(* ================================================================== *)
(** ** Traces *)
(* ================================================================== *)

Lemma fetch_count_app (tr1 tr2 : list Event) :
  fetch_count (tr1 ++ tr2) = (fetch_count tr1 + fetch_count tr2)%nat.
Proof. unfold fetch_count. rewrite filter_app, length_app. reflexivity. Qed.

Lemma fetch_count_attempts (url : string) (config : RequestInit) (n : nat) :
  fetch_count (attempts_trace url config n) = n.
Proof.
  induction n as [|[|n] IH]; try reflexivity.
  change (fetch_count (EvFetch url config :: EvDelay API_CONFIG.RETRY_DELAY
                         :: attempts_trace url config (S n)) = S (S n)).
  unfold fetch_count in *; simpl filter in *; simpl length in *. now rewrite IH.
Qed.


(* ================================================================== *)
(** ** The retry policy *)
(* ================================================================== *)

(** The body of the source method: one execution, and on failure either
    the delay and the recursive call with one attempt less, or the error. *)
Lemma withRetry_unfold {T : Type} (operation : Async T) (attempts : Z) (w : World) :
  withRetry operation attempts w =
  try_catch operation
    (fun error =>
       if attempts >? 1
       then delay API_CONFIG.RETRY_DELAY ;; withRetry operation (attempts - 1)
       else throw error) w.
Proof.
  unfold withRetry. rewrite Z.gtb_ltb.
  destruct (Z.ltb_spec 1 attempts) as [Hgt|Hle].
  - replace (Z.to_nat (attempts - 1)) with (S (Z.to_nat (attempts - 1 - 1))) by lia.
    reflexivity.
  - replace (Z.to_nat (attempts - 1)) with O by lia.
    reflexivity.
Qed.

Lemma withRetry_loop_step {T : Type} (operation : Async T) (retries : nat) (w : World) :
  withRetry_loop operation retries w =
  match operation w with
  | (Fulfilled a, w') => (Fulfilled a, w')
  | (Rejected e, w') =>
      match retries with
      | S retries' =>
          withRetry_loop operation retries' (record_event (EvDelay API_CONFIG.RETRY_DELAY) w')
      | O => (Rejected e, w')
      end
  end.
Proof.
  destruct retries; simpl; unfold try_catch, bind, delay, throw;
    destruct (operation w) as [[a|e] w']; reflexivity.
Qed.

Lemma timed_fetch_run (url : string) (config : RequestInit) (timeout : Z) (w : World) :
  timed_fetch url config timeout w =
  (attempt w (fetch_count (trace w)) url config timeout, after w [EvFetch url config]).
Proof. reflexivity. Qed.

Section Retry.

Variables (url : string) (config : RequestInit) (timeout : Z).

Lemma issued_after_failed_attempt (w : World) :
  issued (record_event (EvDelay API_CONFIG.RETRY_DELAY) (after w [EvFetch url config])) = S (issued w).
Proof.
  unfold issued, record_event, after; simpl.
  rewrite !fetch_count_app. unfold fetch_count at 2 3; simpl. lia.
Qed.

Lemma after_failed_attempt (w : World) (evs : list Event) :
  after (record_event (EvDelay API_CONFIG.RETRY_DELAY) (after w [EvFetch url config])) evs =
  after w (EvFetch url config :: EvDelay API_CONFIG.RETRY_DELAY :: evs).
Proof. unfold record_event, after; simpl. now rewrite <- !app_assoc. Qed.

(** When no execution within the allowance succeeds, the loop runs them
    all and rejects with the error of the last one. *)
Lemma withRetry_loop_exhausted (retries : nat) : forall w : World,
  (forall i, (i <= retries)%nat ->
     exists e, attempt w (issued w + i) url config timeout = Rejected e) ->
  exists e,
    attempt w (issued w + retries) url config timeout = Rejected e /\
    withRetry_loop (timed_fetch url config timeout) retries w =
      (Rejected e, after w (attempts_trace url config (S retries))).
Proof.
  induction retries as [|retries IH]; intros w Hfail.
  - destruct (Hfail O (Nat.le_refl _)) as [e He]. exists e. split; [exact He|].
    rewrite withRetry_loop_step, timed_fetch_run.
    unfold issued in He. rewrite Nat.add_0_r in He. rewrite He. reflexivity.
  - destruct (Hfail O (Nat.le_0_l _)) as [e0 He0].
    rewrite withRetry_loop_step, timed_fetch_run.
    unfold issued in He0. rewrite Nat.add_0_r in He0. rewrite He0.
    set (w1 := record_event _ _).
    destruct (IH w1) as [e [He Hrun]].
    + intros i Hi. unfold w1. rewrite issued_after_failed_attempt.
      destruct (Hfail (S i)) as [e He]; [lia|]. exists e.
      rewrite <- He. unfold attempt; simpl. f_equal. f_equal. lia.
    + exists e. split.
      * rewrite <- He. unfold w1. rewrite issued_after_failed_attempt.
        unfold attempt; simpl. f_equal. f_equal. lia.
      * rewrite Hrun. unfold w1. rewrite after_failed_attempt. reflexivity.
Qed.

(** When the executions before the [k]-th fail and the [k]-th, still
    within the allowance, succeeds, the loop is fulfilled with its result. *)
Lemma withRetry_loop_recovers (k : nat) : forall (retries : nat) (w : World) (r : Response),
  (k <= retries)%nat ->
  (forall i, (i < k)%nat ->
     exists e, attempt w (issued w + i) url config timeout = Rejected e) ->
  attempt w (issued w + k) url config timeout = Fulfilled r ->
  withRetry_loop (timed_fetch url config timeout) retries w =
    (Fulfilled r, after w (attempts_trace url config (S k))).
Proof.
  induction k as [|k IH]; intros retries w r Hk Hfail Hok.
  - rewrite withRetry_loop_step, timed_fetch_run.
    unfold issued in Hok. rewrite Nat.add_0_r in Hok. rewrite Hok. reflexivity.
  - destruct retries as [|retries]; [lia|].
    destruct (Hfail O) as [e0 He0]; [lia|].
    rewrite withRetry_loop_step, timed_fetch_run.
    unfold issued in He0. rewrite Nat.add_0_r in He0. rewrite He0.
    set (w1 := record_event _ _).
    rewrite (IH retries w1 r).
    + unfold w1. rewrite after_failed_attempt. reflexivity.
    + lia.
    + intros i Hi. unfold w1. rewrite issued_after_failed_attempt.
      destruct (Hfail (S i)) as [e He]; [lia|]. exists e.
      rewrite <- He. unfold attempt; simpl. f_equal. f_equal. lia.
    + rewrite <- Hok. unfold w1. rewrite issued_after_failed_attempt.
      unfold attempt; simpl. f_equal. f_equal. lia.
Qed.

End Retry.

(* ================================================================== *)
(** ** Request execution *)
(* ================================================================== *)

(** The three ways out of the [catch] block. *)
Lemma normalize_error_network {T : Type} (error : JsError) (w : World) :
  instanceof_TypeError error = true ->
  Js.includes (message error) "Network request failed" = true ->
  @normalize_error T error w = (Rejected unable_to_connect, w).
Proof. unfold normalize_error; intros -> ->; reflexivity. Qed.

Lemma normalize_error_timeout {T : Type} (error : JsError) (w : World) :
  instanceof_TypeError error && Js.includes (message error) "Network request failed" = false ->
  instanceof_Error error = true ->
  Js.includes (message error) "timeout" = true ->
  @normalize_error T error w = (Rejected request_timed_out, w).
Proof. unfold normalize_error; intros -> -> ->; reflexivity. Qed.

Lemma normalize_error_other {T : Type} (error : JsError) (w : World) :
  instanceof_TypeError error && Js.includes (message error) "Network request failed" = false ->
  instanceof_Error error && Js.includes (message error) "timeout" = false ->
  @normalize_error T error w = (Rejected error, w).
Proof. unfold normalize_error; intros -> ->; reflexivity. Qed.

(** The [catch] block always throws and leaves the world alone. *)
Lemma normalize_error_throws {T : Type} (error : JsError) (w : World) :
  exists e, @normalize_error T error w = (Rejected e, w).
Proof.
  unfold normalize_error.
  destruct (_ && _); [eexists; reflexivity|].
  destruct (_ && _); eexists; reflexivity.
Qed.

(** Under the default configuration the allowance is two executions. *)
Ltac default_allowance :=
  change (allowance API_CONFIG.RETRY_ATTEMPTS) with 2%nat in *.

Lemma withRetry_default {T : Type} (operation : Async T) :
  withRetry operation API_CONFIG.RETRY_ATTEMPTS = withRetry_loop operation 1.
Proof. reflexivity. Qed.

Section Request.

Variables (this : ApiService) (endpoint : string) (options : RequestOptions).

Local Abbreviation url := (request_url this endpoint).
Local Abbreviation config := (request_config this options).
Local Abbreviation timeout := (request_timeout options).
Local Abbreviation retried :=
  (withRetry (timed_fetch url config timeout) API_CONFIG.RETRY_ATTEMPTS).

Lemma request_unfold (w : World) :
  request this endpoint options w =
  try_catch
    (response <- retried ;;
     if negb (ok response) then
       errorText <- await (text response) ;;
       throw (new_Error (http_error_message response errorText))
     else
       if declares_no_json response
       then ret Js.empty_object
       else data <- await (json response) ;; ret data)
    normalize_error w.
Proof. reflexivity. Qed.

(** The retry gave up: its error goes through the [catch] block. *)
Lemma request_retry_rejected (w w' : World) (e : JsError) :
  retried w = (Rejected e, w') ->
  request this endpoint options w = normalize_error e w'.
Proof.
  intros H. rewrite request_unfold. unfold try_catch, bind.
  rewrite H. reflexivity.
Qed.

(** A response arrived with a non-success status and a readable body. *)
Lemma request_http_failure (w w' : World) (response : Response) (body_text : string) :
  retried w = (Fulfilled response, w') ->
  ok response = false ->
  text response = Fulfilled body_text ->
  request this endpoint options w =
    normalize_error (new_Error (http_error_message response body_text)) w'.
Proof.
  intros H Hok Htext. rewrite request_unfold. unfold try_catch, bind.
  rewrite H, Hok. simpl.
  unfold await, throw. rewrite Htext. reflexivity.
Qed.

(** A successful response that declares no JSON. *)
Lemma request_no_json (w w' : World) (response : Response) :
  retried w = (Fulfilled response, w') ->
  ok response = true ->
  declares_no_json response = true ->
  request this endpoint options w = (Fulfilled Js.empty_object, w').
Proof.
  intros H Hok Hct. rewrite request_unfold. unfold try_catch, bind.
  rewrite H, Hok. simpl.
  rewrite Hct. reflexivity.
Qed.

(** A successful JSON response whose body parses. *)
Lemma request_json (w w' : World) (response : Response) (data : Js.value) :
  retried w = (Fulfilled response, w') ->
  ok response = true ->
  declares_no_json response = false ->
  json response = Fulfilled data ->
  request this endpoint options w = (Fulfilled data, w').
Proof.
  intros H Hok Hct Hjson. rewrite request_unfold. unfold try_catch, bind.
  rewrite H, Hok. simpl.
  rewrite Hct.
  unfold await, ret. rewrite Hjson. reflexivity.
Qed.

(** Nothing after the retry touches the world. *)
Lemma request_world (w : World) :
  snd (request this endpoint options w) = snd (retried w).
Proof.
  rewrite request_unfold. unfold try_catch, bind.
  destruct (retried w) as [[response|e] w']; simpl.
  - destruct (ok response); simpl.
    + destruct (declares_no_json response); [reflexivity|].
      unfold await, ret. destruct (json response) as [data|e]; simpl; [reflexivity|].
      destruct (@normalize_error_throws Js.value e w') as [e' ->]. reflexivity.
    + unfold await, throw. destruct (text response) as [t|e]; simpl.
      * destruct (@normalize_error_throws Js.value
                    (new_Error (http_error_message response t)) w') as [e' ->].
        reflexivity.
      * destruct (@normalize_error_throws Js.value e w') as [e' ->]. reflexivity.
  - destruct (@normalize_error_throws Js.value e w') as [e' ->]. reflexivity.
Qed.

(** What the retry does under the default configuration, by the fate of
    the executions. *)
Lemma retried_answered (w : World) (k : nat) (response : Response) :
  answered w url config timeout k response ->
  retried w = (Fulfilled response, after w (attempts_trace url config (S k))).
Proof.
  intros (Hk & Hfail & Hok). rewrite withRetry_default.
  apply withRetry_loop_recovers; try assumption.
  default_allowance. lia.
Qed.

Lemma retried_unanswered (w : World) :
  unanswered w url config timeout ->
  exists e,
    attempt w (issued w + 1) url config timeout = Rejected e /\
    retried w = (Rejected e, after w (attempts_trace url config 2)).
Proof.
  intros Hfail. rewrite withRetry_default.
  apply withRetry_loop_exhausted.
  intros i Hi. apply Hfail.
  default_allowance. lia.
Qed.

(** Every request makes one or two fetch calls, all for the same [url]
    with the same [config], and nothing else but the delay between them. *)
Lemma request_trace (w : World) :
  exists n, (1 <= n <= 2)%nat /\
    snd (request this endpoint options w) = after w (attempts_trace url config n).
Proof.
  rewrite request_world.
  destruct (attempt w (issued w + 0) url config timeout) as [r|e0] eqn:H0.
  - exists 1%nat. split; [lia|].
    rewrite (retried_answered w 0 r); [reflexivity|].
    repeat split; [ default_allowance; lia
                  | intros i Hi; lia | exact H0 ].
  - exists 2%nat. split; [lia|].
    destruct (attempt w (issued w + 1) url config timeout) as [r|e1] eqn:H1.
    + rewrite (retried_answered w 1 r); [reflexivity|].
      repeat split; [ default_allowance; lia
                    | | exact H1 ].
      intros i Hi. assert (i = O) as -> by lia. eauto.
    + destruct (retried_unanswered w) as [e [_ ->]]; [|reflexivity].
      intros i Hi. default_allowance.
      destruct i as [|[|i]]; [eauto | eauto | lia].
Qed.

End Request.

(* ================================================================== *)
(** ** The retry budget *)
(* ================================================================== *)

Lemma allowance_loop (attempts : Z) :
  allowance attempts = S (Z.to_nat (attempts - 1)).
Proof. unfold allowance. lia. Qed.

(** [withRetry] on a request none of whose executions succeeds: it makes
    [allowance attempts] of them and rejects with the error of the last. *)
Lemma withRetry_exhausted (url : string) (config : RequestInit) (timeout attempts : Z)
    (w : World) :
  (forall i, (i < allowance attempts)%nat ->
     exists e, attempt w (issued w + i) url config timeout = Rejected e) ->
  exists e,
    attempt w (issued w + (allowance attempts - 1)) url config timeout = Rejected e /\
    withRetry (timed_fetch url config timeout) attempts w =
      (Rejected e, after w (attempts_trace url config (allowance attempts))).
Proof.
  intros Hfail. rewrite allowance_loop in *. unfold withRetry.
  replace (S (Z.to_nat (attempts - 1)) - 1)%nat with (Z.to_nat (attempts - 1)) by lia.
  apply withRetry_loop_exhausted. intros i Hi. apply Hfail. lia.
Qed.

(** [withRetry] on a request whose [k]-th execution is the first to
    succeed, [k] within the allowance. *)
Lemma withRetry_recovers (url : string) (config : RequestInit) (timeout attempts : Z)
    (w : World) (k : nat) (response : Response) :
  (k < allowance attempts)%nat ->
  (forall i, (i < k)%nat ->
     exists e, attempt w (issued w + i) url config timeout = Rejected e) ->
  attempt w (issued w + k) url config timeout = Fulfilled response ->
  withRetry (timed_fetch url config timeout) attempts w =
    (Fulfilled response, after w (attempts_trace url config (S k))).
Proof.
  intros Hk Hfail Hok. rewrite allowance_loop in Hk. unfold withRetry.
  apply withRetry_loop_recovers; try assumption. lia.
Qed.

Lemma issued_after (w : World) (evs : list Event) :
  issued (after w evs) = (issued w + fetch_count evs)%nat.
Proof. unfold issued, after; simpl. apply fetch_count_app. Qed.

(** C1 (amended): when every execution of a request fails, [withRetry]
    rethrows the error of the last one after [allowance attempts]
    executions of the timed call, one when [attempts] is below one; under
    the default configuration, [RETRY_ATTEMPTS = 2], the timed call is
    executed 2 times in all, and [request] hands the error of the second
    execution to its [catch] block.  What is supposed to fail is the
    executions of this request only: the fetch calls made before it and
    those the network would answer after it are free. *)
Theorem C1_retry_exhaustion
    (this : ApiService) (endpoint : string) (options : RequestOptions) (w : World) :
  (forall attempts : Z,
     (forall i, (i < allowance attempts)%nat ->
        exists e,
          attempt w (issued w + i) (request_url this endpoint)
            (request_config this options) (request_timeout options) = Rejected e) ->
     exists e,
       attempt w (issued w + (allowance attempts - 1)) (request_url this endpoint)
         (request_config this options) (request_timeout options) = Rejected e /\
       withRetry (timed_fetch (request_url this endpoint) (request_config this options)
                    (request_timeout options)) attempts w =
         (Rejected e,
          after w (attempts_trace (request_url this endpoint) (request_config this options)
                     (allowance attempts))) /\
       issued (after w (attempts_trace (request_url this endpoint)
                          (request_config this options) (allowance attempts)))
         = (issued w + allowance attempts)%nat)
  /\ allowance API_CONFIG.RETRY_ATTEMPTS = 2%nat
  /\ ((forall i, (i < 2)%nat ->
         exists e,
           attempt w (issued w + i) (request_url this endpoint)
             (request_config this options) (request_timeout options) = Rejected e) ->
      exists e,
        attempt w (issued w + 1) (request_url this endpoint) (request_config this options)
          (request_timeout options) = Rejected e /\
        request this endpoint options w =
          normalize_error e
            (after w (attempts_trace (request_url this endpoint)
                        (request_config this options) 2)) /\
        snd (request this endpoint options w) =
          after w [EvFetch (request_url this endpoint) (request_config this options);
                   EvDelay API_CONFIG.RETRY_DELAY;
                   EvFetch (request_url this endpoint) (request_config this options)] /\
        issued (snd (request this endpoint options w)) = (issued w + 2)%nat).
Proof.
  split; [|split].
  - intros attempts Hfail.
    destruct (withRetry_exhausted (request_url this endpoint) (request_config this options)
                (request_timeout options) attempts w Hfail) as [e [He Hrun]].
    exists e. repeat split; try assumption.
    rewrite issued_after, fetch_count_attempts. reflexivity.
  - reflexivity.
  - intros Hfail.
    destruct (retried_unanswered this endpoint options w) as [e [He Hrun]].
    { intros i Hi. apply Hfail. exact Hi. }
    exists e. split; [exact He|]. split; [|split].
    + apply request_retry_rejected. exact Hrun.
    + rewrite request_world, Hrun. reflexivity.
    + rewrite request_world, Hrun. cbn [snd].
      rewrite issued_after, fetch_count_attempts. reflexivity.
Qed.

Lemma silent_never_answers (i : nat) (url : string) (config : RequestInit) (timeout : Z) :
  attempt (start silent) i url config timeout = Rejected (new_Error "Request timeout").
Proof. unfold attempt, start, silent, scripted; simpl. destruct i; reflexivity. Qed.

Lemma C1_retry_exhaustion_witness :
  issued (snd (request dev_android "/symptoms" get_options
                 (snd (getSymptoms dev_android (start answers_once_more_later)))))
  = 3%nat.
Proof.
  destruct (C1_retry_exhaustion dev_android "/symptoms" get_options
              (snd (getSymptoms dev_android (start answers_once_more_later))))
    as [_ [_ Hdefault]].
  destruct Hdefault as [e [_ [_ [_ H]]]].
  - intros i Hi. exists (new_Error "Request timeout").
    destruct i as [|[|i]]; [reflexivity | reflexivity | lia].
  - exact H.
Defined.

(** C1, as stated, fails: on a network that never answers a read of
    [/symptoms] under the default configuration stops after 2 executions
    of the timed call, not 3. *)
Lemma C1_three_executions_refuted :
  (forall i, attempt (start silent) i
               (request_url dev_android "/symptoms")
               (request_config dev_android get_options)
               (request_timeout get_options) = Rejected (new_Error "Request timeout"))
  /\ fst (getSymptoms dev_android (start silent)) = Rejected request_timed_out
  /\ issued (snd (getSymptoms dev_android (start silent))) = 2%nat
  /\ issued (snd (getSymptoms dev_android (start silent))) <> 3%nat.
Proof.
  split; [intros i; apply silent_never_answers|].
  split; [reflexivity|]. split; [reflexivity|]. discriminate.
Qed.

(** C2 (amended): the retry policy re-invokes the call when the timed
    fetch itself fails, by the timer or by a transport rejection; once a
    response is received, whatever its status, no further fetch is made,
    and a non-success status with a readable body goes to the [catch]
    block as the HTTP error after that single fetch. *)
Theorem C2_retry_on_failed_fetch_only
    (this : ApiService) (endpoint : string) (options : RequestOptions) (w : World) :
  (forall e,
     attempt w (issued w) (request_url this endpoint) (request_config this options)
       (request_timeout options) = Rejected e ->
     snd (request this endpoint options w) =
       after w (attempts_trace (request_url this endpoint) (request_config this options) 2))
  /\
  (forall response,
     attempt w (issued w) (request_url this endpoint) (request_config this options)
       (request_timeout options) = Fulfilled response ->
     snd (request this endpoint options w) =
       after w (attempts_trace (request_url this endpoint) (request_config this options) 1))
  /\
  (forall response body_text,
     attempt w (issued w) (request_url this endpoint) (request_config this options)
       (request_timeout options) = Fulfilled response ->
     ok response = false ->
     text response = Fulfilled body_text ->
     request this endpoint options w =
       normalize_error (new_Error (http_error_message response body_text))
         (after w (attempts_trace (request_url this endpoint)
                     (request_config this options) 1))).
Proof.
  assert (Hfirst : forall response,
    attempt w (issued w) (request_url this endpoint) (request_config this options)
      (request_timeout options) = Fulfilled response ->
    answered w (request_url this endpoint) (request_config this options)
      (request_timeout options) 0 response).
  { intros response H. repeat split.
    - default_allowance. lia.
    - intros i Hi. lia.
    - rewrite Nat.add_0_r. exact H. }
  split; [|split].
  - intros e He. rewrite request_world.
    destruct (attempt w (issued w + 1) (request_url this endpoint)
                (request_config this options) (request_timeout options))
      as [r|e1] eqn:H1.
    + rewrite (retried_answered this endpoint options w 1 r); [reflexivity|].
      repeat split; [ default_allowance; lia
                    | | exact H1 ].
      intros i Hi. assert (i = O) as -> by lia. rewrite Nat.add_0_r. eauto.
    + destruct (retried_unanswered this endpoint options w) as [e' [_ ->]]; [|reflexivity].
      intros i Hi. default_allowance.
      destruct i as [|[|i]]; [rewrite Nat.add_0_r; eauto | eauto | lia].
  - intros response H. rewrite request_world.
    rewrite (retried_answered this endpoint options w 0 response (Hfirst _ H)).
    reflexivity.
  - intros response body_text H Hok Htext.
    apply request_http_failure; try assumption.
    apply (retried_answered this endpoint options w 0 response (Hfirst _ H)).
Qed.

Lemma C2_retry_on_failed_fetch_only_witness :
  snd (createSymptom dev_android migraine (start half_done_server)) =
    after (start half_done_server)
      (attempts_trace (request_url dev_android "/symptoms")
         (request_config dev_android (post_options (Some migraine))) 1)
  /\ issued (snd (getSymptoms dev_android (start silent))) = 2%nat.
Proof.
  split.
  - exact (proj1 (proj2 (C2_retry_on_failed_fetch_only dev_android "/symptoms"
                           (post_options (Some migraine)) (start half_done_server)))
             _ eq_refl).
  - change (getSymptoms dev_android (start silent))
      with (request dev_android "/symptoms" get_options (start silent)).
    rewrite (proj1 (C2_retry_on_failed_fetch_only dev_android "/symptoms"
                      get_options (start silent))
               (new_Error "Request timeout") eq_refl).
    reflexivity.
Defined.

(** C2, as stated, fails: a [POST] answered with status 500 is not sent
    again, although the server would have accepted the second try; the
    call makes one fetch and throws the HTTP error. *)
Lemma C2_http_failure_not_retried :
  attempt (start half_done_server) 0 (request_url dev_android "/symptoms")
    (request_config dev_android (post_options (Some migraine))) API_CONFIG.TIMEOUT
    = Fulfilled (error_response 500 "Internal Server Error" "stages saved, medication failed")
  /\ fst (createSymptom dev_android migraine (start half_done_server))
     = Rejected (new_Error "HTTP 500: stages saved, medication failed")
  /\ issued (snd (createSymptom dev_android migraine (start half_done_server))) = 1%nat.
Proof. repeat split. Qed.

(** C8: a call whose first execution fails, by the timer or by a transport
    rejection, and whose re-invocation within the allowance succeeds, is
    fulfilled with the result of the later execution.  For [withRetry] and
    any allowance; and for [request], whose allowance is two executions,
    with the value it makes of a successful response. *)
Theorem C8_later_success_is_returned
    (this : ApiService) (endpoint : string) (options : RequestOptions) (w : World) :
  (forall (attempts : Z) (k : nat) (response : Response),
     (1 <= k)%nat -> (k < allowance attempts)%nat ->
     (forall i, (i < k)%nat ->
        exists e, attempt w (issued w + i) (request_url this endpoint)
                    (request_config this options) (request_timeout options) = Rejected e) ->
     attempt w (issued w + k) (request_url this endpoint) (request_config this options)
       (request_timeout options) = Fulfilled response ->
     withRetry (timed_fetch (request_url this endpoint) (request_config this options)
                  (request_timeout options)) attempts w =
       (Fulfilled response,
        after w (attempts_trace (request_url this endpoint)
                   (request_config this options) (S k))))
  /\
  (forall (e : JsError) (response : Response),
     attempt w (issued w) (request_url this endpoint) (request_config this options)
       (request_timeout options) = Rejected e ->
     attempt w (issued w + 1) (request_url this endpoint) (request_config this options)
       (request_timeout options) = Fulfilled response ->
     ok response = true ->
     (declares_no_json response = true ->
      request this endpoint options w =
        (Fulfilled Js.empty_object,
         after w (attempts_trace (request_url this endpoint)
                    (request_config this options) 2)))
     /\
     (forall data,
        declares_no_json response = false ->
        json response = Fulfilled data ->
        request this endpoint options w =
          (Fulfilled data,
           after w (attempts_trace (request_url this endpoint)
                      (request_config this options) 2)))).
Proof.
  split.
  - intros attempts k response _ Hk Hfail Hok.
    apply withRetry_recovers; assumption.
  - intros e response He Hok Hstatus.
    assert (Hans : answered w (request_url this endpoint) (request_config this options)
                     (request_timeout options) 1 response).
    { repeat split; [ default_allowance; lia
                    | | exact Hok ].
      intros i Hi. assert (i = O) as -> by lia. rewrite Nat.add_0_r. eauto. }
    pose proof (retried_answered this endpoint options w 1 response Hans) as Hrun.
    split.
    + intros Hct. apply (request_no_json this endpoint options w _ response); assumption.
    + intros data Hct Hjson.
      apply (request_json this endpoint options w _ response); assumption.
Qed.

Lemma C8_later_success_is_returned_witness :
  fst (createSymptom dev_android migraine
         (start (slow_then (json_response 201 "Created" migraine_created))))
  = Fulfilled migraine_created.
Proof.
  destruct (C8_later_success_is_returned dev_android "/symptoms" (post_options (Some migraine))
              (start (slow_then (json_response 201 "Created" migraine_created))))
    as [_ H].
  destruct (H (new_Error "Request timeout") (json_response 201 "Created" migraine_created)
              eq_refl eq_refl eq_refl) as [_ Hjson].
  unfold createSymptom, post. fold (post_options (Some migraine)).
  rewrite (Hjson migraine_created eq_refl eq_refl). reflexivity.
Defined.

(* ================================================================== *)
(** ** Responses and errors *)
(* ================================================================== *)

(** The three outcomes of the race against the timer. *)
Lemma withTimeout_in_time {T : Type} (ms timeoutMs : Z) (how : Settled T) :
  ms <= timeoutMs -> withTimeout (SettlesAfter ms how) timeoutMs = how.
Proof. intros H. unfold withTimeout. destruct (Z.leb_spec ms timeoutMs); [reflexivity|lia]. Qed.

Lemma withTimeout_late {T : Type} (ms timeoutMs : Z) (how : Settled T) :
  timeoutMs < ms ->
  withTimeout (SettlesAfter ms how) timeoutMs = Rejected (new_Error "Request timeout").
Proof. intros H. unfold withTimeout. destruct (Z.leb_spec ms timeoutMs); [lia|reflexivity]. Qed.

Lemma withTimeout_never {T : Type} (timeoutMs : Z) :
  withTimeout (@NeverSettles T) timeoutMs = Rejected (new_Error "Request timeout").
Proof. reflexivity. Qed.

Lemma includes_append_l (before s sub : string) :
  Js.includes s sub = true -> Js.includes (before ++ s) sub = true.
Proof.
  intros H. apply includes_spec in H as (b & r & ->).
  rewrite <- append_assoc. apply includes_app.
Qed.

Lemma answered_first (w : World) (url : string) (config : RequestInit) (timeout : Z)
    (response : Response) :
  attempt w (issued w) url config timeout = Fulfilled response ->
  answered w url config timeout 0 response.
Proof.
  intros H. repeat split.
  - default_allowance. lia.
  - intros i Hi. lia.
  - rewrite Nat.add_0_r. exact H.
Qed.

(** An HTTP failure whose message does not mention ['timeout'] reaches the
    caller as built: with the status code and the text of the server. *)
Lemma http_failure_surfaced
    (this : ApiService) (endpoint : string) (options : RequestOptions) (w : World)
    (k : nat) (response : Response) (body_text : string) :
  answered w (request_url this endpoint) (request_config this options)
    (request_timeout options) k response ->
  ok response = false ->
  text response = Fulfilled body_text ->
  Js.includes (http_error_message response body_text) "timeout" = false ->
  request this endpoint options w =
    (Rejected (new_Error (http_error_message response body_text)),
     after w (attempts_trace (request_url this endpoint) (request_config this options) (S k))).
Proof.
  intros Hans Hok Htext Hno.
  rewrite (request_http_failure this endpoint options w _ response body_text
             (retried_answered this endpoint options w k response Hans) Hok Htext).
  apply normalize_error_other; [reflexivity|].
  simpl. exact Hno.
Qed.

Lemma withTimeout_exceeded {T : Type} (promise : Promise T) (timeoutMs : Z) :
  exceeds promise timeoutMs ->
  withTimeout promise timeoutMs = Rejected (new_Error "Request timeout").
Proof.
  destruct promise as [ms how|]; simpl; intros H.
  - apply withTimeout_late. exact H.
  - reflexivity.
Qed.

Section GivingUp.

Variables (this : ApiService) (endpoint : string) (options : RequestOptions) (w : World).

Local Abbreviation url := (request_url this endpoint).
Local Abbreviation config := (request_config this options).
Local Abbreviation timeout := (request_timeout options).

(** What the caller gets once the retry has given up, from the error [e]
    of the last execution. *)
Lemma request_gives_up (e : JsError) :
  unanswered w url config timeout ->
  attempt w (issued w + 1) url config timeout = Rejected e ->
  request this endpoint options w =
    normalize_error e (after w (attempts_trace url config 2)).
Proof.
  intros Hfail He.
  destruct (retried_unanswered this endpoint options w Hfail) as [e' [He' Hrun]].
  rewrite He in He'. inversion He'; subst e'.
  apply request_retry_rejected. exact Hrun.
Qed.

(** Every execution outlasts the window: the caller gets the time-out
    message, not the error of the timer. *)
Lemma request_times_out :
  (forall i, (i < 2)%nat -> exceeds (network w (issued w + i)%nat url config) timeout) ->
  request this endpoint options w =
    (Rejected request_timed_out, after w (attempts_trace url config 2)).
Proof.
  intros Hlate.
  rewrite (request_gives_up (new_Error "Request timeout")).
  - reflexivity.
  - intros i Hi. default_allowance. eexists.
    apply withTimeout_exceeded, Hlate, Hi.
  - apply withTimeout_exceeded, Hlate. lia.
Qed.

(** The transport cannot reach the host: the caller gets the connection
    message. *)
Lemma request_unreachable (e : JsError) :
  unanswered w url config timeout ->
  attempt w (issued w + 1) url config timeout = Rejected e ->
  instanceof_TypeError e = true ->
  Js.includes (message e) "Network request failed" = true ->
  request this endpoint options w =
    (Rejected unable_to_connect, after w (attempts_trace url config 2)).
Proof.
  intros Hfail He Hcls Hmsg. rewrite (request_gives_up e Hfail He).
  apply normalize_error_network; assumption.
Qed.

(** An error that neither test of the [catch] block matches reaches the
    caller unchanged. *)
Lemma request_other_error (e : JsError) :
  unanswered w url config timeout ->
  attempt w (issued w + 1) url config timeout = Rejected e ->
  instanceof_TypeError e && Js.includes (message e) "Network request failed" = false ->
  instanceof_Error e && Js.includes (message e) "timeout" = false ->
  request this endpoint options w = (Rejected e, after w (attempts_trace url config 2)).
Proof.
  intros Hfail He Hnet Htime. rewrite (request_gives_up e Hfail He).
  apply normalize_error_other; assumption.
Qed.

End GivingUp.

(** C4 (amended): a successful response whose content-type header is
    absent, empty, or does not contain the text [application/json] makes
    the call resolve to the empty object [{}], whichever execution it
    answers; and [deleteMedication(42)] issues [DELETE /Medication/42]
    without a body and resolves to [{}] on an empty 204-style response. *)
Theorem C4_non_json_success_is_empty_object (this : ApiService) (w : World) :
  (forall (endpoint : string) (options : RequestOptions) (k : nat) (response : Response),
     answered w (request_url this endpoint) (request_config this options)
       (request_timeout options) k response ->
     ok response = true ->
     declares_no_json response = true ->
     request this endpoint options w =
       (Fulfilled (Js.JObj []),
        after w (attempts_trace (request_url this endpoint)
                   (request_config this options) (S k))))
  /\
  (forall response : Response,
     attempt w (issued w) (baseURL this ++ "/Medication/42")
       (mkRequestInit DELETE (defaultHeaders this) None) API_CONFIG.TIMEOUT
       = Fulfilled response ->
     ok response = true ->
     headers_get response "content-type" = None ->
     deleteMedication this 42 w =
       (Fulfilled (Js.JObj []),
        after w [EvFetch (baseURL this ++ "/Medication/42")
                   (mkRequestInit DELETE (defaultHeaders this) None)])).
Proof.
  assert (General : forall endpoint options k response,
     answered w (request_url this endpoint) (request_config this options)
       (request_timeout options) k response ->
     ok response = true ->
     declares_no_json response = true ->
     request this endpoint options w =
       (Fulfilled (Js.JObj []),
        after w (attempts_trace (request_url this endpoint)
                   (request_config this options) (S k)))).
  { intros endpoint options k response Hans Hok Hct.
    apply (request_no_json this endpoint options w _ response); try assumption.
    apply retried_answered. exact Hans. }
  split; [exact General|].
  intros response Hfirst Hok Hct.
  apply (General "/Medication/42" delete_options 0%nat response).
  - apply answered_first. exact Hfirst.
  - exact Hok.
  - unfold declares_no_json. rewrite Hct. reflexivity.
Qed.

Lemma C4_non_json_success_is_empty_object_witness :
  deleteMedication dev_android 42
    (start (scripted [SettlesAfter 30 (Fulfilled no_content)]))
  = (Fulfilled (Js.JObj []),
     after (start (scripted [SettlesAfter 30 (Fulfilled no_content)]))
       [EvFetch "http://10.0.2.2:5050/api/Medication/42"
          (mkRequestInit DELETE
             [("Content-Type", "application/json"); ("Accept", "application/json")]
             None)]).
Proof.
  exact (proj2 (C4_non_json_success_is_empty_object dev_android
                  (start (scripted [SettlesAfter 30 (Fulfilled no_content)])))
           no_content eq_refl eq_refl eq_refl).
Defined.

(** C4, as stated, fails: the header is tested for the text
    [application/json], not for being a JSON media type.  A successful
    answer declared [application/json-seq], which is not JSON, is parsed
    as JSON and the call rejects instead of resolving to [{}]; a
    successful plain-text answer whose content type carries the parameter
    [note=application/json] and whose text is [null] resolves to [null]. *)
Lemma C4_non_json_types_that_mention_json :
  headers_get json_sequence "content-type" = Some "application/json-seq"
  /\ ok json_sequence = true
  /\ fst (deleteMedication dev_android 42
            (start (scripted [SettlesAfter 30 (Fulfilled json_sequence)])))
     = Rejected not_json
  /\ headers_get annotated_text "content-type" = Some "text/plain; note=application/json"
  /\ ok annotated_text = true
  /\ fst (deleteMedication dev_android 42
            (start (scripted [SettlesAfter 30 (Fulfilled annotated_text)])))
     = Fulfilled Js.JNull
  /\ Fulfilled Js.JNull <> Fulfilled (Js.JObj []).
Proof.
  repeat split. discriminate.
Qed.

(** C3, at a gateway answering 504 with the text [Gateway timeout]: the
    response arrives well within the window, the error built for it is the
    HTTP failure, and the [catch] block replaces it by the time-out
    message instead of passing it on unchanged. *)
Theorem C3_http_failure_taken_for_timeout :
  attempt (start gateway_504) 0 (request_url dev_android "/symptoms/999")
    (request_config dev_android get_options) API_CONFIG.TIMEOUT
    = Fulfilled (error_response 504 "Gateway Timeout" "Gateway timeout")
  /\ http_error_message (error_response 504 "Gateway Timeout" "Gateway timeout")
       "Gateway timeout" = "HTTP 504: Gateway timeout"
  /\ fst (getSymptom dev_android 999 (start gateway_504)) = Rejected request_timed_out
  /\ fst (getSymptom dev_android 999 (start gateway_504))
     <> Rejected (new_Error "HTTP 504: Gateway timeout").
Proof.
  split; [reflexivity|]. split; [reflexivity|]. split; [reflexivity|].
  change (fst (getSymptom dev_android 999 (start gateway_504)))
    with (@Rejected Js.value request_timed_out).
  unfold request_timed_out, new_Error. intros H. inversion H.
Qed.

(** C5, on the two servers: the 404 of the scenario is surfaced with its
    status code and text, while the error thrown for a 504 whose text is
    [Gateway timeout] shows neither the code nor the text. *)
Theorem C5_http_failure_message_lost :
  fst (getSymptom dev_android 999 (start symptom_404))
    = Rejected (new_Error "HTTP 404: Symptom not found")
  /\ exists e,
       fst (getSymptom dev_android 999 (start gateway_504)) = Rejected e
       /\ Js.includes (message e) "504" = false
       /\ Js.includes (message e) "Gateway timeout" = false.
Proof.
  split; [reflexivity|].
  exists request_timed_out. repeat split.
Qed.

(** C10 (amended): whether a caught error counts as a time-out is decided
    by its message: every [Error] whose message contains ['timeout'], and
    that is not a [TypeError] whose message contains
    ['Network request failed'], is replaced by the fixed
    ['Request timed out. Please try again.'] error.  That includes the
    error of an HTTP failure whose body text, or status line when the body
    is empty, contains ['timeout']: the status code and the text are
    dropped. *)
Theorem C10_timeout_decided_by_substring
    (this : ApiService) (endpoint : string) (options : RequestOptions) (w : World) :
  (forall error : JsError,
     instanceof_Error error = true ->
     Js.includes (message error) "timeout" = true ->
     instanceof_TypeError error && Js.includes (message error) "Network request failed"
       = false ->
     @normalize_error Js.value error w = (Rejected request_timed_out, w))
  /\
  (forall (k : nat) (response : Response) (body_text : string),
     answered w (request_url this endpoint) (request_config this options)
       (request_timeout options) k response ->
     ok response = false ->
     text response = Fulfilled body_text ->
     Js.includes (Js.or_else body_text (statusText response)) "timeout" = true ->
     request this endpoint options w =
       (Rejected request_timed_out,
        after w (attempts_trace (request_url this endpoint)
                   (request_config this options) (S k)))).
Proof.
  split.
  - intros error Herr Hmsg Hnet. apply normalize_error_timeout; assumption.
  - intros k response body_text Hans Hok Htext Hmsg.
    rewrite (request_http_failure this endpoint options w _ response body_text
               (retried_answered this endpoint options w k response Hans) Hok Htext).
    apply normalize_error_timeout; [reflexivity | reflexivity |].
    simpl message. unfold http_error_message.
    apply includes_append_l, includes_append_l, includes_append_l. exact Hmsg.
Qed.

Lemma C10_timeout_decided_by_substring_witness :
  getSymptom dev_android 999 (start gateway_504)
  = (Rejected request_timed_out,
     after (start gateway_504)
       (attempts_trace (request_url dev_android "/symptoms/999")
          (request_config dev_android get_options) 1)).
Proof.
  apply (proj2 (C10_timeout_decided_by_substring dev_android "/symptoms/999" get_options
                  (start gateway_504))
           0%nat (error_response 504 "Gateway Timeout" "Gateway timeout") "Gateway timeout").
  - apply answered_first. reflexivity.
  - reflexivity.
  - reflexivity.
  - reflexivity.
Defined.

(** C10, as stated, fails: a [TypeError] whose message contains both
    ['Network request failed'] and ['timeout'] is an [Error] whose message
    contains ['timeout'], and it is replaced by the connection message,
    not by the time-out message. *)
Lemma C10_network_error_mentioning_timeout :
  instanceof_Error connection_lost = true
  /\ Js.includes (message connection_lost) "timeout" = true
  /\ fst (getSymptoms dev_android (start unreachable)) = Rejected unable_to_connect
  /\ fst (getSymptoms dev_android (start unreachable)) <> Rejected request_timed_out.
Proof.
  split; [reflexivity|]. split; [reflexivity|]. split; [reflexivity|].
  change (fst (getSymptoms dev_android (start unreachable)))
    with (@Rejected Js.value unable_to_connect).
  intros H. inversion H.
Qed.

(* ================================================================== *)
(** ** Request bodies *)
(* ================================================================== *)

(** A write whose payload is an object carries its JSON text. *)
Lemma write_config (this : ApiService) (m : Method) (props : list (string * Js.value)) :
  m <> GET ->
  request_config this (mkOptions (Some m) None (Some (Js.JObj props)) None) =
  mkRequestInit m (defaultHeaders this) (Some (Js.JSON_stringify (Js.JObj props))).
Proof. intros Hm. destruct m; try reflexivity. now destruct Hm. Qed.

(** A read never carries a body, and neither does a write without a
    payload. *)
Lemma no_body_config (this : ApiService) (m : Method) (data : option Js.value) :
  m = GET \/ Js.truthy data = false ->
  body (request_config this (mkOptions (Some m) None data None)) = None.
Proof.
  intros [->|H]; unfold request_config; simpl.
  - now rewrite andb_false_r.
  - now rewrite H.
Qed.

Lemma write_sends_json (this : ApiService) (m : Method) (endpoint : string)
    (props : list (string * Js.value)) :
  m <> GET ->
  sends_json_of (request this endpoint (mkOptions (Some m) None (Some (Js.JObj props)) None))
    m (baseURL this ++ endpoint) (defaultHeaders this) (Js.JObj props).
Proof.
  intros Hm w.
  destruct (request_trace this endpoint
              (mkOptions (Some m) None (Some (Js.JObj props)) None) w) as [n [Hn Htr]].
  exists n. split; [lia|].
  rewrite Htr, write_config by exact Hm. reflexivity.
Qed.

(** C6: each create and update method sends, on every fetch it makes, a
    body equal to the JSON text of the object it was given, with the
    method and path of its endpoint; [createSymptom] of the Migraine
    payload posts exactly that text to [/symptoms] and resolves to the
    symptom the server returns. *)
Theorem C6_write_body_is_json_of_input
    (this : ApiService) (props : list (string * Js.value)) (id : Z) :
  (sends_json_of (createSymptom this (Js.JObj props)) POST
     (baseURL this ++ "/symptoms") (defaultHeaders this) (Js.JObj props)
   /\ sends_json_of (updateSymptom this id (Js.JObj props)) PUT
        (baseURL this ++ "/symptoms/" ++ Js.string_of_Z id) (defaultHeaders this)
        (Js.JObj props)
   /\ sends_json_of (createMedication this (Js.JObj props)) POST
        (baseURL this ++ "/Medication") (defaultHeaders this) (Js.JObj props)
   /\ sends_json_of (updateMedication this id (Js.JObj props)) PUT
        (baseURL this ++ "/Medication/" ++ Js.string_of_Z id) (defaultHeaders this)
        (Js.JObj props)
   /\ sends_json_of (createStage this (Js.JObj props)) POST
        (baseURL this ++ "/stages") (defaultHeaders this) (Js.JObj props)
   /\ sends_json_of (updateStage this id (Js.JObj props)) PUT
        (baseURL this ++ "/stages/" ++ Js.string_of_Z id) (defaultHeaders this)
        (Js.JObj props)
   /\ sends_json_of (createIntake this (Js.JObj props)) POST
        (baseURL this ++ "/intakes") (defaultHeaders this) (Js.JObj props)
   /\ sends_json_of (updateIntake this id (Js.JObj props)) PUT
        (baseURL this ++ "/intakes/" ++ Js.string_of_Z id) (defaultHeaders this)
        (Js.JObj props))
  /\ Js.JSON_stringify migraine = migraine_text
  /\ (forall (w : World) (response : Response) (created : Js.value),
        attempt w (issued w) (baseURL this ++ "/symptoms")
          (mkRequestInit POST (defaultHeaders this) (Some migraine_text)) API_CONFIG.TIMEOUT
          = Fulfilled response ->
        ok response = true ->
        declares_no_json response = false ->
        json response = Fulfilled created ->
        createSymptom this migraine w =
          (Fulfilled created,
           after w [EvFetch (baseURL this ++ "/symptoms")
                      (mkRequestInit POST (defaultHeaders this) (Some migraine_text))])).
Proof.
  split; [|split].
  - repeat split; apply write_sends_json; discriminate.
  - reflexivity.
  - intros w response created Hfirst Hok Hct Hjson.
    apply (request_json this "/symptoms" (post_options (Some migraine)) w _ response);
      try assumption.
    apply (retried_answered this "/symptoms" (post_options (Some migraine)) w 0 response).
    apply answered_first. exact Hfirst.
Qed.

Lemma C6_write_body_is_json_of_input_witness :
  createSymptom dev_android migraine
    (start (scripted [SettlesAfter 35 (Fulfilled (json_response 201 "Created"
                                                    migraine_created))]))
  = (Fulfilled migraine_created,
     after (start (scripted [SettlesAfter 35 (Fulfilled (json_response 201 "Created"
                                                           migraine_created))]))
       [EvFetch "http://10.0.2.2:5050/api/symptoms"
          (mkRequestInit POST
             [("Content-Type", "application/json"); ("Accept", "application/json")]
             (Some migraine_text))]).
Proof.
  exact (proj2 (proj2 (C6_write_body_is_json_of_input dev_android [] 0))
           (start (scripted [SettlesAfter 35 (Fulfilled (json_response 201 "Created"
                                                           migraine_created))]))
           (json_response 201 "Created" migraine_created) migraine_created
           eq_refl eq_refl eq_refl eq_refl).
Defined.

(* ================================================================== *)
(** ** The health check *)
(* ================================================================== *)

(** C7: [healthCheck()] is fulfilled with [true] whenever the read of
    [/symptoms] is fulfilled and with [false] whenever that read throws,
    whatever the error; it is never rejected. *)
Theorem C7_healthCheck_never_throws (this : ApiService) (w : World) :
  (forall v w', get this "/symptoms" w = (Fulfilled v, w') ->
                healthCheck this w = (Fulfilled true, w'))
  /\ (forall e w', get this "/symptoms" w = (Rejected e, w') ->
                   healthCheck this w = (Fulfilled false, w'))
  /\ (forall e, fst (healthCheck this w) <> Rejected e).
Proof.
  unfold healthCheck, try_catch, bind, ret.
  destruct (get this "/symptoms" w) as [[v|e] w1] eqn:Hget.
  - split; [|split].
    + intros v' w' H. inversion H; subst. reflexivity.
    + intros e w' H. discriminate.
    + intros e. simpl. discriminate.
  - split; [|split].
    + intros v w' H. discriminate.
    + intros e' w' H. inversion H; subst. reflexivity.
    + intros e'. simpl. discriminate.
Qed.

Lemma C7_healthCheck_never_throws_witness :
  fst (healthCheck dev_android (start empty_list_server)) = Fulfilled true
  /\ fst (healthCheck dev_android (start silent)) = Fulfilled false.
Proof.
  split.
  - rewrite (proj1 (C7_healthCheck_never_throws dev_android (start empty_list_server))
               (Js.JArr []) _ eq_refl).
    reflexivity.
  - rewrite (proj1 (proj2 (C7_healthCheck_never_throws dev_android (start silent)))
               request_timed_out _ eq_refl).
    reflexivity.
Defined.

(* ================================================================== *)
(** ** The optimistic toggle *)
(* ================================================================== *)

(** What the [catch] block of the handler writes back: the list the
    closure captured, with the negation of the requested value on every
    symptom of that id. *)
Lemma toggle_failure_state (api : ApiService) (symptoms_ : list Symptom)
    (symptomId : Z) (value : bool) (screen : HomeScreen) (w : World)
    (symptomToUpdate : Symptom) (e : JsError) :
  find (fun s => id s =? symptomId) symptoms_ = Some symptomToUpdate ->
  fst (updateSymptom api symptomId
         (Symptom_object (with_isActive symptomToUpdate value)) w) = Rejected e ->
  symptoms (fst (handleToggleActive api symptoms_ symptomId value (screen, w))) =
    map (fun symptom =>
           if id symptom =? symptomId then with_isActive symptom (negb value) else symptom)
        symptoms_.
Proof.
  intros Hfind Hfail. unfold handleToggleActive. rewrite Hfind.
  destruct (updateSymptom api symptomId _ w) as [[v|e'] w']; simpl in Hfail.
  - discriminate.
  - reflexivity.
Qed.

(** What a fulfilled update leaves: the optimistic list. *)
Lemma toggle_success_state (api : ApiService) (symptoms_ : list Symptom)
    (symptomId : Z) (value : bool) (screen : HomeScreen) (w : World)
    (symptomToUpdate : Symptom) (v : Js.value) :
  find (fun s => id s =? symptomId) symptoms_ = Some symptomToUpdate ->
  fst (updateSymptom api symptomId
         (Symptom_object (with_isActive symptomToUpdate value)) w) = Fulfilled v ->
  symptoms (fst (handleToggleActive api symptoms_ symptomId value (screen, w))) =
    map (fun symptom =>
           if id symptom =? symptomId then with_isActive symptom value else symptom)
        symptoms_.
Proof.
  intros Hfind Hok. unfold handleToggleActive. rewrite Hfind.
  destruct (updateSymptom api symptomId _ w) as [[v'|e'] w']; simpl in Hok.
  - reflexivity.
  - discriminate.
Qed.

Lemma with_isActive_same (s : Symptom) : with_isActive s (isActive s) = s.
Proof. destruct s; reflexivity. Qed.

(** The write-back is a true rollback when the toggle asked for a change:
    every symptom of that id held the other value. *)
Lemma rollback_restores_a_real_toggle (symptoms_ : list Symptom) (symptomId : Z)
    (value : bool) :
  (forall s, In s symptoms_ -> id s = symptomId -> isActive s = negb value) ->
  map (fun symptom =>
         if id symptom =? symptomId then with_isActive symptom (negb value) else symptom)
      symptoms_ = symptoms_.
Proof.
  intros Hprior. rewrite <- (map_id symptoms_) at 2.
  apply map_ext_in. intros s Hin.
  destruct (Z.eqb_spec (id s) symptomId) as [Heq|_]; [|reflexivity].
  rewrite <- (Hprior s Hin Heq). apply with_isActive_same.
Qed.

(** The write-back leaves the symptoms of any other id as they were, each
    in its place. *)
Lemma rollback_keeps_the_others (symptoms_ : list Symptom) (symptomId : Z)
    (value : bool) (i : nat) (s : Symptom) :
  nth_error symptoms_ i = Some s ->
  id s <> symptomId ->
  nth_error
    (map (fun symptom =>
            if id symptom =? symptomId then with_isActive symptom (negb value) else symptom)
       symptoms_) i = Some s.
Proof.
  intros Hnth Hid. rewrite nth_error_map, Hnth. simpl.
  destruct (Z.eqb_spec (id s) symptomId); [contradiction|reflexivity].
Qed.

(** C9, at a symptom that is already active and a toggle that asks for
    active again while the server is unreachable: the write-back sets the
    symptom inactive, which is not the value it had before the toggle. *)
Theorem C9_rollback_writes_negated_value :
  isActive headache = true
  /\ (exists e, fst (updateSymptom dev_android 1
                       (Symptom_object (with_isActive headache true)) (start silent))
                = Rejected e)
  /\ symptoms (fst (handleToggleActive dev_android [headache] 1 true
                      (mkHomeScreen [headache] [], start silent)))
     = [mkSymptom 1 "Headache" false []]
  /\ map isActive
       (symptoms (fst (handleToggleActive dev_android [headache] 1 true
                         (mkHomeScreen [headache] [], start silent))))
     <> map isActive [headache].
Proof.
  split; [reflexivity|]. split.
  - exists request_timed_out. reflexivity.
  - split.
    + rewrite (toggle_failure_state dev_android [headache] 1 true _ (start silent)
                 headache request_timed_out eq_refl eq_refl).
      reflexivity.
    + rewrite (toggle_failure_state dev_android [headache] 1 true _ (start silent)
                 headache request_timed_out eq_refl eq_refl).
      simpl. discriminate.
Qed.

(* ================================================================== *)
(** ** Further properties of the client *)
(* ================================================================== *)

Section TimedRetry.

Variables (url : string) (config : RequestInit) (timeout : Z).

(** The loop runs the timed call until it succeeds or the allowance is
    used up, and settles as its last execution did. *)
Lemma withRetry_loop_runs (retries : nat) : forall w : World,
  exists n,
    (1 <= n <= S retries)%nat /\
    withRetry_loop (timed_fetch url config timeout) retries w =
      (attempt w (issued w + (n - 1)) url config timeout,
       after w (attempts_trace url config n)) /\
    (forall i, (i < n - 1)%nat ->
       exists e, attempt w (issued w + i) url config timeout = Rejected e) /\
    ((n < S retries)%nat ->
       exists r, attempt w (issued w + (n - 1)) url config timeout = Fulfilled r).
Proof.
  induction retries as [|retries IH]; intros w.
  - exists 1%nat. split; [lia|]. split; [|split].
    + rewrite withRetry_loop_step, timed_fetch_run. simpl Nat.sub.
      rewrite Nat.add_0_r. unfold issued.
      destruct (attempt w (fetch_count (trace w)) url config timeout); reflexivity.
    + intros i Hi. lia.
    + intros Hn. lia.
  - rewrite withRetry_loop_step, timed_fetch_run.
    destruct (attempt w (fetch_count (trace w)) url config timeout) as [r|e0] eqn:H0.
    + exists 1%nat. split; [lia|]. split; [|split].
      * simpl Nat.sub. rewrite Nat.add_0_r. unfold issued. rewrite H0. reflexivity.
      * intros i Hi. lia.
      * intros _. exists r. simpl Nat.sub. rewrite Nat.add_0_r. exact H0.
    + set (w1 := record_event _ _).
      destruct (IH w1) as (n & Hn & Hrun & Hfail & Hstop).
      assert (Hshift : forall j, attempt w1 (issued w1 + j) url config timeout
                                 = attempt w (issued w + S j) url config timeout).
      { intros j. unfold w1. rewrite issued_after_failed_attempt.
        unfold attempt; simpl. f_equal. f_equal. lia. }
      exists (S n). split; [lia|]. split; [|split].
      * rewrite Hrun, Hshift. unfold w1. rewrite after_failed_attempt.
        replace (S n - 1)%nat with (S (n - 1)) by lia.
        destruct n as [|n]; [lia|]. reflexivity.
      * intros i Hi. destruct i as [|i].
        -- exists e0. rewrite Nat.add_0_r. exact H0.
        -- destruct (Hfail i) as [e He]; [lia|]. exists e.
           rewrite <- Hshift. exact He.
      * intros Hlt. destruct Hstop as [r Hr]; [lia|]. exists r.
        replace (S n - 1)%nat with (S (n - 1)) by lia.
        rewrite <- Hshift. exact Hr.
Qed.

End TimedRetry.

(** X1: whatever [attempts] is, [withRetry] executes the timed call at
    least once and at most [max(1, attempts)] times, waits the retry delay
    between two executions and never after the last, stops before the
    allowance is used up only on a success, and settles exactly as its
    last execution did. *)
Theorem X1_withRetry_runs_within_allowance
    (url : string) (config : RequestInit) (timeout attempts : Z) (w : World) :
  exists n,
    (1 <= n <= allowance attempts)%nat /\
    withRetry (timed_fetch url config timeout) attempts w =
      (attempt w (issued w + (n - 1)) url config timeout,
       after w (attempts_trace url config n)) /\
    (forall i, (i < n - 1)%nat ->
       exists e, attempt w (issued w + i) url config timeout = Rejected e) /\
    ((n < allowance attempts)%nat ->
       exists r, attempt w (issued w + (n - 1)) url config timeout = Fulfilled r).
Proof.
  rewrite allowance_loop. unfold withRetry. apply withRetry_loop_runs.
Qed.

(** X2: with [attempts] at or below one (zero and negative included)
    [withRetry] executes the operation once and never waits: its result
    is that of the single execution. *)
Theorem X2_withRetry_without_allowance
    (url : string) (config : RequestInit) (timeout attempts : Z) (w : World) :
  attempts <= 1 ->
  withRetry (timed_fetch url config timeout) attempts w =
    (attempt w (issued w) url config timeout, after w [EvFetch url config]).
Proof.
  intros Hle. unfold withRetry.
  replace (Z.to_nat (attempts - 1)) with O by lia.
  destruct (withRetry_loop_runs url config timeout O w) as (n & Hn & Hrun & _).
  assert (n = 1%nat) as -> by lia.
  rewrite Hrun. simpl Nat.sub. rewrite Nat.add_0_r. reflexivity.
Qed.

Lemma X2_withRetry_without_allowance_witness :
  withRetry (timed_fetch "http://10.0.2.2:5050/api/symptoms"
               (request_config dev_android get_options) API_CONFIG.TIMEOUT) 0
    (start silent)
  = (Rejected (new_Error "Request timeout"),
     after (start silent)
       [EvFetch "http://10.0.2.2:5050/api/symptoms" (request_config dev_android get_options)]).
Proof.
  apply (X2_withRetry_without_allowance "http://10.0.2.2:5050/api/symptoms"
           (request_config dev_android get_options) API_CONFIG.TIMEOUT 0 (start silent)).
  lia.
Defined.

(** X3: every request makes one or two fetch calls and nothing else
    but the retry delay between them; the calls are for the same URL with
    the same method, headers and body; and there is exactly one call when,
    and only when, the first is answered within the window. *)
Theorem X3_request_makes_one_or_two_fetches
    (this : ApiService) (endpoint : string) (options : RequestOptions) (w : World) :
  exists n,
    (1 <= n <= 2)%nat /\
    snd (request this endpoint options w) =
      after w (attempts_trace (request_url this endpoint) (request_config this options) n) /\
    (n = 1%nat <->
     exists response,
       attempt w (issued w) (request_url this endpoint) (request_config this options)
         (request_timeout options) = Fulfilled response).
Proof.
  rewrite request_world, withRetry_default.
  destruct (withRetry_loop_runs (request_url this endpoint) (request_config this options)
              (request_timeout options) 1 w) as (n & Hn & Hrun & Hfail & Hstop).
  exists n. split; [exact Hn|]. split; [rewrite Hrun; reflexivity|]. split.
  - intros ->. destruct Hstop as [r Hr]; [lia|]. exists r.
    simpl Nat.sub in Hr. rewrite Nat.add_0_r in Hr. exact Hr.
  - intros [response Hresp].
    destruct (Nat.eq_dec n 1) as [|Hne]; [assumption|].
    destruct (Hfail O) as [e He]; [lia|].
    rewrite Nat.add_0_r in He. congruence.
Qed.

(** X4: when every execution of a request outlasts its window, by a
    late settlement or by none at all, the caller gets
    ['Request timed out. Please try again.'] and not the error of the
    timer, after two fetch calls and one retry delay. *)
Theorem X4_late_answers_give_the_timeout_message
    (this : ApiService) (endpoint : string) (options : RequestOptions) (w : World) :
  (forall i, (i < 2)%nat ->
     exceeds (network w (issued w + i)%nat (request_url this endpoint)
                (request_config this options)) (request_timeout options)) ->
  request this endpoint options w =
    (Rejected (new_Error "Request timed out. Please try again."),
     after w [EvFetch (request_url this endpoint) (request_config this options);
              EvDelay 500;
              EvFetch (request_url this endpoint) (request_config this options)]).
Proof.
  intros Hlate.
  rewrite (request_gives_up this endpoint options w (new_Error "Request timeout")).
  - reflexivity.
  - intros i Hi. default_allowance. eexists.
    apply withTimeout_exceeded, Hlate, Hi.
  - apply withTimeout_exceeded, Hlate. lia.
Qed.

Lemma X4_late_answers_give_the_timeout_message_witness :
  fst (getSymptoms dev_android (start (scripted [SettlesAfter 5001 (Fulfilled no_content)])))
  = Rejected (new_Error "Request timed out. Please try again.").
Proof.
  change (getSymptoms dev_android
            (start (scripted [SettlesAfter 5001 (Fulfilled no_content)])))
    with (request dev_android "/symptoms" get_options
            (start (scripted [SettlesAfter 5001 (Fulfilled no_content)]))).
  rewrite (X4_late_answers_give_the_timeout_message dev_android "/symptoms" get_options
             (start (scripted [SettlesAfter 5001 (Fulfilled no_content)]))).
  - reflexivity.
  - intros i Hi. destruct i as [|[|i]]; simpl; [reflexivity | exact I | lia].
Defined.

(** X5: when the retry gives up on a [TypeError] whose message contains
    ['Network request failed'], the caller gets
    ['Unable to connect to server. Please check your connection.']. *)
Theorem X5_unreachable_host_gives_the_connection_message
    (this : ApiService) (endpoint : string) (options : RequestOptions) (w : World)
    (e0 e1 : JsError) :
  attempt w (issued w) (request_url this endpoint) (request_config this options)
    (request_timeout options) = Rejected e0 ->
  attempt w (issued w + 1) (request_url this endpoint) (request_config this options)
    (request_timeout options) = Rejected e1 ->
  instanceof_TypeError e1 = true ->
  Js.includes (message e1) "Network request failed" = true ->
  request this endpoint options w =
    (Rejected (new_Error "Unable to connect to server. Please check your connection."),
     after w (attempts_trace (request_url this endpoint) (request_config this options) 2)).
Proof.
  intros H0 H1 Hcls Hmsg.
  rewrite (request_gives_up this endpoint options w e1).
  - apply normalize_error_network; assumption.
  - intros i Hi. default_allowance.
    destruct i as [|[|i]]; [rewrite Nat.add_0_r; eauto | eauto | lia].
  - exact H1.
Qed.

Lemma X5_unreachable_host_gives_the_connection_message_witness :
  fst (request dev_android "/symptoms" get_options (start offline))
  = Rejected (new_Error "Unable to connect to server. Please check your connection.").
Proof.
  rewrite (X5_unreachable_host_gives_the_connection_message dev_android "/symptoms"
             get_options (start offline) network_request_failed network_request_failed
             eq_refl eq_refl eq_refl eq_refl).
  reflexivity.
Defined.

(** X6: when the retry gives up on an error that is neither a
    [TypeError] mentioning ['Network request failed'] nor an [Error]
    mentioning ['timeout'], the caller gets that very error. *)
Theorem X6_other_errors_reach_the_caller_unchanged
    (this : ApiService) (endpoint : string) (options : RequestOptions) (w : World)
    (e0 e1 : JsError) :
  attempt w (issued w) (request_url this endpoint) (request_config this options)
    (request_timeout options) = Rejected e0 ->
  attempt w (issued w + 1) (request_url this endpoint) (request_config this options)
    (request_timeout options) = Rejected e1 ->
  instanceof_TypeError e1 && Js.includes (message e1) "Network request failed" = false ->
  instanceof_Error e1 && Js.includes (message e1) "timeout" = false ->
  request this endpoint options w =
    (Rejected e1,
     after w (attempts_trace (request_url this endpoint) (request_config this options) 2)).
Proof.
  intros H0 H1 Hnet Htime.
  rewrite (request_gives_up this endpoint options w e1).
  - apply normalize_error_other; assumption.
  - intros i Hi. default_allowance.
    destruct i as [|[|i]]; [rewrite Nat.add_0_r; eauto | eauto | lia].
  - exact H1.
Qed.

Lemma X6_other_errors_reach_the_caller_unchanged_witness :
  fst (request dev_android "/symptoms" get_options (start aborting)) = Rejected aborted.
Proof.
  rewrite (X6_other_errors_reach_the_caller_unchanged dev_android "/symptoms"
             get_options (start aborting) aborted aborted
             eq_refl eq_refl eq_refl eq_refl).
  reflexivity.
Defined.

(** X7: a response with a non-success status whose error message does not
    contain ['timeout'] makes the call reject with an [Error] whose
    message is [HTTP <status>: <text>], the text being the body when it is
    not empty and the status line otherwise; the message contains the
    status code and that text, and no further fetch is made. *)
Theorem X7_http_failure_is_surfaced
    (this : ApiService) (endpoint : string) (options : RequestOptions) (w : World)
    (k : nat) (response : Response) (body_text : string) :
  answered w (request_url this endpoint) (request_config this options)
    (request_timeout options) k response ->
  ok response = false ->
  text response = Fulfilled body_text ->
  Js.includes (http_error_message response body_text) "timeout" = false ->
  request this endpoint options w =
    (Rejected (new_Error ("HTTP " ++ Js.string_of_Z (status response) ++ ": "
                            ++ (if Js.is_empty body_text then statusText response
                                else body_text))),
     after w (attempts_trace (request_url this endpoint) (request_config this options) (S k)))
  /\ Js.includes (http_error_message response body_text)
       (Js.string_of_Z (status response)) = true
  /\ Js.includes (http_error_message response body_text)
       (if Js.is_empty body_text then statusText response else body_text) = true.
Proof.
  intros Hans Hok Htext Hno. split.
  - apply (http_failure_surfaced this endpoint options w k response body_text); assumption.
  - apply http_error_message_shows.
Qed.

Lemma X7_http_failure_is_surfaced_witness :
  fst (request dev_android "/symptoms/999" get_options (start symptom_404))
  = Rejected (new_Error "HTTP 404: Symptom not found").
Proof.
  rewrite (proj1 (X7_http_failure_is_surfaced dev_android "/symptoms/999" get_options
                    (start symptom_404) 0
                    (error_response 404 "Not Found" "Symptom not found")
                    "Symptom not found"
                    (answered_first (start symptom_404)
                       (request_url dev_android "/symptoms/999")
                       (request_config dev_android get_options)
                       (request_timeout get_options)
                       (error_response 404 "Not Found" "Symptom not found") eq_refl)
                    eq_refl eq_refl eq_refl)).
  reflexivity.
Defined.

(** X8: a failure to read the body of a response is not retried and goes
    to the [catch] block as it is: the parse error of a successful
    response that announces JSON, and the read error of a non-success
    response. *)
Theorem X8_body_errors_are_not_retried
    (this : ApiService) (endpoint : string) (options : RequestOptions) (w : World)
    (k : nat) (response : Response) (e : JsError) :
  answered w (request_url this endpoint) (request_config this options)
    (request_timeout options) k response ->
  (ok response = true -> declares_no_json response = false ->
   json response = Rejected e ->
   request this endpoint options w =
     normalize_error e
       (after w (attempts_trace (request_url this endpoint) (request_config this options)
                   (S k))))
  /\
  (ok response = false -> text response = Rejected e ->
   request this endpoint options w =
     normalize_error e
       (after w (attempts_trace (request_url this endpoint) (request_config this options)
                   (S k)))).
Proof.
  intros Hans.
  pose proof (retried_answered this endpoint options w k response Hans) as Hrun.
  split.
  - intros Hok Hct Hjson. rewrite request_unfold. unfold try_catch, bind.
    rewrite Hrun, Hok. simpl. rewrite Hct. unfold await. rewrite Hjson. reflexivity.
  - intros Hok Htext. rewrite request_unfold. unfold try_catch, bind.
    rewrite Hrun, Hok. simpl. unfold await. rewrite Htext. reflexivity.
Qed.

Lemma X8_body_errors_are_not_retried_witness :
  request dev_android "/symptoms" get_options
    (start (scripted [SettlesAfter 20 (Fulfilled truncated_json)]))
  = (Rejected not_json,
     after (start (scripted [SettlesAfter 20 (Fulfilled truncated_json)]))
       [EvFetch "http://10.0.2.2:5050/api/symptoms" (request_config dev_android get_options)]).
Proof.
  rewrite (proj1 (X8_body_errors_are_not_retried dev_android "/symptoms" get_options
                    (start (scripted [SettlesAfter 20 (Fulfilled truncated_json)]))
                    0 truncated_json not_json
                    (answered_first
                       (start (scripted [SettlesAfter 20 (Fulfilled truncated_json)]))
                       (request_url dev_android "/symptoms")
                       (request_config dev_android get_options)
                       (request_timeout get_options) truncated_json eq_refl))
             eq_refl eq_refl eq_refl).
  reflexivity.
Defined.

(** A request whose method is [GET], or whose payload is missing or
    falsy, is sent without a body. *)
Lemma request_without_body {A : Type} (call : Async A) (this : ApiService)
    (endpoint : string) (m : Method) (data : option Js.value) :
  (forall w, snd (call w) = snd (request this endpoint (mkOptions (Some m) None data None) w)) ->
  m = GET \/ Js.truthy data = false ->
  sends_without_body call m (baseURL this ++ endpoint) (defaultHeaders this).
Proof.
  intros Hcall Hno w.
  destruct (request_trace this endpoint (mkOptions (Some m) None data None) w)
    as [n [Hn Htr]].
  exists n. split; [exact Hn|].
  rewrite Hcall, Htr. f_equal. f_equal.
  pose proof (no_body_config this m data Hno) as Hbody.
  unfold request_config in *. simpl in *. rewrite Hbody. reflexivity.
Qed.

Lemma healthCheck_world (this : ApiService) (w : World) :
  snd (healthCheck this w) = snd (request this "/symptoms" get_options w).
Proof.
  unfold healthCheck, try_catch, bind, ret, get.
  destruct (request this "/symptoms" get_options w) as [[v|e] w']; reflexivity.
Qed.

(** X9: each read and each delete method, and the health check, fetches
    the path of its endpoint under the base URL with its method ([GET] or
    [DELETE]) and the default headers, and without a body. *)
Theorem X9_reads_and_deletes_carry_no_body (this : ApiService) (id : Z) :
  sends_without_body (getSymptoms this) GET
    (baseURL this ++ "/symptoms") (defaultHeaders this)
  /\ sends_without_body (getSymptom this id) GET
       (baseURL this ++ "/symptoms/" ++ Js.string_of_Z id) (defaultHeaders this)
  /\ sends_without_body (deleteSymptom this id) DELETE
       (baseURL this ++ "/symptoms/" ++ Js.string_of_Z id) (defaultHeaders this)
  /\ sends_without_body (getMedicationsByStage this id) GET
       (baseURL this ++ "/Medication/stage/" ++ Js.string_of_Z id) (defaultHeaders this)
  /\ sends_without_body (getMedication this id) GET
       (baseURL this ++ "/Medication/" ++ Js.string_of_Z id) (defaultHeaders this)
  /\ sends_without_body (deleteMedication this id) DELETE
       (baseURL this ++ "/Medication/" ++ Js.string_of_Z id) (defaultHeaders this)
  /\ sends_without_body (deleteStage this id) DELETE
       (baseURL this ++ "/stages/" ++ Js.string_of_Z id) (defaultHeaders this)
  /\ sends_without_body (deleteIntake this id) DELETE
       (baseURL this ++ "/intakes/" ++ Js.string_of_Z id) (defaultHeaders this)
  /\ sends_without_body (healthCheck this) GET
       (baseURL this ++ "/symptoms") (defaultHeaders this).
Proof.
  repeat match goal with |- _ /\ _ => split end;
    try (apply (request_without_body _ this _ _ None);
         [intros w; reflexivity | right; reflexivity]).
  apply (request_without_body _ this "/symptoms" GET None);
    [apply healthCheck_world | left; reflexivity].
Qed.

(** X10: a payload is sent only when it is truthy and the method is not
    [GET]: a [GET] given a body, and a write whose payload is missing,
    [null], [false], [0] or the empty string, are fetched without a
    body. *)
Theorem X10_falsy_payload_is_not_sent
    (this : ApiService) (endpoint : string) (m : Method) (data : option Js.value) :
  m = GET \/ Js.truthy data = false ->
  sends_without_body (request this endpoint (mkOptions (Some m) None data None))
    m (baseURL this ++ endpoint) (defaultHeaders this).
Proof.
  intros Hno. apply (request_without_body _ this endpoint m data).
  - intros w. reflexivity.
  - exact Hno.
Qed.

Lemma X10_falsy_payload_is_not_sent_witness :
  sends_without_body (post dev_android "/intakes" (Some (Js.JNum 0)))
    POST "http://10.0.2.2:5050/api/intakes"
    [("Content-Type", "application/json"); ("Accept", "application/json")].
Proof.
  apply (X10_falsy_payload_is_not_sent dev_android "/intakes" POST (Some (Js.JNum 0))).
  right. reflexivity.
Defined.

(* ================================================================== *)
(** ** Further properties of the home screen *)
(* ================================================================== *)

Lemma find_none_of_other_ids (symptoms_ : list Symptom) (symptomId : Z) :
  (forall s, In s symptoms_ -> id s <> symptomId) ->
  find (fun s => id s =? symptomId) symptoms_ = None.
Proof.
  intros Hother. destruct (find _ symptoms_) as [s|] eqn:Hfind; [|reflexivity].
  apply find_some in Hfind as [Hin Heq].
  apply Z.eqb_eq in Heq. now destruct (Hother s Hin).
Qed.

(** X11: a toggle for an id that no symptom of the list has does
    nothing: no state is written, no request is made, no alert is shown. *)
Theorem X11_toggle_of_unknown_id_does_nothing
    (api : ApiService) (symptoms_ : list Symptom) (symptomId : Z) (value : bool)
    (screen : HomeScreen) (w : World) :
  (forall s, In s symptoms_ -> id s <> symptomId) ->
  handleToggleActive api symptoms_ symptomId value (screen, w) = (screen, w).
Proof.
  intros Hother. unfold handleToggleActive.
  rewrite (find_none_of_other_ids _ _ Hother). reflexivity.
Qed.

Lemma X11_toggle_of_unknown_id_does_nothing_witness :
  handleToggleActive dev_android [headache] 5 true (mkHomeScreen [headache] [], start silent)
  = (mkHomeScreen [headache] [], start silent).
Proof.
  apply (X11_toggle_of_unknown_id_does_nothing dev_android [headache] 5 true).
  intros s [<-|[]]. discriminate.
Defined.

(** What the toggle sends: the first symptom of that id, with the
    requested value, as the body of a [PUT] to [/symptoms/<id>]. *)
Lemma toggle_world (api : ApiService) (symptoms_ : list Symptom) (symptomId : Z)
    (value : bool) (screen : HomeScreen) (w : World) (symptomToUpdate : Symptom) :
  find (fun s => id s =? symptomId) symptoms_ = Some symptomToUpdate ->
  snd (handleToggleActive api symptoms_ symptomId value (screen, w)) =
  snd (updateSymptom api symptomId (Symptom_object (with_isActive symptomToUpdate value)) w).
Proof.
  intros Hfind. unfold handleToggleActive. rewrite Hfind.
  destruct (updateSymptom api symptomId _ w) as [[v|e] w']; reflexivity.
Qed.

(** X12: when the update succeeds, the list on screen is the captured one
    with the requested value on every symptom of that id and every other
    symptom as it was, each in its place; no alert is shown. *)
Theorem X12_toggle_success_keeps_the_optimistic_list
    (api : ApiService) (symptoms_ : list Symptom) (symptomId : Z) (value : bool)
    (screen : HomeScreen) (w : World) (symptomToUpdate : Symptom) (v : Js.value) :
  find (fun s => id s =? symptomId) symptoms_ = Some symptomToUpdate ->
  fst (updateSymptom api symptomId
         (Symptom_object (with_isActive symptomToUpdate value)) w) = Fulfilled v ->
  (forall i s,
     nth_error symptoms_ i = Some s ->
     nth_error
       (symptoms (fst (handleToggleActive api symptoms_ symptomId value (screen, w)))) i
     = Some (if id s =? symptomId
             then mkSymptom (id s) (name s) value (stages s)
             else s))
  /\ length (symptoms (fst (handleToggleActive api symptoms_ symptomId value (screen, w))))
     = length symptoms_
  /\ alerts (fst (handleToggleActive api symptoms_ symptomId value (screen, w)))
     = alerts screen.
Proof.
  intros Hfind Hok.
  rewrite (toggle_success_state api symptoms_ symptomId value screen w
             symptomToUpdate v Hfind Hok).
  split; [|split].
  - intros i s Hnth. rewrite nth_error_map, Hnth. reflexivity.
  - apply length_map.
  - unfold handleToggleActive. rewrite Hfind.
    destruct (updateSymptom api symptomId _ w) as [[v'|e'] w']; simpl in Hok.
    + reflexivity.
    + discriminate.
Qed.

(** X13: when the update fails after a toggle that asked for a change
    (every symptom of that id held the other value), the list on screen
    is again the captured list, and the one alert
    ['Failed to update symptom. Please try again.'] is added. *)
Theorem X13_failed_toggle_restores_the_list
    (api : ApiService) (symptoms_ : list Symptom) (symptomId : Z) (value : bool)
    (screen : HomeScreen) (w : World) (symptomToUpdate : Symptom) (e : JsError) :
  find (fun s => id s =? symptomId) symptoms_ = Some symptomToUpdate ->
  fst (updateSymptom api symptomId
         (Symptom_object (with_isActive symptomToUpdate value)) w) = Rejected e ->
  (forall s, In s symptoms_ -> id s = symptomId -> isActive s = negb value) ->
  symptoms (fst (handleToggleActive api symptoms_ symptomId value (screen, w))) = symptoms_
  /\ alerts (fst (handleToggleActive api symptoms_ symptomId value (screen, w)))
     = (alerts screen ++ [("Error", "Failed to update symptom. Please try again.")])%list.
Proof.
  intros Hfind Hfail Hprior. split.
  - rewrite (toggle_failure_state api symptoms_ symptomId value screen w
               symptomToUpdate e Hfind Hfail).
    apply rollback_restores_a_real_toggle. exact Hprior.
  - unfold handleToggleActive. rewrite Hfind.
    destruct (updateSymptom api symptomId _ w) as [[v'|e'] w']; simpl in Hfail.
    + discriminate.
    + reflexivity.
Qed.

(** X14: whatever the outcome of the update, a toggle never adds, drops
    or reorders symptoms and never changes an id, a name or the stages:
    only [isActive] of the symptoms of that id can differ. *)
Theorem X14_toggle_changes_nothing_but_the_flag
    (api : ApiService) (symptoms_ : list Symptom) (symptomId : Z) (value : bool)
    (screen : HomeScreen) (w : World) :
  symptoms screen = symptoms_ ->
  let after_toggle :=
    symptoms (fst (handleToggleActive api symptoms_ symptomId value (screen, w))) in
  map id after_toggle = map id symptoms_
  /\ map name after_toggle = map name symptoms_
  /\ map stages after_toggle = map stages symptoms_
  /\ (forall i s s',
        nth_error symptoms_ i = Some s -> nth_error after_toggle i = Some s' ->
        id s <> symptomId -> s' = s).
Proof.
  intros Hscreen after_toggle.
  assert (Hshape : after_toggle = symptoms_ \/
                   exists b, after_toggle =
                     map (fun symptom =>
                            if id symptom =? symptomId then with_isActive symptom b
                            else symptom) symptoms_).
  { unfold after_toggle, handleToggleActive.
    destruct (find _ symptoms_) as [s|]; [|left; exact Hscreen].
    destruct (updateSymptom api symptomId _ w) as [[v|e] w']; right; eexists; reflexivity. }
  destruct Hshape as [->|[b ->]].
  - repeat split; try reflexivity. intros i s s' H1 H2 _. congruence.
  - repeat split.
    + rewrite map_map. apply map_ext. intros s. now destruct (id s =? symptomId).
    + rewrite map_map. apply map_ext. intros s. now destruct (id s =? symptomId).
    + rewrite map_map. apply map_ext. intros s. now destruct (id s =? symptomId).
    + intros i s s' H1 H2 Hid. rewrite nth_error_map, H1 in H2. simpl in H2.
      destruct (Z.eqb_spec (id s) symptomId); [contradiction|congruence].
Qed.

Lemma X12_toggle_success_keeps_the_optimistic_list_witness :
  symptoms (fst (handleToggleActive dev_android [headache; back_pain] 2 true
                   (mkHomeScreen [headache; back_pain] [],
                    start (accepting (Symptom_object (with_isActive back_pain true))))))
  = [headache; mkSymptom 2 "Back pain" true []].
Proof.
  pose proof (X12_toggle_success_keeps_the_optimistic_list dev_android
                [headache; back_pain] 2 true (mkHomeScreen [headache; back_pain] [])
                (start (accepting (Symptom_object (with_isActive back_pain true))))
                back_pain (Symptom_object (with_isActive back_pain true))
                eq_refl eq_refl) as [Hnth [Hlen _]].
  pose proof (Hnth 0%nat headache eq_refl) as H0.
  pose proof (Hnth 1%nat back_pain eq_refl) as H1.
  destruct (symptoms _) as [|a [|b [|c l]]]; try discriminate.
  simpl in H0, H1. congruence.
Defined.

Lemma X13_failed_toggle_restores_the_list_witness :
  symptoms (fst (handleToggleActive dev_android [headache; back_pain] 2 true
                   (mkHomeScreen [headache; back_pain] [], start silent)))
  = [headache; back_pain].
Proof.
  apply (X13_failed_toggle_restores_the_list dev_android [headache; back_pain] 2 true
           (mkHomeScreen [headache; back_pain] []) (start silent) back_pain
           request_timed_out eq_refl eq_refl).
  intros s [<-|[<-|[]]]; [discriminate | reflexivity].
Defined.

Lemma X14_toggle_changes_nothing_but_the_flag_witness :
  map name (symptoms (fst (handleToggleActive dev_android [headache; back_pain] 1 true
                             (mkHomeScreen [headache; back_pain] [], start silent))))
  = ["Headache"; "Back pain"].
Proof.
  apply (X14_toggle_changes_nothing_but_the_flag dev_android [headache; back_pain] 1 true
           (mkHomeScreen [headache; back_pain] []) (start silent) eq_refl).
Defined.

(** X27: a toggle for an id that the list has sends, on every fetch it
    makes, a [PUT] to [/symptoms/<id>] whose body is the JSON text of the
    first symptom of that id with the requested value and its own id,
    name and stages. *)
Theorem X27_toggle_puts_the_first_symptom_of_the_id
    (api : ApiService) (symptoms_ : list Symptom) (symptomId : Z) (value : bool)
    (screen : HomeScreen) (w : World) (symptomToUpdate : Symptom) :
  find (fun s => id s =? symptomId) symptoms_ = Some symptomToUpdate ->
  id symptomToUpdate = symptomId
  /\ In symptomToUpdate symptoms_
  /\ exists n, (1 <= n <= 2)%nat /\
       snd (handleToggleActive api symptoms_ symptomId value (screen, w)) =
         after w
           (attempts_trace (baseURL api ++ "/symptoms/" ++ Js.string_of_Z symptomId)
              (mkRequestInit PUT (defaultHeaders api)
                 (Some (Js.JSON_stringify
                          (Symptom_object
                             (mkSymptom (id symptomToUpdate) (name symptomToUpdate) value
                                (stages symptomToUpdate))))))
              n).
Proof.
  intros Hfind. pose proof (find_some _ _ Hfind) as [Hin Hid].
  apply Z.eqb_eq in Hid. split; [exact Hid|]. split; [exact Hin|].
  rewrite (toggle_world api symptoms_ symptomId value screen w symptomToUpdate Hfind).
  destruct (request_trace api ("/symptoms/" ++ Js.string_of_Z symptomId)
              (put_options (Some (Symptom_object (with_isActive symptomToUpdate value)))) w)
    as [n [Hn Htr]].
  exists n. split; [exact Hn|]. exact Htr.
Qed.

Lemma X27_toggle_puts_the_first_symptom_of_the_id_witness :
  exists n,
    snd (handleToggleActive dev_android [headache; back_pain] 2 true
           (mkHomeScreen [headache; back_pain] [], start silent))
    = after (start silent)
        (attempts_trace "http://10.0.2.2:5050/api/symptoms/2"
           (mkRequestInit PUT
              [("Content-Type", "application/json"); ("Accept", "application/json")]
              (Some (Js.dq "{'id':2,'name':'Back pain','isActive':true,'stages':[]}")))
           n).
Proof.
  destruct (X27_toggle_puts_the_first_symptom_of_the_id dev_android [headache; back_pain]
              2 true (mkHomeScreen [headache; back_pain] []) (start silent) back_pain
              eq_refl) as (_ & _ & n & _ & Hrun).
  exists n. exact Hrun.
Defined.

Section Searching.

Variables (trim toLowerCase : string -> string).

(** X15: the search shows every symptom when the search text is blank
    (empty once trimmed); otherwise it shows exactly the symptoms whose
    lower-cased name contains the lower-cased search text as typed, not
    trimmed.  It never shows a symptom that is not in the list, never
    more symptoms than the list has, and searching the result again with
    the same text changes nothing. *)
Theorem X15_search_filters_by_lowercased_name (searchQuery : string)
    (symptoms_ : list Symptom) :
  (Js.is_empty (trim searchQuery) = true ->
   filterSymptoms trim toLowerCase searchQuery symptoms_ = symptoms_)
  /\ (Js.is_empty (trim searchQuery) = false ->
      forall s,
        In s (filterSymptoms trim toLowerCase searchQuery symptoms_) <->
        In s symptoms_ /\
        Js.includes (toLowerCase (name s)) (toLowerCase searchQuery) = true)
  /\ incl (filterSymptoms trim toLowerCase searchQuery symptoms_) symptoms_
  /\ (length (filterSymptoms trim toLowerCase searchQuery symptoms_) <= length symptoms_)%nat
  /\ filterSymptoms trim toLowerCase searchQuery
       (filterSymptoms trim toLowerCase searchQuery symptoms_)
     = filterSymptoms trim toLowerCase searchQuery symptoms_.
Proof.
  unfold filterSymptoms.
  destruct (Js.is_empty (trim searchQuery)).
  - split; [reflexivity|]. split; [discriminate|].
    split; [apply incl_refl|]. split; [apply Nat.le_refl | reflexivity].
  - split; [discriminate|]. split; [intros _ s; apply filter_In|].
    split; [apply incl_filter|]. split; [apply filter_length_le|].
    induction symptoms_ as [|s l IH]; [reflexivity|].
    simpl. destruct (Js.includes _ _) eqn:Hs; simpl.
    + rewrite Hs, IH. reflexivity.
    + exact IH.
Qed.

End Searching.

Lemma X15_search_filters_by_lowercased_name_witness :
  filterSymptoms ascii_trim ascii_lower "   " [headache; back_pain] = [headache; back_pain]
  /\ (In back_pain (filterSymptoms ascii_trim ascii_lower "PAIN" [headache; back_pain])
      /\ ~ In headache (filterSymptoms ascii_trim ascii_lower "PAIN" [headache; back_pain])).
Proof.
  split.
  - apply (proj1 (X15_search_filters_by_lowercased_name ascii_trim ascii_lower "   "
                    [headache; back_pain])).
    reflexivity.
  - split.
    + apply (proj1 (proj2 (X15_search_filters_by_lowercased_name ascii_trim ascii_lower
                             "PAIN" [headache; back_pain])) eq_refl).
      split; [right; left; reflexivity | reflexivity].
    + intros Hin.
      apply (proj1 (proj2 (X15_search_filters_by_lowercased_name ascii_trim ascii_lower
                             "PAIN" [headache; back_pain])) eq_refl) in Hin.
      destruct Hin as [_ Hmatch]. discriminate.
Defined.

Lemma fetchSymptoms_fulfilled (api : ApiService) (screen : HomeLoad) (w : World)
    (data : Js.value) :
  fst (getSymptoms api w) = Fulfilled data ->
  fst (fetchSymptoms api (screen, w)) = mkHomeLoad data false None (load_alerts screen).
Proof.
  intros H. unfold fetchSymptoms.
  destruct (getSymptoms api w) as [[d|e] w']; simpl in *; [congruence|discriminate].
Qed.

(** X16: [fetchSymptoms] always ends with [loading] off, whatever the
    read does.  When the read fails, with any error, the list is kept,
    the error text is the fixed
    ['Failed to load symptoms. Please try again.'] and one alert is added;
    when it succeeds the list is replaced by the value read and the error
    is cleared. *)
Theorem X16_fetchSymptoms_outcomes (api : ApiService) (screen : HomeLoad) (w : World) :
  loading (fst (fetchSymptoms api (screen, w))) = false
  /\ snd (fetchSymptoms api (screen, w)) = snd (getSymptoms api w)
  /\ (forall data, fst (getSymptoms api w) = Fulfilled data ->
        fst (fetchSymptoms api (screen, w)) =
          mkHomeLoad data false None (load_alerts screen))
  /\ (forall e, fst (getSymptoms api w) = Rejected e ->
        fst (fetchSymptoms api (screen, w)) =
          mkHomeLoad (loaded screen) false
            (Some "Failed to load symptoms. Please try again.")
            (load_alerts screen
               ++ [("Error",
                    "Failed to load symptoms. Please check your connection and try again.")])).
Proof.
  unfold fetchSymptoms.
  destruct (getSymptoms api w) as [[data|e] w']; simpl; repeat split;
    try (intros x Hx; inversion Hx; subst; reflexivity).
Qed.

Lemma X16_fetchSymptoms_outcomes_witness :
  fst (fetchSymptoms dev_android (mkHomeLoad (Js.JArr []) true None [], start silent))
  = mkHomeLoad (Js.JArr []) false
      (Some "Failed to load symptoms. Please try again.")
      [("Error", "Failed to load symptoms. Please check your connection and try again.")].
Proof.
  apply (proj2 (proj2 (proj2 (X16_fetchSymptoms_outcomes dev_android
                                (mkHomeLoad (Js.JArr []) true None []) (start silent))))
           request_timed_out eq_refl).
Defined.

(** X17: a successful answer to the read that declares no JSON content
    type is not reported as a failure: [fetchSymptoms] stores the empty
    object [{}] as the list of symptoms, clears the error and shows no
    alert. *)
Theorem X17_non_json_answer_is_stored_as_empty_object
    (api : ApiService) (screen : HomeLoad) (w : World) (k : nat) (response : Response) :
  answered w (baseURL api ++ "/symptoms") (mkRequestInit GET (defaultHeaders api) None)
    API_CONFIG.TIMEOUT k response ->
  ok response = true ->
  declares_no_json response = true ->
  fst (fetchSymptoms api (screen, w)) =
    mkHomeLoad (Js.JObj []) false None (load_alerts screen).
Proof.
  intros Hans Hok Hct.
  apply fetchSymptoms_fulfilled.
  unfold getSymptoms, get.
  rewrite (request_no_json api "/symptoms" get_options w _ response
             (retried_answered api "/symptoms" get_options w k response Hans) Hok Hct).
  reflexivity.
Qed.

Lemma X17_non_json_answer_is_stored_as_empty_object_witness :
  fst (fetchSymptoms dev_android
         (mkHomeLoad (Js.JArr []) false None [],
          start (scripted [SettlesAfter 20 (Fulfilled bare_ok)])))
  = mkHomeLoad (Js.JObj []) false None [].
Proof.
  apply (X17_non_json_answer_is_stored_as_empty_object dev_android
           (mkHomeLoad (Js.JArr []) false None [])
           (start (scripted [SettlesAfter 20 (Fulfilled bare_ok)])) 0 bare_ok).
  - apply answered_first. reflexivity.
  - reflexivity.
  - reflexivity.
Defined.

(** Object spread and assignment, entry by entry. *)
Lemma In_assign {A : Type} (a : list (string * A)) (k : string) (x : A) (p : string * A) :
  In p (Js.assign a k x) -> In p a \/ p = (k, x).
Proof.
  induction a as [|[k' x'] rest IH]; simpl.
  - intros [<-|[]]. right. reflexivity.
  - destruct (String.eqb_spec k' k) as [ -> |Hne]; simpl.
    + intros [<-|H]; [right; reflexivity | left; right; exact H].
    + intros [<-|H]; [left; left; reflexivity|].
      destruct (IH H) as [H'|H']; [left; right; exact H' | right; exact H'].
Qed.

Lemma keys_assign {A : Type} (a : list (string * A)) (k : string) (x : A) (k0 : string) :
  In k0 (map fst (Js.assign a k x)) <-> In k0 (map fst a) \/ k0 = k.
Proof.
  induction a as [|[k' x'] rest IH]; simpl.
  - split; [intros [<-|[]]; right; reflexivity | intros [ [] | -> ]; left; reflexivity].
  - destruct (String.eqb_spec k' k) as [ -> |Hne]; simpl.
    + split; [tauto | intros [H | -> ]; [exact H | left; reflexivity]].
    + rewrite IH. tauto.
Qed.

Lemma In_spread {A : Type} (b a : list (string * A)) (p : string * A) :
  In p (Js.spread a b) -> In p a \/ In p b.
Proof.
  unfold Js.spread. revert a. induction b as [|[k x] b IH]; intros a; simpl.
  - tauto.
  - intros H. apply IH in H as [H|H]; [|tauto].
    apply In_assign in H as [H|H]; [tauto | right; left; symmetry; exact H].
Qed.

Lemma keys_spread {A : Type} (b a : list (string * A)) (k0 : string) :
  In k0 (map fst (Js.spread a b)) <-> In k0 (map fst a) \/ In k0 (map fst b).
Proof.
  unfold Js.spread. revert a. induction b as [|[k x] b IH]; intros a; simpl.
  - tauto.
  - rewrite IH, keys_assign. split; intros H;
      repeat match goal with H : _ \/ _ |- _ => destruct H end; subst; tauto.
Qed.

(* ================================================================== *)
(** ** Properties of the forms *)
(* ================================================================== *)

Lemma apiStages_nil (stages_ : list StageData) :
  has_medications stages_ = false -> apiStages stages_ = [].
Proof.
  unfold apiStages, has_medications. induction stages_ as [|stage rest IH]; simpl.
  - reflexivity.
  - intros H. apply orb_false_iff in H as [H1 H2]. rewrite H1. apply IH, H2.
Qed.

Lemma apiStages_cons (stages_ : list StageData) :
  has_medications stages_ = true -> (length (apiStages stages_) =? 0)%nat = false.
Proof.
  unfold apiStages, has_medications. induction stages_ as [|stage rest IH]; simpl.
  - discriminate.
  - intros H. destruct (0 <? length (medications stage))%nat; simpl.
    + reflexivity.
    + apply IH, H.
Qed.

Section FormProperties.

Variables (trim : string -> string) (parseInt : string -> option Z).

(** X18: when no stage has a medication, [handleSave] of the add-symptom
    screen makes no request: it shows
    ['Please add at least one medication to any stage'] and leaves the
    screen not loading. *)
Theorem X18_nothing_to_save_makes_no_request
    (api : ApiService) (stages_ : list StageData) (screen : AddSymptomScreen) (w : World) :
  has_medications stages_ = false ->
  AddSymptom_handleSave trim api stages_ (screen, w) =
    (mkAddSymptomScreen (symptomName screen) false (showSymptomForm screen)
       (add_alerts screen ++ [("Error", "Please add at least one medication to any stage")]),
     w).
Proof.
  intros Hnone. unfold AddSymptom_handleSave.
  rewrite (apiStages_nil _ Hnone). reflexivity.
Qed.

(** X19: when some stage has a medication, [handleSave] posts to
    [/symptoms], on every fetch it makes, the JSON text of the object
    [{name, isActive, stages}] whose name is the trimmed text, whose flag
    is [true] and whose stages are the formatted stages that have
    medications; it ends not loading with exactly one more alert, titled
    [Success] when the call is fulfilled and [Error], with the text of the
    error, when it is rejected. *)
Theorem X19_save_posts_the_formatted_symptom
    (api : ApiService) (stages_ : list StageData) (screen : AddSymptomScreen) (w : World) :
  has_medications stages_ = true ->
  (exists n, (1 <= n <= 2)%nat /\
     snd (AddSymptom_handleSave trim api stages_ (screen, w)) =
       after w (attempts_trace (baseURL api ++ "/symptoms")
                  (mkRequestInit POST (defaultHeaders api)
                     (Some (Js.JSON_stringify
                              (Js.JObj [("name", Js.JStr (trim (symptomName screen)));
                                        ("isActive", Js.JBool true);
                                        ("stages", Js.JArr (apiStages stages_))]))))
                  n))
  /\ isLoading (fst (AddSymptom_handleSave trim api stages_ (screen, w))) = false
  /\ (forall v,
        fst (createSymptom api (symptomData trim screen stages_) w) = Fulfilled v ->
        add_alerts (fst (AddSymptom_handleSave trim api stages_ (screen, w))) =
          (add_alerts screen ++ [("Success", "Symptom added successfully!")])%list)
  /\ (forall e,
        fst (createSymptom api (symptomData trim screen stages_) w) = Rejected e ->
        add_alerts (fst (AddSymptom_handleSave trim api stages_ (screen, w))) =
          (add_alerts screen
             ++ [("Error", ("Failed to create symptom: " ++ Error_toString e)%string)])%list).
Proof.
  intros Hsome. unfold AddSymptom_handleSave.
  rewrite (apiStages_cons _ Hsome). cbn [symptomName showSymptomForm add_alerts].
  change (symptomData trim
            (mkAddSymptomScreen (symptomName screen) true (showSymptomForm screen)
               (add_alerts screen)) stages_)
    with (symptomData trim screen stages_).
  split; [|split; [|split]].
  - destruct (request_trace api "/symptoms"
                (post_options (Some (symptomData trim screen stages_))) w)
      as [n [Hn Htr]].
    exists n. split; [exact Hn|].
    unfold createSymptom, post in *.
    destruct (request api "/symptoms"
                (post_options (Some (symptomData trim screen stages_))) w)
      as [[v|e] w'] eqn:Hreq; simpl in Htr |- *; rewrite Htr; reflexivity.
  - destruct (createSymptom api (symptomData trim screen stages_) w) as [[v|e] w'];
      reflexivity.
  - intros v Hv.
    destruct (createSymptom api (symptomData trim screen stages_) w) as [[v'|e] w'];
      simpl in Hv; [reflexivity|discriminate].
  - intros e He.
    destruct (createSymptom api (symptomData trim screen stages_) w) as [[v|e'] w'];
      simpl in He; [discriminate|]. inversion He; subst. reflexivity.
Qed.


Lemma validateMedication_flag (medication : PartialMedication) (stageIndex medIndex : Z) :
  fst (validateMedication trim medication stageIndex medIndex)
  = valid_medication trim medication.
Proof.
  unfold validateMedication, valid_medication. simpl.
  destruct (Js.is_empty (pm_name medication)), (Js.is_empty (trim (pm_name medication)));
    simpl; try reflexivity.
  destruct (Z.eqb_spec (pm_quantityMg medication) 0),
           (Z.leb_spec (pm_quantityMg medication) 0),
           (Z.ltb_spec 0 (pm_quantityMg medication)); simpl; try lia;
  destruct (Z.eqb_spec (pm_intervalHours medication) 0),
           (Z.leb_spec (pm_intervalHours medication) 0),
           (Z.ltb_spec 0 (pm_intervalHours medication)); simpl; try lia;
  destruct (Z.eqb_spec (pm_totalDays medication) 0),
           (Z.leb_spec (pm_totalDays medication) 0),
           (Z.ltb_spec 0 (pm_totalDays medication)); simpl; try lia; reflexivity.
Qed.

Lemma validateMedication_errors (medication : PartialMedication) (stageIndex medIndex : Z) :
  snd (validateMedication trim medication stageIndex medIndex) = [] <->
  valid_medication trim medication = true.
Proof.
  rewrite <- (validateMedication_flag medication stageIndex medIndex).
  unfold validateMedication. simpl.
  destruct (Js.is_empty (pm_name medication) || Js.is_empty (trim (pm_name medication)));
  destruct ((pm_quantityMg medication =? 0) || (pm_quantityMg medication <=? 0));
  destruct ((pm_intervalHours medication =? 0) || (pm_intervalHours medication <=? 0));
  destruct ((pm_totalDays medication =? 0) || (pm_totalDays medication <=? 0));
  simpl; split; intros H; try discriminate; reflexivity.
Qed.

Lemma assign_not_nil {A : Type} (a : list (string * A)) (k : string) (x : A) :
  Js.assign a k x <> [].
Proof.
  destruct a as [|[k' x'] rest]; simpl; [discriminate|].
  destruct (String.eqb k' k); discriminate.
Qed.

Lemma spread_nil {A : Type} (b a : list (string * A)) :
  Js.spread a b = [] <-> a = [] /\ b = [].
Proof.
  unfold Js.spread. revert a. induction b as [|[k x] b IH]; intros a; simpl.
  - split; [intros ->; auto | intros [-> _]; reflexivity].
  - split.
    + intros H. apply IH in H as [H _]. now apply assign_not_nil in H.
    + intros [_ H]. discriminate.
Qed.

Lemma validate_medications_spec (meds : list PartialMedication) :
  forall (stageIndex medIndex : Z) (acc : bool * list (string * string)),
    fst (validate_medications trim meds stageIndex medIndex acc)
    = fst acc && forallb (valid_medication trim) meds
    /\ (snd (validate_medications trim meds stageIndex medIndex acc) = [] <->
        snd acc = [] /\ forallb (valid_medication trim) meds = true).
Proof.
  induction meds as [|medication rest IH]; intros stageIndex medIndex acc;
    cbn [validate_medications forallb].
  - rewrite andb_true_r. tauto.
  - destruct (validateMedication trim medication stageIndex medIndex)
      as [isValid errors] eqn:Hv.
    pose proof (validateMedication_flag medication stageIndex medIndex) as Hflag.
    pose proof (validateMedication_errors medication stageIndex medIndex) as Herr.
    rewrite Hv in Hflag, Herr. simpl in Hflag, Herr.
    destruct (IH stageIndex (medIndex + 1) (fst acc && isValid, Js.spread (snd acc) errors))
      as [IHflag IHerr].
    split.
    + rewrite IHflag. simpl. rewrite Hflag. now rewrite andb_assoc.
    + rewrite IHerr. simpl. rewrite spread_nil, Herr, andb_true_iff. tauto.
Qed.

Lemma validate_stages_spec (stages_ : list StageData) :
  forall (stageIndex : Z) (acc : bool * list (string * string)),
    fst (validate_stages trim stages_ stageIndex acc) = fst acc && all_valid trim stages_
    /\ (snd (validate_stages trim stages_ stageIndex acc) = [] <->
        snd acc = [] /\ all_valid trim stages_ = true).
Proof.
  unfold all_valid.
  induction stages_ as [|stage rest IH]; intros stageIndex acc; simpl.
  - rewrite andb_true_r. tauto.
  - destruct (validate_medications_spec (medications stage) stageIndex 0 acc)
      as [Hflag Herr].
    destruct (IH (stageIndex + 1)
                (validate_medications trim (medications stage) stageIndex 0 acc))
      as [IHflag IHerr].
    split.
    + rewrite IHflag, Hflag. now rewrite andb_assoc.
    + rewrite IHerr, Herr, andb_true_iff. tauto.
Qed.

Lemma has_medications_filter (stages_ : list StageData) :
  (length (filter (fun stage => (0 <? length (medications stage))%nat) stages_) =? 0)%nat
  = negb (has_medications stages_).
Proof.
  unfold has_medications. induction stages_ as [|stage rest IH]; simpl.
  - reflexivity.
  - destruct (0 <? length (medications stage))%nat; simpl; [reflexivity|exact IH].
Qed.

Lemma no_medications_all_valid (stages_ : list StageData) :
  has_medications stages_ = false -> all_valid trim stages_ = true.
Proof.
  unfold has_medications, all_valid. induction stages_ as [|stage rest IH]; simpl.
  - reflexivity.
  - intros H. apply orb_false_iff in H as [H1 H2]. rewrite (IH H2), andb_true_r.
    destruct (medications stage); [reflexivity|discriminate].
Qed.

Lemma bad_number (x : Z) : (x =? 0) || (x <=? 0) = true <-> x <= 0.
Proof.
  destruct (Z.eqb_spec x 0), (Z.leb_spec x 0); simpl; split; intros; try lia;
    try reflexivity; discriminate.
Qed.

Lemma validateMedication_In (medication : PartialMedication) (stageIndex medIndex : Z)
    (key msg : string) :
  In (key, msg) (snd (validateMedication trim medication stageIndex medIndex)) <->
  field_error trim medication stageIndex medIndex key msg.
Proof.
  unfold validateMedication, field_error. cbn [snd].
  rewrite !in_app_iff, <- !bad_number.
  destruct (Js.is_empty (pm_name medication) || Js.is_empty (trim (pm_name medication)));
  destruct ((pm_quantityMg medication =? 0) || (pm_quantityMg medication <=? 0));
  destruct ((pm_intervalHours medication =? 0) || (pm_intervalHours medication <=? 0));
  destruct ((pm_totalDays medication =? 0) || (pm_totalDays medication <=? 0));
  simpl; split;
    try (intros H; repeat destruct H as [H|H]; try contradiction;
         try (inversion H; subst; tauto); fail);
    try (intros H;
         repeat match goal with
                | H : _ \/ _ |- _ => destruct H
                | H : _ /\ _ |- _ => destruct H
                end; subst; try discriminate; tauto).
Qed.

(** The errors the loop over the medications of a stage leaves: nothing
    but what it started with and what [validateMedication] records, and
    a key for everything it records. *)
Lemma validate_medications_errors (meds : list PartialMedication) :
  forall (stageIndex medIndex : Z) (acc : bool * list (string * string)),
    (forall p,
       In p (snd (validate_medications trim meds stageIndex medIndex acc)) ->
       In p (snd acc) \/
       exists k medication,
         nth_error meds k = Some medication /\
         In p (snd (validateMedication trim medication stageIndex
                      (medIndex + Z.of_nat k))))
    /\ (forall key,
          In key (map fst (snd (validate_medications trim meds stageIndex medIndex acc)))
          <->
          In key (map fst (snd acc)) \/
          exists k medication,
            nth_error meds k = Some medication /\
            In key (map fst (snd (validateMedication trim medication stageIndex
                                    (medIndex + Z.of_nat k))))).
Proof.
  clear parseInt.
  induction meds as [|medication rest IH]; intros stageIndex medIndex acc;
    cbn [validate_medications].
  - split.
    + intros p H. left. exact H.
    + intros key. split; [tauto|]. intros [H|(k & m & Hk & _)]; [exact H|].
      destruct k; discriminate.
  - destruct (validateMedication trim medication stageIndex medIndex)
      as [isValid errors] eqn:Hv.
    destruct (IH stageIndex (medIndex + 1) (fst acc && isValid, Js.spread (snd acc) errors))
      as [IHin IHkeys].
    assert (Hshift : forall k, medIndex + 1 + Z.of_nat k = medIndex + Z.of_nat (S k))
      by (intros k; lia).
    assert (Hzero : medIndex + Z.of_nat 0 = medIndex) by (simpl; lia).
    split.
    + intros p H. apply IHin in H as [H|(k & m & Hk & Hp)].
      * cbn [snd] in H. apply In_spread in H as [H|H]; [left; exact H|].
        right. exists O, medication. split; [reflexivity|].
        rewrite Hzero, Hv. exact H.
      * right. exists (S k), m. split; [exact Hk|]. rewrite <- Hshift. exact Hp.
    + intros key. rewrite IHkeys. cbn [snd]. rewrite keys_spread. split.
      * intros [[H|H]|(k & m & Hk & Hp)].
        -- left. exact H.
        -- right. exists O, medication. split; [reflexivity|].
           rewrite Hzero, Hv. exact H.
        -- right. exists (S k), m. split; [exact Hk|]. rewrite <- Hshift. exact Hp.
      * intros [H|(k & m & Hk & Hp)]; [left; left; exact H|].
        destruct k as [|k].
        -- simpl in Hk. inversion Hk; subst m. left. right.
           rewrite Hzero, Hv in Hp. exact Hp.
        -- right. exists k, m. split; [exact Hk|]. rewrite Hshift. exact Hp.
Qed.

Lemma validate_stages_errors (stages_ : list StageData) :
  forall (stageIndex : Z) (acc : bool * list (string * string)),
    (forall p,
       In p (snd (validate_stages trim stages_ stageIndex acc)) ->
       In p (snd acc) \/
       exists i stage j medication,
         nth_error stages_ i = Some stage /\
         nth_error (medications stage) j = Some medication /\
         In p (snd (validateMedication trim medication (stageIndex + Z.of_nat i)
                      (Z.of_nat j))))
    /\ (forall key,
          In key (map fst (snd (validate_stages trim stages_ stageIndex acc))) <->
          In key (map fst (snd acc)) \/
          exists i stage j medication,
            nth_error stages_ i = Some stage /\
            nth_error (medications stage) j = Some medication /\
            In key (map fst (snd (validateMedication trim medication
                                    (stageIndex + Z.of_nat i) (Z.of_nat j))))).
Proof.
  clear parseInt.
  induction stages_ as [|stage rest IH]; intros stageIndex acc; cbn [validate_stages].
  - split.
    + intros p H. left. exact H.
    + intros key. split; [tauto|]. intros [H|(i & s & j & m & Hi & _)]; [exact H|].
      destruct i; discriminate.
  - destruct (IH (stageIndex + 1)
                (validate_medications trim (medications stage) stageIndex 0 acc))
      as [IHin IHkeys].
    destruct (validate_medications_errors (medications stage) stageIndex 0 acc)
      as [Hin Hkeys].
    assert (Hshift : forall i, stageIndex + 1 + Z.of_nat i = stageIndex + Z.of_nat (S i))
      by (intros i; lia).
    assert (Hzero : stageIndex + Z.of_nat 0 = stageIndex) by (simpl; lia).
    split.
    + intros p H. apply IHin in H as [H|(i & s & j & m & Hi & Hj & Hp)].
      * apply Hin in H as [H|(j & m & Hj & Hp)]; [left; exact H|].
        right. exists O, stage, j, m. rewrite Hzero.
        split; [reflexivity|]. split; [exact Hj | exact Hp].
      * right. exists (S i), s, j, m. rewrite <- Hshift.
        split; [exact Hi|]. split; [exact Hj | exact Hp].
    + intros key. rewrite IHkeys, Hkeys. split.
      * intros [[H|(j & m & Hj & Hp)]|(i & s & j & m & Hi & Hj & Hp)].
        -- left. exact H.
        -- right. exists O, stage, j, m. rewrite Hzero.
           split; [reflexivity|]. split; [exact Hj | exact Hp].
        -- right. exists (S i), s, j, m. rewrite <- Hshift.
           split; [exact Hi|]. split; [exact Hj | exact Hp].
      * intros [H|(i & s & j & m & Hi & Hj & Hp)]; [left; left; exact H|].
        destruct i as [|i].
        -- simpl in Hi. inversion Hi; subst s. left. right.
           exists j, m. rewrite Hzero in Hp. split; [exact Hj | exact Hp].
        -- right. exists i, s, j, m. rewrite Hshift.
           split; [exact Hi|]. split; [exact Hj | exact Hp].
Qed.

Lemma handleSave_errors (form : SymptomForm) :
  validationErrors (fst (SymptomForm_handleSave trim form)) =
  snd (validate_stages trim (stages_state form) 0 (true, [])).
Proof.
  unfold SymptomForm_handleSave.
  destruct (validate_stages trim (stages_state form) 0 (true, [])) as [allValid errors].
  cbn [stages_state expandedStage validationErrors form_alerts].
  destruct (length _ =? 0)%nat; [reflexivity|].
  destruct (negb allValid); reflexivity.
Qed.

Lemma handleSave_outcome (form : SymptomForm) :
  (snd (SymptomForm_handleSave trim form) = Some (stages_state form) <->
   has_medications (stages_state form) = true /\ all_valid trim (stages_state form) = true)
  /\ (snd (SymptomForm_handleSave trim form) = None <->
      has_medications (stages_state form) = false
      \/ all_valid trim (stages_state form) = false)
  /\ stages_state (fst (SymptomForm_handleSave trim form)) = stages_state form
  /\ (validationErrors (fst (SymptomForm_handleSave trim form)) = [] <->
      all_valid trim (stages_state form) = true)
  /\ form_alerts (fst (SymptomForm_handleSave trim form)) =
       (if has_medications (stages_state form)
        then form_alerts form
        else form_alerts form
               ++ [("Error", "Please add at least one medication to any stage")])%list.
Proof.
  unfold SymptomForm_handleSave.
  destruct (validate_stages_spec (stages_state form) 0 (true, [])) as [Hflag Herr].
  destruct (validate_stages trim (stages_state form) 0 (true, [])) as [allValid errors].
  simpl in Hflag, Herr. cbn [stages_state expandedStage validationErrors form_alerts].
  rewrite has_medications_filter.
  destruct (has_medications (stages_state form)) eqn:Hmeds; simpl.
  - subst allValid. destruct (all_valid trim (stages_state form)) eqn:Hall; simpl;
      repeat match goal with
             | |- _ /\ _ => split
             | |- _ <-> _ => split
             end;
      intros; try reflexivity; try discriminate; try tauto;
      try (apply Herr; tauto);
      try (match goal with H : _ /\ _ |- _ => destruct H; discriminate end);
      try (match goal with H : _ \/ _ |- _ => destruct H; discriminate end);
      try (match goal with H : errors = [] |- _ => apply Herr in H; tauto end).
  - pose proof (no_medications_all_valid _ Hmeds) as Hall. rewrite Hall in *.
    repeat match goal with
           | |- _ /\ _ => split
           | |- _ <-> _ => split
           end;
      intros; try reflexivity; try discriminate; try tauto;
      try (apply Herr; tauto);
      try (match goal with H : _ /\ _ |- _ => destruct H; discriminate end).
Qed.

(** X20: [handleSave] of the validating form calls [onSave], with the
    stages as they are, exactly when some stage has a medication and
    every medication of every stage has a name that is not blank and a
    dosage, an interval and a duration above zero.  It never changes the
    stages; it leaves no validation error exactly when every medication
    is valid; it shows an alert only when there is no medication at all.
    The validation errors it leaves replace the earlier ones: they are
    the same whatever errors the form showed before, every one of them
    is the message of a field that is wrong now, of the medication at
    that position of that stage, and every field that is wrong now has
    its key among them. *)
Theorem X20_form_saves_only_valid_medications (form : SymptomForm) :
  (snd (SymptomForm_handleSave trim form) = Some (stages_state form) <->
   has_medications (stages_state form) = true /\ all_valid trim (stages_state form) = true)
  /\ (snd (SymptomForm_handleSave trim form) = None <->
      has_medications (stages_state form) = false
      \/ all_valid trim (stages_state form) = false)
  /\ stages_state (fst (SymptomForm_handleSave trim form)) = stages_state form
  /\ (validationErrors (fst (SymptomForm_handleSave trim form)) = [] <->
      all_valid trim (stages_state form) = true)
  /\ form_alerts (fst (SymptomForm_handleSave trim form)) =
       (if has_medications (stages_state form)
        then form_alerts form
        else form_alerts form
               ++ [("Error", "Please add at least one medication to any stage")])%list
  /\ (forall earlier : SymptomForm,
        stages_state earlier = stages_state form ->
        validationErrors (fst (SymptomForm_handleSave trim earlier)) =
        validationErrors (fst (SymptomForm_handleSave trim form)))
  /\ (forall key msg,
        In (key, msg) (validationErrors (fst (SymptomForm_handleSave trim form))) ->
        exists i stage j medication,
          nth_error (stages_state form) i = Some stage /\
          nth_error (medications stage) j = Some medication /\
          field_error trim medication (Z.of_nat i) (Z.of_nat j) key msg)
  /\ (forall i stage j medication key msg,
        nth_error (stages_state form) i = Some stage ->
        nth_error (medications stage) j = Some medication ->
        field_error trim medication (Z.of_nat i) (Z.of_nat j) key msg ->
        In key (map fst (validationErrors (fst (SymptomForm_handleSave trim form))))).
Proof.
  clear parseInt.
  destruct (handleSave_outcome form) as (Hsaved & Hkept & Hstages & Hnone & Halerts).
  destruct (validate_stages_errors (stages_state form) 0 (true, [])) as [Hin Hkeys].
  repeat (split; [assumption|]).
  split; [|split].
  - intros earlier Hsame. rewrite !handleSave_errors, Hsame. reflexivity.
  - intros key msg H. rewrite handleSave_errors in H.
    apply Hin in H as [[]|(i & stage & j & medication & Hi & Hj & H)].
    exists i, stage, j, medication. split; [exact Hi|]. split; [exact Hj|].
    apply validateMedication_In. exact H.
  - intros i stage j medication key msg Hi Hj H. rewrite handleSave_errors.
    apply Hkeys. right. exists i, stage, j, medication.
    split; [exact Hi|]. split; [exact Hj|].
    apply validateMedication_In in H. change key with (fst (key, msg)).
    apply in_map. exact H.
Qed.

Lemma all_valid_medication (stages_ : list StageData) (stage : StageData)
    (medication : PartialMedication) :
  all_valid trim stages_ = true ->
  In stage stages_ -> In medication (medications stage) ->
  valid_medication trim medication = true.
Proof.
  unfold all_valid. intros Hall Hstage Hmed.
  rewrite forallb_forall in Hall. specialize (Hall stage Hstage).
  rewrite forallb_forall in Hall. exact (Hall medication Hmed).
Qed.

(** A medication that passes the validation is formatted with its own
    values. *)
Lemma valid_medication_as_entered (medication : PartialMedication) :
  valid_medication trim medication = true ->
  api_medication medication =
    Js.JObj [("name", Js.JStr (pm_name medication));
             ("quantityMg", Js.JNum (pm_quantityMg medication));
             ("intervalHours", Js.JNum (pm_intervalHours medication));
             ("totalDays", Js.JNum (pm_totalDays medication))].
Proof.
  clear parseInt.
  intros Hvalid. unfold valid_medication in Hvalid.
  repeat (apply andb_true_iff in Hvalid as [Hvalid ?]).
  unfold api_medication, number_or.
  repeat match goal with
         | H : (0 <? ?x) = true |- _ =>
             apply Z.ltb_lt in H;
             destruct (Z.eqb_spec x 0); [lia|]
         end.
  reflexivity.
Qed.

(** What the validating form hands to [onSave]. *)
Lemma handleSave_saved (form : SymptomForm) (saved : list StageData) :
  snd (SymptomForm_handleSave trim form) = Some saved ->
  saved = stages_state form
  /\ has_medications saved = true
  /\ all_valid trim saved = true.
Proof.
  intros Hsaved.
  assert (Hstages : saved = stages_state form).
  { unfold SymptomForm_handleSave in Hsaved.
    destruct (validate_stages trim (stages_state form) 0 (true, [])) as [allValid errors].
    cbn [stages_state expandedStage validationErrors form_alerts] in Hsaved.
    destruct (length _ =? 0)%nat; [discriminate|].
    destruct (negb allValid); [discriminate|].
    simpl in Hsaved. congruence. }
  subst saved. split; [reflexivity|].
  apply (proj1 (handleSave_outcome form)). exact Hsaved.
Qed.

(** The stages sent for stages that pass the validation. *)
Lemma apiStages_as_entered (stages_ : list StageData) :
  all_valid trim stages_ = true ->
  apiStages stages_ =
    map (fun stage =>
           Js.JObj
             [("name", Js.JStr (stage_data_name stage));
              ("medication",
               Js.JArr
                 (map (fun medication =>
                         Js.JObj
                           [("name", Js.JStr (pm_name medication));
                            ("quantityMg", Js.JNum (pm_quantityMg medication));
                            ("intervalHours", Js.JNum (pm_intervalHours medication));
                            ("totalDays", Js.JNum (pm_totalDays medication))])
                    (medications stage)))])
      (filter (fun stage => (0 <? length (medications stage))%nat) stages_).
Proof.
  intros Hall. unfold apiStages. apply map_ext_in. intros stage Hstage.
  apply filter_In in Hstage as [Hstage _].
  unfold api_stage. do 5 f_equal.
  apply map_ext_in. intros medication Hmed.
  apply valid_medication_as_entered.
  exact (all_valid_medication _ _ _ Hall Hstage Hmed).
Qed.

(** The request of [handleSave] of the add-symptom screen. *)
Lemma AddSymptom_handleSave_trace
    (api : ApiService) (stages_ : list StageData) (screen : AddSymptomScreen) (w : World) :
  has_medications stages_ = true ->
  exists n, (1 <= n <= 2)%nat /\
    snd (AddSymptom_handleSave trim api stages_ (screen, w)) =
      after w (attempts_trace (baseURL api ++ "/symptoms")
                 (mkRequestInit POST (defaultHeaders api)
                    (Some (Js.JSON_stringify
                             (Js.JObj [("name", Js.JStr (trim (symptomName screen)));
                                       ("isActive", Js.JBool true);
                                       ("stages", Js.JArr (apiStages stages_))]))))
                 n).
Proof.
  intros Hsome. unfold AddSymptom_handleSave.
  rewrite (apiStages_cons _ Hsome). cbn [symptomName showSymptomForm add_alerts].
  change (symptomData trim
            (mkAddSymptomScreen (symptomName screen) true (showSymptomForm screen)
               (add_alerts screen)) stages_)
    with (symptomData trim screen stages_).
  destruct (request_trace api "/symptoms"
              (post_options (Some (symptomData trim screen stages_))) w)
    as [n [Hn Htr]].
  exists n. split; [exact Hn|].
  unfold createSymptom, post in *.
  destruct (request api "/symptoms"
              (post_options (Some (symptomData trim screen stages_))) w)
    as [[v|e] w'] eqn:Hreq; simpl in Htr |- *; rewrite Htr; reflexivity.
Qed.

(** X21: the stages that the validating form hands to [onSave] always
    lead [handleSave] of the add-symptom screen to a request: given
    these stages, whatever the screen and the network, it fetches
    [POST /symptoms] once or twice, each time with the JSON text of the
    trimmed symptom name, [isActive] true, and the stages that have
    medications, where every medication is written with its own name,
    dosage, interval and duration: none of the defaults [0], [8] and
    [5] replaces a value. *)
Theorem X21_validated_stages_are_sent_as_entered
    (form : SymptomForm) (saved : list StageData)
    (api : ApiService) (screen : AddSymptomScreen) (w : World) :
  snd (SymptomForm_handleSave trim form) = Some saved ->
  has_medications saved = true
  /\ (forall stage medication,
        In stage saved -> In medication (medications stage) ->
        api_medication medication =
          Js.JObj [("name", Js.JStr (pm_name medication));
                   ("quantityMg", Js.JNum (pm_quantityMg medication));
                   ("intervalHours", Js.JNum (pm_intervalHours medication));
                   ("totalDays", Js.JNum (pm_totalDays medication))])
  /\ (exists n, (1 <= n <= 2)%nat /\
        snd (AddSymptom_handleSave trim api saved (screen, w)) =
          after w
            (attempts_trace (baseURL api ++ "/symptoms")
               (mkRequestInit POST (defaultHeaders api)
                  (Some (Js.JSON_stringify
                     (Js.JObj
                        [("name", Js.JStr (trim (symptomName screen)));
                         ("isActive", Js.JBool true);
                         ("stages",
                          Js.JArr
                            (map (fun stage =>
                                    Js.JObj
                                      [("name", Js.JStr (stage_data_name stage));
                                       ("medication",
                                        Js.JArr
                                          (map (fun medication =>
                                                  Js.JObj
                                                    [("name", Js.JStr (pm_name medication));
                                                     ("quantityMg",
                                                      Js.JNum (pm_quantityMg medication));
                                                     ("intervalHours",
                                                      Js.JNum (pm_intervalHours medication));
                                                     ("totalDays",
                                                      Js.JNum (pm_totalDays medication))])
                                             (medications stage)))])
                               (filter (fun stage =>
                                          (0 <? length (medications stage))%nat)
                                       saved)))]))))
               n)).
Proof.
  clear parseInt.
  intros Hsaved.
  destruct (handleSave_saved form saved Hsaved) as (_ & Hsome & Hall).
  split; [exact Hsome|]. split.
  - intros stage medication Hstage Hmed.
    apply valid_medication_as_entered.
    exact (all_valid_medication _ _ _ Hall Hstage Hmed).
  - rewrite <- (apiStages_as_entered saved Hall).
    exact (AddSymptom_handleSave_trace api saved screen w Hsome).
Qed.

(** X22: [handleSave] of the form that only checks the names calls
    [onSave], with the stages as they are, exactly when no medication has
    a blank name; it does so for a form without any medication and for
    any dosage, interval and duration.  Otherwise it shows
    ['All medications must have a name'] once. *)
Theorem X22_names_form_checks_names_only
    (stages_ : list StageData) (shown : list (string * string)) :
  (snd (NamesForm_handleSave trim stages_ shown) = Some stages_ <->
   forall stage medication,
     In stage stages_ -> In medication (medications stage) ->
     Js.is_empty (trim (pm_name medication)) = false)
  /\ (snd (NamesForm_handleSave trim stages_ shown) = Some stages_ ->
      fst (NamesForm_handleSave trim stages_ shown) = shown)
  /\ (snd (NamesForm_handleSave trim stages_ shown) <> Some stages_ ->
      NamesForm_handleSave trim stages_ shown =
        ((shown ++ [("Error", "All medications must have a name")])%list, None)).
Proof.
  unfold NamesForm_handleSave.
  destruct (existsb _ stages_) eqn:Hblank; simpl.
  - split; [|split].
    + split; [discriminate|]. intros Hnames. exfalso.
      apply existsb_exists in Hblank as [stage [Hstage Hblank]].
      apply existsb_exists in Hblank as [medication [Hmed Hblank]].
      rewrite (Hnames stage medication Hstage Hmed) in Hblank. discriminate.
    + discriminate.
    + reflexivity.
  - split; [|split].
    + split; [|reflexivity]. intros _ stage medication Hstage Hmed.
      destruct (Js.is_empty (trim (pm_name medication))) eqn:Hname; [|reflexivity].
      assert (existsb (fun stage =>
                existsb (fun medication => Js.is_empty (trim (pm_name medication)))
                  (medications stage)) stages_ = true) as Hex.
      { apply existsb_exists. exists stage. split; [exact Hstage|].
        apply existsb_exists. exists medication. split; assumption. }
      congruence.
    + reflexivity.
    + intros H. now destruct H.
Qed.
End FormProperties.

(* ================================================================== *)
(** ** Editing the medications of a stage *)
(* ================================================================== *)

Lemma at_index_none {A : Type} (l : list A) (i : Z) :
  at_index l i = None <-> i < 0 \/ Z.of_nat (length l) <= i.
Proof.
  unfold at_index. destruct (Z.ltb_spec i 0) as [Hneg|Hpos].
  - split; [left; exact Hneg | reflexivity].
  - rewrite nth_error_None. lia.
Qed.

Lemma at_index_some {A : Type} (l : list A) (i : Z) (x : A) :
  at_index l i = Some x <-> 0 <= i /\ nth_error l (Z.to_nat i) = Some x.
Proof.
  unfold at_index. destruct (Z.ltb_spec i 0) as [Hneg|Hpos].
  - split; [discriminate | intros [H _]; lia].
  - tauto.
Qed.

Lemma length_replace_at {A : Type} (l : list A) (i : nat) (x : A) :
  length (replace_at l i x) = length l.
Proof.
  revert i. induction l as [|y l IH]; intros [|i]; simpl; try reflexivity.
  now rewrite IH.
Qed.

Lemma nth_error_replace_at {A : Type} (l : list A) (i j : nat) (x : A) :
  nth_error (replace_at l i x) j =
  if (j =? i)%nat then option_map (fun _ => x) (nth_error l j) else nth_error l j.
Proof.
  revert i j. induction l as [|y l IH]; intros [|i] [|j]; simpl;
    try reflexivity; try apply IH.
  now destruct (j =? i)%nat.
Qed.

Lemma replace_at_same {A : Type} (l : list A) (i : nat) (x : A) :
  nth_error l i = Some x -> replace_at l i x = l.
Proof.
  revert i. induction l as [|y l IH]; intros [|i] H; simpl in *; try reflexivity.
  - congruence.
  - now rewrite IH.
Qed.

Lemma replace_at_twice {A : Type} (l : list A) (i : nat) (x y : A) :
  replace_at (replace_at l i x) i y = replace_at l i y.
Proof.
  revert i. induction l as [|z l IH]; intros [|i]; simpl; try reflexivity.
  now rewrite IH.
Qed.

Lemma splice_one_within {A : Type} (l : list A) (start : Z) :
  0 <= start < Z.of_nat (length l) ->
  splice_one l start = (firstn (Z.to_nat start) l ++ skipn (S (Z.to_nat start)) l)%list.
Proof.
  intros H. unfold splice_one.
  destruct (Z.ltb_spec start 0); [lia|]. now rewrite Z.min_l by lia.
Qed.

Lemma splice_one_beyond {A : Type} (l : list A) (start : Z) :
  Z.of_nat (length l) <= start -> splice_one l start = l.
Proof.
  intros H. unfold splice_one.
  destruct (Z.ltb_spec start 0); [lia|]. rewrite Z.min_r by lia.
  rewrite Nat2Z.id, firstn_all, skipn_all2 by lia. apply app_nil_r.
Qed.

Lemma splice_one_from_end {A : Type} (l : list A) :
  splice_one l (-1) = removelast l.
Proof.
  unfold splice_one. change (-1 <? 0) with true. cbv iota zeta.
  destruct l as [|x l]; [reflexivity|].
  assert (H : Z.max (Z.of_nat (length (x :: l)) + -1) 0 = Z.of_nat (length l))
    by (simpl length; lia).
  rewrite H, Nat2Z.id.
  rewrite skipn_all2 by (simpl; lia). rewrite app_nil_r.
  rewrite removelast_firstn_len. reflexivity.
Qed.

Lemma splice_one_appended {A : Type} (l : list A) (x : A) :
  splice_one (l ++ [x]) (Z.of_nat (length l)) = l.
Proof.
  rewrite splice_one_within by (rewrite length_app; simpl; lia).
  rewrite Nat2Z.id, firstn_app, firstn_all, Nat.sub_diag. simpl firstn.
  rewrite skipn_all2 by (rewrite length_app; simpl; lia).
  now rewrite !app_nil_r.
Qed.

(** X23: adding a medication to a stage that exists appends the default
    medication (no name, 400 mg every 8 hours for 5 days) to that stage,
    leaves every other stage and the number of stages as they were, and
    clears the validation errors; removing the medication just added
    gives back the stages as they were.  For an index below zero or
    beyond the last stage the handler throws and writes nothing. *)
Theorem X23_adding_a_medication (stageIndex : Z) (form : SymptomForm) :
  (stageIndex < 0 \/ Z.of_nat (length (stages_state form)) <= stageIndex ->
   addMedicationToStage stageIndex form = None)
  /\ (forall stage,
        0 <= stageIndex ->
        nth_error (stages_state form) (Z.to_nat stageIndex) = Some stage ->
        exists form',
          addMedicationToStage stageIndex form = Some form'
          /\ nth_error (stages_state form') (Z.to_nat stageIndex)
             = Some (mkStageData (stage_data_name stage)
                       (medications stage
                          ++ [mkPartialMedication None EmptyString 8 5 400 None (Some 0)
                                None None]))
          /\ (forall j, j <> Z.to_nat stageIndex ->
                nth_error (stages_state form') j = nth_error (stages_state form) j)
          /\ length (stages_state form') = length (stages_state form)
          /\ validationErrors form' = []
          /\ option_map stages_state
               (removeMedication_onPress stageIndex
                  (Z.of_nat (length (medications stage))) form')
             = Some (stages_state form)).
Proof.
  split.
  - intros Hout. unfold addMedicationToStage.
    now rewrite (proj2 (at_index_none _ _) Hout).
  - intros stage Hpos Hnth. unfold addMedicationToStage.
    rewrite (proj2 (at_index_some _ _ _) (conj Hpos Hnth)).
    eexists. split; [reflexivity|]. cbn [stages_state validationErrors].
    split; [|split; [|split; [|split]]].
    + rewrite nth_error_replace_at, Nat.eqb_refl, Hnth. reflexivity.
    + intros j Hj. rewrite nth_error_replace_at.
      destruct (Nat.eqb_spec j (Z.to_nat stageIndex)); [contradiction|reflexivity].
    + apply length_replace_at.
    + reflexivity.
    + unfold removeMedication_onPress. cbn [stages_state].
      rewrite (proj2 (at_index_some _ _ _)
                 (conj Hpos (eq_trans (nth_error_replace_at _ _ _ _)
                               (eq_trans (f_equal (fun b : bool =>
                                            if b then option_map _ _ else _)
                                            (Nat.eqb_refl _))
                                  (f_equal (option_map _) Hnth))))).
      cbn [option_map stages_state stage_data_name medications].
      rewrite splice_one_appended, replace_at_twice.
      rewrite replace_at_same; [reflexivity|].
      rewrite Hnth. now destruct stage.
Qed.

(** X24: the [Remove] button, for a stage that exists, takes out the
    medication at the given index and keeps the others in order; an
    index at or beyond the number of medications removes nothing, and
    the index [-1] removes the last one.  Every other stage is kept, and
    the validation errors that remain are those whose key does not start
    with [<stage>-<medication>-]. *)
Theorem X24_removing_a_medication (stageIndex medIndex : Z) (form : SymptomForm)
    (stage : StageData) :
  0 <= stageIndex ->
  nth_error (stages_state form) (Z.to_nat stageIndex) = Some stage ->
  exists form' meds',
    removeMedication_onPress stageIndex medIndex form = Some form'
    /\ nth_error (stages_state form') (Z.to_nat stageIndex)
       = Some (mkStageData (stage_data_name stage) meds')
    /\ (0 <= medIndex < Z.of_nat (length (medications stage)) ->
        S (length meds') = length (medications stage)
        /\ forall j,
             nth_error meds' j =
             if (j <? Z.to_nat medIndex)%nat
             then nth_error (medications stage) j
             else nth_error (medications stage) (S j))
    /\ (Z.of_nat (length (medications stage)) <= medIndex -> meds' = medications stage)
    /\ (medIndex = -1 -> meds' = removelast (medications stage))
    /\ (forall j, j <> Z.to_nat stageIndex ->
          nth_error (stages_state form') j = nth_error (stages_state form) j)
    /\ (forall key msg,
          In (key, msg) (validationErrors form') <->
          In (key, msg) (validationErrors form)
          /\ String.prefix
               (Js.string_of_Z stageIndex ++ "-" ++ Js.string_of_Z medIndex ++ "-") key
             = false).
Proof.
  intros Hpos Hnth. unfold removeMedication_onPress.
  rewrite (proj2 (at_index_some _ _ _) (conj Hpos Hnth)).
  eexists. exists (splice_one (medications stage) medIndex).
  split; [reflexivity|]. cbn [stages_state validationErrors].
  split; [|split; [|split; [|split; [|split]]]].
  - rewrite nth_error_replace_at, Nat.eqb_refl, Hnth. reflexivity.
  - intros Hin. rewrite splice_one_within by exact Hin. split.
    + rewrite length_app, length_firstn, length_skipn. lia.
    + intros j. destruct (Nat.ltb_spec j (Z.to_nat medIndex)) as [Hlt|Hge].
      * rewrite nth_error_app1 by (rewrite length_firstn; lia).
        rewrite nth_error_firstn.
        destruct (Nat.ltb_spec j (Z.to_nat medIndex)); [reflexivity|lia].
      * rewrite nth_error_app2 by (rewrite length_firstn; lia).
        rewrite nth_error_skipn, length_firstn. f_equal. lia.
  - apply splice_one_beyond.
  - intros ->. apply splice_one_from_end.
  - intros j Hj. rewrite nth_error_replace_at.
    destruct (Nat.eqb_spec j (Z.to_nat stageIndex)); [contradiction|reflexivity].
  - intros key msg. rewrite filter_In. simpl fst.
    rewrite negb_true_iff. reflexivity.
Qed.

(* ================================================================== *)
(** ** The add-medication screen *)
(* ================================================================== *)

Lemma attempts_trace_issued (w : World) (url : string) (config : RequestInit) (n : nat) :
  issued (after w (attempts_trace url config n)) = (issued w + n)%nat.
Proof. rewrite issued_after, fetch_count_attempts. reflexivity. Qed.

Section MedicationScreen.

Variables (trim : string -> string) (parseInt : string -> option Z).

(** X25: [handleSave] of the add-medication screen makes a request
    exactly when the trimmed name is not empty and none of the three
    number texts is empty.  A blank name is reported first, with
    ['Please enter a medication name']; an empty number text with
    ['Please fill in all fields']; in both cases the loading flag is left
    as it was. *)
Theorem X25_medication_is_sent_only_when_filled_in
    (api : ApiService) (stageId_ symptomId_ : Z) (screen : AddMedicationScreen) (w : World) :
  (issued (snd (AddMedication_handleSave trim parseInt api stageId_ symptomId_ (screen, w)))
   = issued w <->
   Js.is_empty (trim (med_name_text screen)) = true
   \/ Js.is_empty (intervalHours_text screen) = true
   \/ Js.is_empty (totalDays_text screen) = true
   \/ Js.is_empty (quantityMg_text screen) = true)
  /\ (Js.is_empty (trim (med_name_text screen)) = true ->
      AddMedication_handleSave trim parseInt api stageId_ symptomId_ (screen, w) =
        (mkAddMedicationScreen (med_name_text screen) (intervalHours_text screen)
           (totalDays_text screen) (quantityMg_text screen) (med_isLoading screen)
           (med_alerts screen ++ [("Error", "Please enter a medication name")]), w))
  /\ (Js.is_empty (trim (med_name_text screen)) = false ->
      Js.is_empty (intervalHours_text screen) = true
      \/ Js.is_empty (totalDays_text screen) = true
      \/ Js.is_empty (quantityMg_text screen) = true ->
      AddMedication_handleSave trim parseInt api stageId_ symptomId_ (screen, w) =
        (mkAddMedicationScreen (med_name_text screen) (intervalHours_text screen)
           (totalDays_text screen) (quantityMg_text screen) (med_isLoading screen)
           (med_alerts screen ++ [("Error", "Please fill in all fields")]), w)).
Proof.
  unfold AddMedication_handleSave.
  destruct (Js.is_empty (trim (med_name_text screen))) eqn:Hname.
  - split; [split; [intros _; left; reflexivity | intros _; reflexivity]|].
    split; [reflexivity | discriminate].
  - destruct (Js.is_empty (intervalHours_text screen)
              || Js.is_empty (totalDays_text screen)
              || Js.is_empty (quantityMg_text screen)) eqn:Hnum.
    + split; [split; [|reflexivity]|split; [discriminate|reflexivity]].
      intros _. right.
      apply orb_true_iff in Hnum as [Hnum|Hnum]; [|tauto].
      apply orb_true_iff in Hnum as [Hnum|Hnum]; tauto.
    + apply orb_false_iff in Hnum as [Hnum Hq].
      apply orb_false_iff in Hnum as [Hi Hd].
      split; [split|split; [discriminate|]].
      * intros Hsame. exfalso.
        destruct (request_trace api "/Medication"
                    (post_options (Some (medicationData trim parseInt stageId_ symptomId_
                                           screen))) w) as [n [Hn Htr]].
        unfold createMedication, post in Hsame.
        destruct (request api "/Medication" _ w) as [[v|e] w']; simpl in Htr, Hsame;
          subst w'; rewrite attempts_trace_issued in Hsame; lia.
      * intros [H|[H|[H|H]]]; congruence.
      * intros _ [H|[H|H]]; congruence.
Qed.

(** X26: when the name and the three number texts are filled in,
    [handleSave] posts to [/Medication], on every fetch it makes, the JSON
    text of the medication: the trimmed name, the three numbers as
    [parseInt] reads them, [null] where it reads no number, the symptom id
    as [treatmentId], the stage id, and [null] for [stage] and [intakes].
    It ends not loading, with the name and the three number texts as
    they were, and with one more alert: the success alert when the call
    resolves, the failure alert with the error's text when it rejects. *)
Theorem X26_medication_is_posted_as_parsed
    (api : ApiService) (stageId_ symptomId_ : Z) (screen : AddMedicationScreen) (w : World) :
  Js.is_empty (trim (med_name_text screen)) = false ->
  Js.is_empty (intervalHours_text screen) = false ->
  Js.is_empty (totalDays_text screen) = false ->
  Js.is_empty (quantityMg_text screen) = false ->
  (exists n, (1 <= n <= 2)%nat /\
     snd (AddMedication_handleSave trim parseInt api stageId_ symptomId_ (screen, w)) =
       after w
         (attempts_trace (baseURL api ++ "/Medication")
            (mkRequestInit POST (defaultHeaders api)
               (Some (Js.JSON_stringify
                  (Js.JObj
                     [("name", Js.JStr (trim (med_name_text screen)));
                      ("intervalHours",
                       match parseInt (intervalHours_text screen) with
                       | Some n => Js.JNum n
                       | None => Js.JNull
                       end);
                      ("totalDays",
                       match parseInt (totalDays_text screen) with
                       | Some n => Js.JNum n
                       | None => Js.JNull
                       end);
                      ("quantityMg",
                       match parseInt (quantityMg_text screen) with
                       | Some n => Js.JNum n
                       | None => Js.JNull
                       end);
                      ("treatmentId", Js.JNum symptomId_);
                      ("stageId", Js.JNum stageId_);
                      ("stage", Js.JNull);
                      ("intakes", Js.JNull)]))))
            n))
  /\ med_isLoading
       (fst (AddMedication_handleSave trim parseInt api stageId_ symptomId_ (screen, w)))
     = false
  /\ med_name_text
       (fst (AddMedication_handleSave trim parseInt api stageId_ symptomId_ (screen, w)))
     = med_name_text screen
  /\ length (med_alerts
               (fst (AddMedication_handleSave trim parseInt api stageId_ symptomId_
                       (screen, w))))
     = S (length (med_alerts screen))
  /\ intervalHours_text
       (fst (AddMedication_handleSave trim parseInt api stageId_ symptomId_ (screen, w)))
     = intervalHours_text screen
  /\ totalDays_text
       (fst (AddMedication_handleSave trim parseInt api stageId_ symptomId_ (screen, w)))
     = totalDays_text screen
  /\ quantityMg_text
       (fst (AddMedication_handleSave trim parseInt api stageId_ symptomId_ (screen, w)))
     = quantityMg_text screen
  /\ med_alerts
       (fst (AddMedication_handleSave trim parseInt api stageId_ symptomId_ (screen, w)))
     = (med_alerts screen
          ++ [match fst (createMedication api
                           (medicationData trim parseInt stageId_ symptomId_ screen) w) with
              | Fulfilled _ => ("Success", "Medication added successfully!")
              | Rejected error =>
                  ("Error", ("Failed to create medication: " ++ Error_toString error)%string)
              end])%list.
Proof.
  intros Hname Hi Hd Hq. unfold AddMedication_handleSave.
  rewrite Hname, Hi, Hd, Hq. simpl orb. cbv iota.
  destruct (request_trace api "/Medication"
              (post_options (Some (medicationData trim parseInt stageId_ symptomId_
                                     screen))) w) as [n [Hn Htr]].
  unfold createMedication, post in *.
  destruct (request api "/Medication" _ w) as [[v|e] w']; simpl in Htr; subst w';
    (split; [exists n; split; [exact Hn|reflexivity]|]);
    (split; [reflexivity|]); (split; [reflexivity|]);
    (split; [simpl; rewrite length_app; simpl; lia|]);
    repeat split.
Qed.

End MedicationScreen.

(* ================================================================== *)
(** ** The forms on concrete contents *)
(* ================================================================== *)

Lemma X18_nothing_to_save_makes_no_request_witness :
  AddSymptom_handleSave ascii_trim dev_android (three_stages [])
    (naming_migraine, start silent)
  = (mkAddSymptomScreen " Migraine " false true
       [("Error", "Please add at least one medication to any stage")],
     start silent).
Proof.
  apply (X18_nothing_to_save_makes_no_request ascii_trim dev_android (three_stages [])
           naming_migraine (start silent)).
  reflexivity.
Defined.

Lemma X19_save_posts_the_formatted_symptom_witness :
  add_alerts (fst (AddSymptom_handleSave ascii_trim dev_android (three_stages [ibuprofen])
                     (naming_migraine,
                      start (accepting migraine_created))))
  = [("Success", "Symptom added successfully!")].
Proof.
  apply (proj1 (proj2 (proj2 (X19_save_posts_the_formatted_symptom ascii_trim dev_android
                                (three_stages [ibuprofen]) naming_migraine
                                (start (accepting migraine_created)) eq_refl)))
           migraine_created).
  reflexivity.
Defined.

Lemma X21_validated_stages_are_sent_as_entered_witness :
  exists n,
    snd (AddSymptom_handleSave ascii_trim dev_android (three_stages [ibuprofen])
           (naming_migraine, start silent))
    = after (start silent)
        (attempts_trace "http://10.0.2.2:5050/api/symptoms"
           (mkRequestInit POST
              [("Content-Type", "application/json"); ("Accept", "application/json")]
              (Some (Js.dq "{'name':'Migraine','isActive':true,'stages':[{'name':'Severe','medication':[{'name':'Ibuprofen','quantityMg':400,'intervalHours':8,'totalDays':5}]}]}")))
           n).
Proof.
  destruct (X21_validated_stages_are_sent_as_entered ascii_trim ready_form
              (three_stages [ibuprofen]) dev_android naming_migraine (start silent)
              eq_refl)
    as (_ & _ & n & _ & Hrun).
  exists n. exact Hrun.
Defined.

Lemma X24_removing_a_medication_witness :
  exists form',
    removeMedication_onPress 2 0 severe_with_two = Some form'
    /\ nth_error (stages_state form') 2
       = Some (mkStageData "Severe" [unnamed_medication]).
Proof.
  destruct (X24_removing_a_medication 2 0 severe_with_two
              (mkStageData "Severe" [ibuprofen; unnamed_medication]))
    as (form' & meds' & Hrun & Hstage & Hin & _).
  - lia.
  - reflexivity.
  - exists form'. split; [exact Hrun|].
    change 2%nat with (Z.to_nat 2). rewrite Hstage. f_equal. f_equal.
    destruct Hin as [Hlen Hnth]; [simpl; lia|].
    pose proof (Hnth 0%nat) as H0. simpl in H0, Hlen.
    destruct meds' as [|m [|m' rest]]; simpl in *; try discriminate. congruence.
Defined.

Lemma X26_medication_is_posted_as_parsed_witness :
  exists n,
    snd (AddMedication_handleSave ascii_trim decimal_parseInt dev_android 21 7
           (typed_medication, start silent))
    = after (start silent)
        (attempts_trace "http://10.0.2.2:5050/api/Medication"
           (mkRequestInit POST
              [("Content-Type", "application/json"); ("Accept", "application/json")]
              (Some (Js.dq "{'name':'Ibuprofen','intervalHours':8,'totalDays':null,'quantityMg':400,'treatmentId':7,'stageId':21,'stage':null,'intakes':null}")))
           n).
Proof.
  destruct (X26_medication_is_posted_as_parsed ascii_trim decimal_parseInt dev_android 21 7
              typed_medication (start silent) eq_refl eq_refl eq_refl eq_refl)
    as [[n [_ Hrun]] _].
  exists n. exact Hrun.
Defined.

Lemma X20_form_saves_only_valid_medications_witness :
  snd (SymptomForm_handleSave ascii_trim ready_form) = Some (three_stages [ibuprofen])
  /\ snd (SymptomForm_handleSave ascii_trim severe_with_two) = None.
Proof.
  split.
  - apply (proj2 (proj1 (X20_form_saves_only_valid_medications ascii_trim ready_form))).
    split; reflexivity.
  - apply (proj2 (proj1 (proj2 (X20_form_saves_only_valid_medications ascii_trim
                                  severe_with_two)))).
    right. reflexivity.
Defined.

Lemma X22_names_form_checks_names_only_witness :
  snd (NamesForm_handleSave ascii_trim (three_stages []) []) = Some (three_stages []).
Proof.
  apply (proj2 (proj1 (X22_names_form_checks_names_only ascii_trim (three_stages []) []))).
  intros stage medication [<-|[<-|[<-|[]]]] [].
Defined.

Lemma X23_adding_a_medication_witness :
  addMedicationToStage 3 ready_form = None
  /\ exists form',
       addMedicationToStage 2 ready_form = Some form'
       /\ nth_error (stages_state form') 2
          = Some (mkStageData "Severe" [ibuprofen; newMedication]).
Proof.
  split.
  - apply (proj1 (X23_adding_a_medication 3 ready_form)). right. simpl. lia.
  - destruct (proj2 (X23_adding_a_medication 2 ready_form)
                (mkStageData "Severe" [ibuprofen])) as (form' & Hrun & Hstage & _).
    + lia.
    + reflexivity.
    + exists form'. split; [exact Hrun | exact Hstage].
Defined.

Lemma X25_medication_is_sent_only_when_filled_in_witness :
  AddMedication_handleSave ascii_trim decimal_parseInt dev_android 21 7
    (mkAddMedicationScreen "  " "8" "5" "400" false [], start silent)
  = (mkAddMedicationScreen "  " "8" "5" "400" false
       [("Error", "Please enter a medication name")], start silent).
Proof.
  apply (proj1 (proj2 (X25_medication_is_sent_only_when_filled_in ascii_trim
                         decimal_parseInt dev_android 21 7
                         (mkAddMedicationScreen "  " "8" "5" "400" false [])
                         (start silent)))).
  reflexivity.
Defined.
